(** * Netflix content strategy analysis: the data pipeline of [main.py]

    A shallow embedding of the batch pipeline of [main.py] (loading,
    numeric cleaning, date enrichment, season classification, aggregation,
    holiday matching and top-N selection) and the properties its
    specification states about it.  The dashboard entry point
    [run_dashboard] repeats the same steps and is not embedded.

    The program is a pandas script.  A [DataFrame] is embedded as its
    column header together with its rows in order; a cell is a
    dynamically typed [value].  Printing and file output are threaded
    through a small state and exception monad [M].

    What pandas does inside a call is embedded by its documented
    behaviour, on the following fragment:
    - a number is a whole number ([VInt] in an int64 column, [VFloat] in
      a float64 column); float64 is exact on these up to 2^53, which
      covers hour counts.  Text with a non-zero fraction, an exponent or
      an infinity is outside the fragment: [to_numeric] below does not
      tell it from text that is no number at all;
    - a timestamp is a count of nanoseconds since 1970-01-01; date text
      is read in the ISO form YYYY-MM-DD only;
    - sorting is stable, and [nlargest] is the head of the descending
      sort with missing values last, as pandas documents it
      ([keep='first']);
    - summing a column of text is refused with a [TypeError];
    - building and rendering a figure cannot fail. *)

From Stdlib Require Import ZArith String Ascii List Lia.
From stdpp Require Import base tactics option list strings gmap pretty sorting.

Local Open Scope string_scope.
Local Open Scope Z_scope.

(** ** Cells *)

Inductive value :=
| VStr (s : string)          (* text *)
| VInt (z : Z)               (* int64 *)
| VFloat (z : Z)             (* float64 holding a whole number *)
| VNaN                       (* float64 NaN: the missing number *)
| VTimestamp (ns : Z)        (* datetime64[ns] *)
| VNaT                       (* the missing timestamp *)
| VNone.                     (* Python's None *)

#[global] Instance value_eq_dec : EqDecision value.
Proof. solve_decision. Defined.

(** [pd.isna] / [pd.notna] on a scalar. *)
Definition isna (v : value) : bool :=
  match v with
  | VNaN | VNaT | VNone => true
  | _ => false
  end.

Definition notna (v : value) : bool := negb (isna v).

(** ** Text *)

(** [str.isspace] on an ASCII character. *)
Definition py_isspace (c : ascii) : bool :=
  match c with
  | "009" | "010" | "011" | "012" | "013"
  | "028" | "029" | "030" | "031" | " " => true
  | _ => false
  end%char.

(** [s.replace(old, new)] for a one-character [old]. *)
Fixpoint str_replace (old : ascii) (new : string) (s : string) : string :=
  match s with
  | EmptyString => EmptyString
  | String c s' =>
      if Ascii.eqb c old then new +:+ str_replace old new s'
      else String c (str_replace old new s')
  end.

Fixpoint lstrip (s : string) : string :=
  match s with
  | EmptyString => EmptyString
  | String c s' => if py_isspace c then lstrip s' else s
  end.

Fixpoint rstrip (s : string) : string :=
  match s with
  | EmptyString => EmptyString
  | String c s' =>
      match rstrip s' with
      | EmptyString => if py_isspace c then EmptyString else String c EmptyString
      | t => String c t
      end
  end.

(** [s.strip()] *)
Definition str_strip (s : string) : string := rstrip (lstrip s).

(** ** Calendar *)

Definition NS_PER_SECOND : Z := 1000000000.
Definition NS_PER_DAY : Z := 86400 * NS_PER_SECOND.

(** [Timedelta.days]: whole days, rounded towards minus infinity. *)
Definition timedelta_days (ns : Z) : Z := ns / NS_PER_DAY.

(** Days since 1970-01-01 of a proleptic Gregorian date. *)
Definition days_from_civil (y m d : Z) : Z :=
  let y' := if m <=? 2 then y - 1 else y in
  let era := y' / 400 in
  let yoe := y' - era * 400 in
  let mp := (m + 9) mod 12 in
  let doy := (153 * mp + 2) / 5 + d - 1 in
  let doe := yoe * 365 + yoe / 4 - yoe / 100 + doy in
  era * 146097 + doe - 719468.

(** The date (year, month, day) of a day count. *)
Definition civil_from_days (z : Z) : Z * Z * Z :=
  let z' := z + 719468 in
  let era := z' / 146097 in
  let doe := z' - era * 146097 in
  let yoe := (doe - doe / 1460 + doe / 36524 - doe / 146096) / 365 in
  let doy := doe - (365 * yoe + yoe / 4 - yoe / 100) in
  let mp := (5 * doy + 2) / 153 in
  let d := doy - (153 * mp + 2) / 5 + 1 in
  let m := if mp <? 10 then mp + 3 else mp - 9 in
  let y := yoe + era * 400 + (if m <=? 2 then 1 else 0) in
  (y, m, d).

Definition is_leap (y : Z) : bool :=
  ((y mod 4 =? 0) && negb (y mod 100 =? 0)) || (y mod 400 =? 0).

Definition days_in_month (y m : Z) : Z :=
  if m =? 2 then (if is_leap y then 29 else 28)
  else if (m =? 4) || (m =? 6) || (m =? 9) || (m =? 11) then 30
  else 31.

(** [Timestamp.year], [.month], [.day_name()]. *)
Definition ts_year (ns : Z) : Z := (civil_from_days (timedelta_days ns)).1.1.
Definition ts_month (ns : Z) : Z := (civil_from_days (timedelta_days ns)).1.2.
Definition ts_day (ns : Z) : Z := (civil_from_days (timedelta_days ns)).2.

Definition ts_day_name (ns : Z) : string :=
  match (timedelta_days ns + 3) mod 7 with
  | 0 => "Monday" | 1 => "Tuesday" | 2 => "Wednesday" | 3 => "Thursday"
  | 4 => "Friday" | 5 => "Saturday" | _ => "Sunday"
  end.

(** ** Numbers as text *)

Definition is_digit (c : ascii) : bool :=
  match Ascii.is_nat c with Some _ => true | None => false end.

(** Reads the longest run of decimal digits at the head of [s]: the digits
    read, most significant first, and the rest of the text. *)
Fixpoint read_digits (s : string) : list nat * string :=
  match s with
  | EmptyString => ([], EmptyString)
  | String c s' =>
      match Ascii.is_nat c with
      | Some d => let '(ds, rest) := read_digits s' in (d :: ds, rest)
      | None => ([], s)
      end
  end.

Definition digits_value (ds : list nat) : Z :=
  fold_left (λ acc d, 10 * acc + Z.of_nat d) ds 0.

Fixpoint all_zeros (s : string) : bool :=
  match s with
  | EmptyString => true
  | String c s' => Ascii.eqb c "0" && all_zeros s'
  end.

(** An unsigned numeric literal of the fragment: at least one digit, and
    optionally a point followed by zeros only.  The flag tells whether the
    literal has a point (it is then read as a float). *)
Definition parse_unsigned (sgn : Z) (body : string) : option (bool * Z) :=
  match read_digits body with
  | ([], _) => None
  | (ds, EmptyString) => Some (false, sgn * digits_value ds)
  | (ds, String "." zs) =>
      if all_zeros zs then Some (true, sgn * digits_value ds) else None
  | _ => None
  end.

(** A numeric literal: an unsigned one behind an optional sign. *)
Definition parse_number (s : string) : option (bool * Z) :=
  match s with
  | String "-" s' => parse_unsigned (-1) s'
  | String "+" s' => parse_unsigned 1 s'
  | _ => parse_unsigned 1 s
  end.

Definition pad_left (n : nat) (s : string) : string :=
  string_of_list_ascii (replicate (n - String.length s) "0"%char) +:+ s.

(** [str(Timestamp)]: date, time, and the fraction of a second when there
    is one (six digits, or nine when it is not a whole microsecond). *)
Definition str_timestamp (ns : Z) : string :=
  let '(y, m, d) := civil_from_days (timedelta_days ns) in
  let in_day := ns mod NS_PER_DAY in
  let secs := in_day / NS_PER_SECOND in
  let frac := in_day mod NS_PER_SECOND in
  pad_left 4 (pretty y) +:+ "-" +:+ pad_left 2 (pretty m) +:+ "-" +:+ pad_left 2 (pretty d)
  +:+ " " +:+ pad_left 2 (pretty (secs / 3600)) +:+ ":"
  +:+ pad_left 2 (pretty (secs / 60 mod 60)) +:+ ":" +:+ pad_left 2 (pretty (secs mod 60))
  +:+ (if frac =? 0 then ""
       else if frac mod 1000 =? 0 then "." +:+ pad_left 6 (pretty (frac / 1000))
       else "." +:+ pad_left 9 (pretty frac)).

(** Python's [str] of a cell.  A float prints with a trailing [.0]; Python
    switches to exponent notation from 1e16 on, which reads back as the same
    number. *)
Definition py_str (v : value) : string :=
  match v with
  | VStr s => s
  | VInt z => pretty z
  | VFloat z => pretty z +:+ ".0"
  | VNaN => "nan"
  | VTimestamp ns => str_timestamp ns
  | VNaT => "NaT"
  | VNone => "None"
  end.

(** ** Series operations, cell by cell *)

(** [Series.astype(str)] *)
Definition astype_str (vs : list value) : list value := (λ v, VStr (py_str v)) <$> vs.

(** The [.str] accessor maps a text method over the text cells; a cell that
    is not text becomes NaN. *)
Definition str_map (f : string → string) (vs : list value) : list value :=
  (λ v, match v with VStr s => VStr (f s) | _ => VNaN end) <$> vs.

Definition is_int (v : value) : bool :=
  match v with VInt _ => true | _ => false end.

Definition as_float (v : value) : value :=
  match v with VInt z => VFloat z | _ => v end.

(** One cell of [pd.to_numeric(..., errors='coerce')]: what does not read
    as a number becomes NaN. *)
Definition to_numeric_scalar (v : value) : value :=
  match v with
  | VStr s =>
      match parse_number s with
      | Some (false, z) => VInt z
      | Some (true, z) => VFloat z
      | None => VNaN
      end
  | VInt z => VInt z
  | VFloat z => VFloat z
  | _ => VNaN
  end.

(** [pd.to_numeric(series, errors='coerce')]: the result is an int64 column
    when every cell reads as an integer, and a float64 column otherwise. *)
Definition to_numeric (vs : list value) : list value :=
  let parsed := to_numeric_scalar <$> vs in
  if forallb is_int parsed then parsed else as_float <$> parsed.

(** [series.isna().sum()] *)
Definition isna_sum (vs : list value) : nat := length (filter (λ v, isna v = true) vs).


(** ** Tables *)

(** A row maps column names to cells. *)
Abbreviation Row := (gmap string value).

Record DataFrame := {
  columns : list string;        (* [df.columns], in order *)
  rows : list Row               (* the rows, in order *)
}.

(** [col in df.columns] *)
Definition has_column (df : DataFrame) (col : string) : bool :=
  bool_decide (col ∈ columns df).

(** The cells of a column, top to bottom. *)
Definition column (df : DataFrame) (col : string) : list value :=
  (λ r : Row, default VNaN (r !! col)) <$> rows df.

(** [df[col] = vals]: replaces the column, or appends it to the header. *)
Definition setitem (df : DataFrame) (col : string) (vals : list value) : DataFrame :=
  {| columns := if has_column df col then columns df else columns df ++ [col];
     rows := zip_with (λ (r : Row) v, <[col := v]> r) (rows df) vals |}.

(** [df[mask]]: the rows whose mask entry is true, in order. *)
Fixpoint select {A} (mask : list bool) (l : list A) : list A :=
  match mask, l with
  | b :: mask', x :: l' => if b then x :: select mask' l' else select mask' l'
  | _, _ => []
  end.

Definition df_mask (df : DataFrame) (mask : list bool) : DataFrame :=
  {| columns := columns df; rows := select mask (rows df) |}.

(** [df.empty]: some axis has length zero. *)
Definition df_empty (df : DataFrame) : bool :=
  match columns df, rows df with
  | _ :: _, _ :: _ => false
  | _, _ => true
  end.

(** ** Effects *)

Inductive exn :=
| FileNotFoundError (path : string)
| ParserError (path : string)     (* [pd.read_csv] could not read the file *)
| KeyError (key : string)
| TypeError (what : string)
| ValueError (what : string)
| SystemExit (status : Z).

(** A chart: its title, axis titles and traces. *)
Record Trace := {
  trace_kind : string;            (* Bar or Scatter *)
  trace_name : option string;
  trace_x : list value;
  trace_y : list value
}.

Record Figure := {
  fig_title : string;
  fig_xaxis : string;
  fig_yaxis : option string;
  fig_traces : list Trace
}.

Inductive artifact :=
| Html (fig : Figure)
| Csv (df : DataFrame).

Inductive output :=
| Line (s : string)               (* one [print] of a line of text *)
| Table (df : DataFrame).         (* [print(df.to_string(index=False))] *)

Inductive csv_file :=
| Readable (df : DataFrame)       (* what [pd.read_csv] returns for it *)
| Unreadable.

Record world := {
  disk : gmap string csv_file;    (* the input files, by path *)
  stdout : list output;           (* what was printed, oldest first *)
  written : list (string * artifact)   (* the files written, oldest first *)
}.

Definition M (A : Type) : Type := world → (exn + A) * world.

#[global] Instance M_ret : MRet M := λ A a w, (inr a, w).
#[global] Instance M_bind : MBind M := λ A B k m w,
  match m w with
  | (inl e, w') => (inl e, w')
  | (inr a, w') => k a w'
  end.

Definition raise {A} (e : exn) : M A := λ w, (inl e, w).

(** [try: m except Exception as e: h e]; [SystemExit] is no [Exception]. *)
Definition try_except {A} (m : M A) (h : exn → M A) : M A := λ w,
  match m w with
  | (inl (SystemExit n), w') => (inl (SystemExit n), w')
  | (inl e, w') => h e w'
  | (inr a, w') => (inr a, w')
  end.

Definition lift {A} (r : exn + A) : M A := λ w, (r, w).

Definition print (s : string) : M unit := λ w,
  (inr (), {| disk := disk w; stdout := stdout w ++ [Line s]; written := written w |}).

Definition print_table (df : DataFrame) : M unit := λ w,
  (inr (), {| disk := disk w; stdout := stdout w ++ [Table df]; written := written w |}).

Definition write_file (path : string) (a : artifact) : M unit := λ w,
  (inr (), {| disk := disk w; stdout := stdout w; written := written w ++ [(path, a)] |}).

(** [df[col]], which raises [KeyError] for a column that is not there. *)
Definition getitem (df : DataFrame) (col : string) : M (list value) :=
  if has_column df col then mret (column df col) else raise (KeyError col).

(** ** The loader and the two preprocessing steps *)

Definition OUTPUT_DIR : string := "outputs".

Definition load_data (path : string) : M DataFrame := λ w,
  match disk w !! path with
  | None => (inl (FileNotFoundError path), w)
  | Some Unreadable => (inl (ParserError path), w)
  | Some (Readable df) => (inr df, w)
  end.

Definition clean_hours (df : DataFrame) (col : string) : M DataFrame :=
  if negb (has_column df col) then raise (KeyError col) else
  let df := setitem df col
    (str_map str_strip (str_map (str_replace "," "") (astype_str (column df col)))) in
  let df := setitem df col (to_numeric (column df col)) in
  let num_missing := isna_sum (column df col) in
  (if bool_decide (num_missing ≠ 0%nat)
   then print ("Warning: " +:+ pretty num_missing +:+ " rows have NaN for '"
               +:+ col +:+ "' after cleaning.")
   else mret ());;
  mret df.

(** Date text in the form YYYY-MM-DD, as the timestamp of its midnight. *)
Definition parse_date (s : string) : option Z :=
  match read_digits s with
  | (ys, String "-" s1) =>
      match read_digits s1 with
      | (ms, String "-" s2) =>
          match read_digits s2 with
          | (ds, EmptyString) =>
              let y := digits_value ys in
              let m := digits_value ms in
              let d := digits_value ds in
              if bool_decide (length ys = 4%nat ∧ length ms = 2%nat ∧ length ds = 2%nat
                              ∧ 1 ≤ m ≤ 12 ∧ 1 ≤ d ≤ days_in_month y m)
              then Some (days_from_civil y m d * NS_PER_DAY)
              else None
          | _ => None
          end
      | _ => None
      end
  | _ => None
  end.

(** One cell of [pd.to_datetime]: [None] when the cell is text that is no
    date.  A number counts nanoseconds since the epoch. *)
Definition to_datetime_scalar (v : value) : option value :=
  match v with
  | VStr s => VTimestamp <$> parse_date s
  | VInt z | VFloat z => Some (VTimestamp z)
  | VTimestamp ns => Some (VTimestamp ns)
  | VNaN | VNaT | VNone => Some VNaT
  end.

(** [pd.to_datetime(series, errors='coerce')] *)
Definition to_datetime_coerce (vs : list value) : list value :=
  (λ v, default VNaT (to_datetime_scalar v)) <$> vs.

(** A whole-number field of the [.dt] accessor: an integer column, or a
    float column with NaN when a timestamp is missing. *)
Definition dt_field (f : Z → Z) (vs : list value) : list value :=
  if forallb notna vs
  then (λ v, match v with VTimestamp ns => VInt (f ns) | _ => VNaN end) <$> vs
  else (λ v, match v with VTimestamp ns => VFloat (f ns) | _ => VNaN end) <$> vs.

(** [series.dt.day_name()] *)
Definition dt_day_name (vs : list value) : list value :=
  (λ v, match v with VTimestamp ns => VStr (ts_day_name ns) | _ => VNaN end) <$> vs.

Definition prepare_dates (df : DataFrame) (date_col : string) : M DataFrame :=
  if negb (has_column df date_col) then raise (KeyError date_col) else
  let df := setitem df date_col (to_datetime_coerce (column df date_col)) in
  let missing_dates := isna_sum (column df date_col) in
  (if bool_decide (missing_dates ≠ 0%nat)
   then print ("Warning: " +:+ pretty missing_dates
               +:+ " rows have invalid or missing dates in '" +:+ date_col +:+ "'.")
   else mret ());;
  let df := setitem df "Release Month" (dt_field ts_month (column df date_col)) in
  let df := setitem df "Release Day" (dt_day_name (column df date_col)) in
  let df := setitem df "Release Year" (dt_field ts_year (column df date_col)) in
  mret df.

(** ** The season classifier *)

(** [int(v)] *)
Definition py_int (v : value) : exn + Z :=
  match v with
  | VInt z | VFloat z => inr z
  | VStr s =>
      match parse_number (str_strip s) with
      | Some (false, z) => inr z
      | _ => inl (ValueError s)
      end
  | VNaN => inl (ValueError "cannot convert float NaN to integer")
  | _ => inl (TypeError "int() argument")
  end.

Definition get_season (month : value) : exn + value :=
  if isna month then inr VNone else
  match py_int month with
  | inl e => inl e
  | inr month =>
      if bool_decide (month ∈ [12; 1; 2]) then inr (VStr "Winter")
      else if bool_decide (month ∈ [3; 4; 5]) then inr (VStr "Spring")
      else if bool_decide (month ∈ [6; 7; 8]) then inr (VStr "Summer")
      else inr (VStr "Fall")
  end.

(** [series.apply(f)] for an [f] that may raise. *)
Fixpoint series_apply {A} (f : value → exn + A) (vs : list value) : exn + list A :=
  match vs with
  | [] => inr []
  | v :: vs' =>
      match f v with
      | inl e => inl e
      | inr a =>
          match series_apply f vs' with
          | inl e => inl e
          | inr l => inr (a :: l)
          end
      end
  end.

(** ** Aggregation *)

(** The number in a numeric cell. *)
Definition num_of (v : value) : option Z :=
  match v with
  | VInt z | VFloat z => Some z
  | _ => None
  end.

(** The cells of a column that is summed or ranked: [None] for a missing
    cell.  Text and timestamps are refused (pandas would concatenate text;
    that is outside the fragment). *)
Fixpoint numeric_cells (vs : list value) : exn + list (option Z) :=
  match vs with
  | [] => inr []
  | v :: vs' =>
      match v, numeric_cells vs' with
      | (VStr _ | VTimestamp _), _ => inl (TypeError "not a numeric column")
      | _, inl e => inl e
      | _, inr ns => inr (num_of v :: ns)
      end
  end.

(** A column holds one dtype: int64 when every cell is an integer, and
    float64 as soon as a float or a NaN is among them. *)
Definition unify_dtype (vs : list value) : list value :=
  if forallb is_int vs then vs else as_float <$> vs.

Definition wrap_like (vs : list value) (z : Z) : value :=
  if forallb is_int vs then VInt z else VFloat z.

(** Equality of group keys: numbers by value, anything else as is. *)
Definition key_eqb (a b : value) : bool :=
  match num_of a, num_of b with
  | Some x, Some y => x =? y
  | None, None => bool_decide (a = b)
  | _, _ => false
  end.

(** The order of group keys: numbers, text and timestamps each in their
    own order; cells of different kinds by kind. *)
Definition kind_rank (v : value) : Z :=
  match v with
  | VInt _ | VFloat _ => 0
  | VStr _ => 1
  | VTimestamp _ => 2
  | _ => 3
  end.

Definition key_leb (a b : value) : bool :=
  match a, b with
  | (VInt x | VFloat x), (VInt y | VFloat y) => x <=? y
  | VStr s, VStr t => String.leb s t
  | VTimestamp x, VTimestamp y => x <=? y
  | _, _ => kind_rank a <=? kind_rank b
  end.

(** Stable insertion sort: [x] goes in front of the first element it may
    precede, so equal elements keep the order they came in. *)
Fixpoint insert_by {A} (before : A → A → bool) (x : A) (l : list A) : list A :=
  match l with
  | [] => [x]
  | y :: l' => if before x y then x :: l else y :: insert_by before x l'
  end.

Definition sort_by {A} (before : A → A → bool) (l : list A) : list A :=
  foldr (insert_by before) [] l.

Fixpoint distinct_keys (ks : list value) : list value :=
  match ks with
  | [] => []
  | k :: ks' => k :: filter (λ k', key_eqb k k' = false) (distinct_keys ks')
  end.

(** The group keys of a column: its distinct non-missing cells, sorted. *)
Definition group_keys (keys : list value) : list value :=
  sort_by key_leb (distinct_keys (filter (λ k, notna k = true) keys)).

(** The sum of the numbers of the rows whose key is [k]; a missing number
    adds nothing. *)
Definition group_sum (k : value) (keys : list value) (nums : list (option Z)) : Z :=
  foldr Z.add 0 (zip_with (λ k' n, if key_eqb k k' then default 0 n else 0) keys nums).

(** [df.groupby(key)[val].sum()] as the list of its entries, by key. *)
Definition groupby_sum (keys vals : list value) : exn + list (value * value) :=
  match numeric_cells vals with
  | inl e => inl e
  | inr nums => inr ((λ k, (k, wrap_like vals (group_sum k keys nums))) <$> group_keys keys)
  end.

Definition lookup_key (k : value) (s : list (value * value)) : option value :=
  snd <$> List.find (λ kv, key_eqb k kv.1) s.

(** [series.reindex(idx, fill_value=fill)]: one entry per element of [idx],
    in that order; [fill] where the series has no such key. *)
Definition reindex (s : list (value * value)) (idx : list value) (fill : value)
  : list (value * value) :=
  zip idx (unify_dtype ((λ k, default fill (lookup_key k s)) <$> idx)).

(** [series.fillna(0)] *)
Definition fillna0 (s : list (value * value)) : list (value * value) :=
  (λ kv, (kv.1, if isna kv.2 then VFloat 0 else kv.2)) <$> s.

(** Ranking for a descending sort: larger numbers first, missing last. *)
Definition desc_before (a b : option Z) : bool :=
  match a, b with
  | Some x, Some y => y <=? x
  | Some _, None => true
  | None, Some _ => false
  | None, None => true
  end.

(** [series.sort_values(ascending=False)] *)
Definition sort_values_desc (s : list (value * value)) : list (value * value) :=
  sort_by (λ a b, desc_before (num_of a.2) (num_of b.2)) s.

(** [series.value_counts()]: the count of each distinct non-missing cell,
    most frequent first. *)
Definition value_counts (keys : list value) : list (value * value) :=
  sort_values_desc
    ((λ k, (k, VInt (Z.of_nat (length (filter (λ k', key_eqb k k' = true) keys)))))
       <$> distinct_keys (filter (λ k, notna k = true) keys)).

(** [series.sort_index()] *)
Definition sort_index (s : list (value * value)) : list (value * value) :=
  sort_by (λ a b, key_leb a.1 b.1) s.

(** [range(1, 13)] *)
Definition months : list value := VInt <$> [1; 2; 3; 4; 5; 6; 7; 8; 9; 10; 11; 12].

(** [df.pivot_table(index=, columns=, values=, aggfunc='sum')
      .reindex(range(1,13)).fillna(0)], column by column: the rows with a
    missing key are left out, and a month without a row of that column
    gets 0. *)
Definition pivot_months (idx cols vals : list value)
  : exn + list (value * list (value * value)) :=
  match numeric_cells vals with
  | inl e => inl e
  | inr nums =>
      let cols' := zip_with (λ i c, if isna i then VNaN else c) idx cols in
      inr ((λ c,
              let idx_c := zip_with (λ i c', if key_eqb c c' then i else VNaN) idx cols' in
              (c, fillna0 (reindex
                     ((λ k, (k, wrap_like vals (group_sum k idx_c nums))) <$> group_keys idx_c)
                     months VNaN)))
             <$> group_keys cols')
  end.

(** ** Charts *)

Definition bar (s : list (value * value)) (name : option string) : Trace :=
  {| trace_kind := "Bar"; trace_name := name; trace_x := s.*1; trace_y := s.*2 |}.

Definition scatter (s : list (value * value)) (name : option string) : Trace :=
  {| trace_kind := "Scatter"; trace_name := name; trace_x := s.*1; trace_y := s.*2 |}.

Definition save_fig (fig : Figure) (name : string) : M unit :=
  let path := OUTPUT_DIR +:+ "/" +:+ name +:+ ".html" in
  write_file path (Html fig);;
  print ("Saved interactive plot: " +:+ path).

(** [df.groupby(key)[val].sum()] *)
Definition groupby_col_sum (df : DataFrame) (key val : string) : M (list (value * value)) :=
  keys ← getitem df key;
  vals ← getitem df val;
  lift (groupby_sum keys vals).

Definition plot_viewership_by_content_type (df : DataFrame) : M unit :=
  if negb (has_column df "Content Type")
  then print "Skipping content type plot: 'Content Type' column missing." else
  agg ← groupby_col_sum df "Content Type" "Hours Viewed";
  let agg := sort_values_desc agg in
  save_fig {| fig_title := "Total Viewership Hours by Content Type";
              fig_xaxis := "Content Type"; fig_yaxis := Some "Total Hours Viewed";
              fig_traces := [bar agg None] |}
           "viewership_by_content_type".

Definition plot_viewership_by_language (df : DataFrame) (lang_col : string) : M unit :=
  if negb (has_column df lang_col)
  then print ("Skipping language plot: '" +:+ lang_col +:+ "' column missing.") else
  agg ← groupby_col_sum df lang_col "Hours Viewed";
  let agg := sort_values_desc agg in
  save_fig {| fig_title := "Total Viewership Hours by Language";
              fig_xaxis := "Language"; fig_yaxis := Some "Total Hours Viewed";
              fig_traces := [bar agg None] |}
           "viewership_by_language".

(** [df.groupby('Release Month')['Hours Viewed'].sum()
      .reindex(range(1,13), fill_value=0)] *)
Definition monthly_sum (df : DataFrame) : M (list (value * value)) :=
  agg ← groupby_col_sum df "Release Month" "Hours Viewed";
  mret (reindex agg months (VInt 0)).

Definition plot_monthly_viewership (df : DataFrame) : M unit :=
  if negb (has_column df "Release Month")
  then print "Skipping monthly viewership: 'Release Month' missing." else
  monthly ← monthly_sum df;
  save_fig {| fig_title := "Total Viewership Hours by Release Month";
              fig_xaxis := "Month"; fig_yaxis := Some "Total Hours Viewed";
              fig_traces := [scatter monthly None] |}
           "monthly_viewership".

Definition plot_viewership_by_type_and_month (df : DataFrame) : M unit :=
  if negb (has_column df "Content Type")
  then print "Skipping monthly by type: 'Content Type' missing." else
  idx ← getitem df "Release Month";
  cols ← getitem df "Content Type";
  vals ← getitem df "Hours Viewed";
  pivot ← lift (pivot_months idx cols vals);
  save_fig {| fig_title := "Viewership Trends by Content Type and Release Month";
              fig_xaxis := "Month"; fig_yaxis := Some "Total Hours Viewed";
              fig_traces := (λ cs, scatter cs.2 (Some (py_str cs.1))) <$> pivot |}
           "monthly_viewership_by_type".

Definition seasons_order : list value :=
  [VStr "Winter"; VStr "Spring"; VStr "Summer"; VStr "Fall"].

(** Adds the column [Release Season] to the table it is given: the caller
    goes on with the table returned. *)
Definition plot_seasonal_viewership (df : DataFrame) : M DataFrame :=
  if negb (has_column df "Release Month")
  then print "Skipping seasonal viewership: 'Release Month' missing.";; mret df else
  seasons ← lift (series_apply get_season (column df "Release Month"));
  let df := setitem df "Release Season" seasons in
  agg ← groupby_col_sum df "Release Season" "Hours Viewed";
  let agg := fillna0 (reindex agg seasons_order VNaN) in
  save_fig {| fig_title := "Total Viewership Hours by Release Season";
              fig_xaxis := "Season"; fig_yaxis := Some "Total Hours Viewed";
              fig_traces := [bar agg None] |}
           "seasonal_viewership";;
  mret df.

Definition monthly_releases_and_viewership (df : DataFrame) : M unit :=
  ms ← getitem df "Release Month";
  let monthly_releases := reindex (sort_index (value_counts ms)) months (VInt 0) in
  monthly_viewership ← monthly_sum df;
  save_fig {| fig_title := "Monthly Release Patterns and Viewership Hours";
              fig_xaxis := "Month"; fig_yaxis := None;
              fig_traces := [bar monthly_releases (Some "Number of Releases");
                             scatter monthly_viewership (Some "Viewership Hours")] |}
           "monthly_releases_and_viewership".

Definition weekday_order : list value :=
  VStr <$> ["Monday"; "Tuesday"; "Wednesday"; "Thursday"; "Friday"; "Saturday"; "Sunday"].

Definition weekday_release_patterns (df : DataFrame) : M unit :=
  if negb (has_column df "Release Day")
  then print "Skipping weekday patterns: 'Release Day' missing." else
  let releases := fillna0 (reindex (value_counts (column df "Release Day")) weekday_order VNaN) in
  agg ← groupby_col_sum df "Release Day" "Hours Viewed";
  let viewership := fillna0 (reindex agg weekday_order VNaN) in
  save_fig {| fig_title := "Weekly Release Patterns and Viewership Hours";
              fig_xaxis := "Day of Week"; fig_yaxis := None;
              fig_traces := [bar releases (Some "Number of Releases");
                             scatter viewership (Some "Viewership Hours")] |}
           "weekday_release_patterns".

(** ** The holiday window matcher *)

Definition DEFAULT_DATES : list string :=
  ["2023-01-01"; "2023-02-14"; "2023-07-04"; "2023-10-31"; "2023-12-25"].

(** [pd.to_datetime] on the list of reference dates: it raises on text
    that is no date. *)
Fixpoint to_datetime_index (l : list string) : exn + list Z :=
  match l with
  | [] => inr []
  | s :: l' =>
      match parse_date s, to_datetime_index l' with
      | None, _ => inl (ValueError s)
      | _, inl e => inl e
      | Some t, inr ts => inr (t :: ts)
      end
  end.

(** [abs((x - d).days)] for two timestamps. *)
Definition abs_days (x d : Z) : Z := Z.abs (timedelta_days (x - d)).

(** The function applied to each release date:
    [any(abs((x - d).days) <= window_days for d in important_dates)
       if pd.notna(x) else False].
    Subtracting a timestamp from a cell that is neither a timestamp nor
    missing raises. *)
Definition in_window (important_dates : list Z) (window_days : Z) (x : value)
  : exn + bool :=
  if notna x then
    match x with
    | VTimestamp x => inr (existsb (λ d, abs_days x d <=? window_days) important_dates)
    | _ =>
        match important_dates with
        | [] => inr false
        | _ :: _ => inl (TypeError "unsupported operand type(s) for -")
        end
    end
  else inr false.

Definition holiday_release_analysis (df : DataFrame)
    (important_dates : option (list string)) (window_days : Z) : M DataFrame :=
  let important_dates := default DEFAULT_DATES important_dates in
  important_dates ← lift (to_datetime_index important_dates);
  if negb (has_column df "Release Date")
  then print "Skipping holiday analysis: 'Release Date' missing.";;
       mret {| columns := []; rows := [] |}
  else
    mask ← lift (series_apply (in_window important_dates window_days)
                              (column df "Release Date"));
    let holiday_releases := df_mask df mask in
    if df_empty holiday_releases
    then print "No releases found within the specified windows around important dates.";;
         mret holiday_releases
    else
      let out_path := OUTPUT_DIR +:+ "/" +:+ "holiday_releases.csv" in
      write_file out_path (Csv holiday_releases);;
      print ("Saved holiday releases table: " +:+ out_path);;
      mret holiday_releases.

(** ** The top-N selector *)

(** The positions [Series.nlargest(n)] selects, best first: nothing for
    [n <= 0]; otherwise the first [n] positions of the column sorted by
    decreasing value, missing values last, equal values in row order. *)
Definition nlargest_positions (n : Z) (nums : list (option Z)) : list nat :=
  if n <=? 0 then []
  else take (Z.to_nat n)
            ((sort_by (λ a b, desc_before a.2 b.2) (zip (seq 0 (length nums)) nums)).*1).

(** [df.take(positions)] *)
Definition df_take (df : DataFrame) (positions : list nat) : DataFrame :=
  {| columns := columns df; rows := omap (λ i, rows df !! i) positions |}.

(** [df.nlargest(n, col)] *)
Definition nlargest (df : DataFrame) (n : Z) (col : string) : M DataFrame :=
  vals ← getitem df col;
  nums ← lift (numeric_cells vals);
  mret (df_take df (nlargest_positions n nums)).

(** [df[cols]] for columns that are there. *)
Definition df_cols (df : DataFrame) (cols : list string) : DataFrame :=
  {| columns := cols;
     rows := (λ r : Row, filter (λ kv, kv.1 ∈ cols) r) <$> rows df |}.

Definition print_top_titles (df : DataFrame) (n : Z) : M unit :=
  if negb (has_column df "Hours Viewed")
  then print "'Hours Viewed' column missing. Cannot compute top titles." else
  top ← nlargest df n "Hours Viewed";
  let cols := filter (λ c, c ∈ columns top)
    ["Title"; "Hours Viewed"; "Language Indicator"; "Content Type"; "Release Date"] in
  print (String "010" "Top titles:");;
  print_table (df_cols top cols).

(** ** The batch run *)

Record Args := {
  file : string;
  hours_col : string;
  date_col : string;
  language_col : string;
  top_n : Z
}.

(** [str(e)] *)
Definition exn_message (e : exn) : string :=
  match e with
  | FileNotFoundError path => "CSV file not found: " +:+ path
  | ParserError path => "Error tokenizing data: " +:+ path
  | KeyError key => "'" +:+ key +:+ "'"
  | TypeError what | ValueError what => what
  | SystemExit status => pretty status
  end.

(** [sys.exit(status)] *)
Definition sys_exit {A} (status : Z) : M A := raise (SystemExit status).

(** [repr] of a list of names that need no escaping. *)
Definition repr_list (l : list string) : string :=
  match l with
  | [] => "[]"
  | _ => "['" +:+ String.concat "', '" l +:+ "']"
  end.

(** [print(text, names)]: the text and the list, on one line. *)
Definition print_list (s : string) (l : list string) : M unit :=
  print (s +:+ " " +:+ repr_list l).

Definition main (args : Args) : M unit :=
  df ← try_except (load_data (file args))
         (λ e, print ("Error loading data: " +:+ exn_message e);; sys_exit 1);
  print ("Loaded data: " +:+ pretty (length (rows df)) +:+ " rows, "
         +:+ pretty (length (columns df)) +:+ " columns");;
  df ← clean_hours df (hours_col args);
  df ← prepare_dates df (date_col args);
  print_list (String "010" "Columns available:") (columns df);;
  plot_viewership_by_content_type df;;
  plot_viewership_by_language df (language_col args);;
  plot_monthly_viewership df;;
  plot_viewership_by_type_and_month df;;
  df ← plot_seasonal_viewership df;
  monthly_releases_and_viewership df;;
  weekday_release_patterns df;;
  holiday_releases ← holiday_release_analysis df None 3;
  print_top_titles df (top_n args);;
  print (String "010" "All interactive plots and tables have been saved to the "
         +:+ String "034" OUTPUT_DIR +:+ String "034" " folder.").

(** The status the process ends with: that of [sys.exit], 1 when an
    exception reaches the top level, 0 otherwise. *)
Definition exit_status (r : exn + unit) : Z :=
  match r with
  | inr _ => 0
  | inl (SystemExit status) => status
  | inl _ => 1
  end.

(** ** The season table of the specification *)

(** The fixed mapping as the specification words it:
    12, 1, 2 to Winter; 3, 4, 5 to Spring; 6, 7, 8 to Summer;
    9, 10, 11 to Fall. *)
Definition spec_season (m : Z) : option string :=
  match m with
  | 12 | 1 | 2 => Some "Winter"
  | 3 | 4 | 5 => Some "Spring"
  | 6 | 7 | 8 => Some "Summer"
  | 9 | 10 | 11 => Some "Fall"
  | _ => None
  end.

(** ** Sample inputs *)

Definition empty_world : world := {| disk := ∅; stdout := []; written := [] |}.

(** The three viewership texts of the cleaning scenario. *)
Definition scenario_table : DataFrame :=
  {| columns := ["Title"; "Hours Viewed"];
     rows := [ {[ "Title" := VStr "a"; "Hours Viewed" := VStr "1,234" ]};
               {[ "Title" := VStr "b"; "Hours Viewed" := VStr " 500 " ]};
               {[ "Title" := VStr "c"; "Hours Viewed" := VStr "abc" ]} ] |}.

(** Three releases with parsed dates: 2023-12-24, 2023-12-20, and one
    without a date. *)
Definition holiday_table : DataFrame :=
  {| columns := ["Title"; "Release Date"];
     rows := [ {[ "Title" := VStr "a"; "Release Date" := VTimestamp (19715 * NS_PER_DAY) ]};
               {[ "Title" := VStr "b"; "Release Date" := VTimestamp (19711 * NS_PER_DAY) ]};
               {[ "Title" := VStr "c"; "Release Date" := VNaT ]} ] |}.

(** The default reference dates, as timestamps. *)
Definition default_timestamps : list Z :=
  (λ d, d * NS_PER_DAY) <$> [19358; 19402; 19542; 19661; 19716].

(** Releases in March and July only, one without a viewership. *)
Definition monthly_table : DataFrame :=
  {| columns := ["Hours Viewed"; "Release Month"];
     rows := [ {[ "Hours Viewed" := VFloat 10; "Release Month" := VInt 3 ]};
               {[ "Hours Viewed" := VNaN; "Release Month" := VInt 3 ]};
               {[ "Hours Viewed" := VFloat 5; "Release Month" := VInt 7 ]} ] |}.

(** The default command line. *)
Definition default_args : Args :=
  {| file := "netflix_content.csv";
     hours_col := "Hours Viewed";
     date_col := "Release Date";
     language_col := "Language Indicator";
     top_n := 5 |}.

(** A world whose input file holds the table [df]. *)
Definition world_with (df : DataFrame) : world :=
  {| disk := {[ "netflix_content.csv" := Readable df ]}; stdout := []; written := [] |}.

(** A file that loads, but has no viewership column. *)
Definition titles_only : DataFrame :=
  {| columns := ["Title"]; rows := [ {[ "Title" := VStr "a" ]} ] |}.

(** A file with the three mandatory columns only. *)
Definition minimal_table : DataFrame :=
  {| columns := ["Title"; "Hours Viewed"; "Release Date"];
     rows := [ {[ "Title" := VStr "a"; "Hours Viewed" := VStr "1,234";
                  "Release Date" := VStr "2023-12-24" ]};
               {[ "Title" := VStr "b"; "Hours Viewed" := VStr "abc";
                  "Release Date" := VStr "soon" ]} ] |}.

(** ** Auxiliary definitions for the proofs *)

Fixpoint string_forallb (P : ascii → bool) (s : string) : bool :=
  match s with
  | EmptyString => true
  | String c s' => P c && string_forallb P s'
  end.

(** A character that text cleaning leaves alone. *)
Definition plain_char (c : ascii) : bool :=
  negb (Ascii.eqb c ",") && negb (py_isspace c).

Definition digits_from (acc : Z) (ds : list nat) : Z :=
  fold_left (λ acc d, 10 * acc + Z.of_nat d) ds acc.

(** The text cleaning of the column normalizer, on one cell. *)
Definition clean_text (s : string) : string := str_strip (str_replace "," "" s).

(** The cells of a column after text cleaning. *)
Definition clean_cells (vs : list value) : list value :=
  (λ v, VStr (clean_text (py_str v))) <$> vs.

(** A column as [to_numeric] leaves it: integers only, or floats and NaN. *)
Definition int_column (vs : list value) : Prop :=
  Forall (λ v, ∃ z, v = VInt z) vs.

Definition float_column (vs : list value) : Prop :=
  Forall (λ v, v = VNaN ∨ ∃ z, v = VFloat z) vs.

Definition numeric_column (vs : list value) : Prop :=
  int_column vs ∨ float_column vs.

(** The world after one more printed line. *)
Definition printed (w : world) (s : string) : world :=
  {| disk := disk w; stdout := stdout w ++ [Line s]; written := written w |}.

(** The warning of the column normalizer. *)
Definition nan_warning (n : nat) (col : string) : string :=
  "Warning: " +:+ pretty n +:+ " rows have NaN for '" +:+ col +:+ "' after cleaning.".

(** The table the date enricher returns. *)
Definition enriched (df : DataFrame) (date_col : string) : DataFrame :=
  let df := setitem df date_col (to_datetime_coerce (column df date_col)) in
  let df := setitem df "Release Month" (dt_field ts_month (column df date_col)) in
  let df := setitem df "Release Day" (dt_day_name (column df date_col)) in
  setitem df "Release Year" (dt_field ts_year (column df date_col)).

(** The warning of the date enricher. *)
Definition date_warning (n : nat) (date_col : string) : string :=
  "Warning: " +:+ pretty n +:+ " rows have invalid or missing dates in '"
  +:+ date_col +:+ "'.".

(** Row by row, the second table is the first with at most the cells of
    the columns [cols] changed: same number of rows, in the same order. *)
Definition same_rows_except (cols : list string) (df df' : DataFrame) : Prop :=
  Forall2 (λ r r' : Row, ∀ c, c ∉ cols → r' !! c = r !! c) (rows df) (rows df').

(** A column of timestamps and missing values, as the date enricher
    leaves it. *)
Definition datetime_column (vs : list value) : Prop :=
  Forall (λ v, isna v = true ∨ ∃ x, v = VTimestamp x) vs.

(** Whether a release date lies in the window of some reference date. *)
Definition window_match (ds : list Z) (window_days : Z) (v : value) : bool :=
  match v with
  | VTimestamp x => existsb (λ d, abs_days x d <=? window_days) ds
  | _ => false
  end.

(** The release date of a row. *)
Definition release_date (r : Row) : value := default VNaN (r !! "Release Date").

(** A column that can be summed and ranked: numbers and missing values. *)
Definition summable (vs : list value) : Prop :=
  Forall (λ v, match v with VStr _ | VTimestamp _ => False | _ => True end) vs.

(** The month and the viewership of a row, as numbers; a missing
    viewership counts for nothing in a sum. *)
Definition row_month (r : Row) : option Z :=
  num_of (default VNaN (r !! "Release Month")).

Definition row_hours (r : Row) : option Z :=
  num_of (default VNaN (r !! "Hours Viewed")).

(** The total viewership of the rows released in month [m]. *)
Definition month_total (df : DataFrame) (m : Z) : Z :=
  foldr Z.add 0 ((λ r, default 0 (row_hours r))
                   <$> filter (λ r, row_month r = Some m) (rows df)).

(** The order the stable descending sort leaves pairs of a row position
    and its viewership in, in terms of its comparator: [a] may precede
    [b], and when [b] may precede [a] as well, [a] is the earlier row. *)
Definition ranks_before (a b : nat * option Z) : Prop :=
  desc_before a.2 b.2 = true ∧ (desc_before b.2 a.2 = true → (a.1 < b.1)%nat).

(** The ranking by viewership, on pairs of a row position and its
    viewership: [a] outranks [b] when its viewership is the larger number,
    when it has a viewership and [b] has none, or when the two tie and [a]
    is the earlier row. *)
Definition outranks (a b : nat * option Z) : Prop :=
  match a.2, b.2 with
  | Some x, Some y => y < x ∨ (x = y ∧ (a.1 < b.1)%nat)
  | Some _, None => True
  | None, Some _ => False
  | None, None => (a.1 < b.1)%nat
  end.

(** The rows of a column paired with their positions. *)
Definition indexed (nums : list (option Z)) : list (nat * option Z) :=
  zip (seq 0 (length nums)) nums.

(** The viewership column of a table, as numbers. *)
Definition hours (df : DataFrame) : list (option Z) :=
  num_of <$> column df "Hours Viewed".

(** A run of [m] from [w] that returns [a], ends in [w'] and has printed
    [out] on the way. *)
Definition emits {A} (m : M A) (w : world) (a : A) (w' : world) (out : list output)
  : Prop :=
  m w = (inr a, w') ∧ stdout w' = (stdout w ++ out)%list ∧ disk w' = disk w.

(** A cell of a month column: a month number or a missing value. *)
Definition month_cell (v : value) : Prop :=
  v = VNaN ∨ ∃ m, v = VInt m ∨ v = VFloat m.

(** What the consumers of the enriched table rely on. *)
Record ready (df : DataFrame) : Prop := {
  ready_hours : has_column df "Hours Viewed" = true;
  ready_hours_numeric : summable (column df "Hours Viewed");
  ready_date : has_column df "Release Date" = true;
  ready_date_datetime : datetime_column (column df "Release Date");
  ready_month : has_column df "Release Month" = true;
  ready_month_cells : Forall month_cell (column df "Release Month");
  ready_day : has_column df "Release Day" = true
}.

(** ** Auxiliary definitions for the calendar *)

(** A date of the calendar: a month from 1 to 12 and a day of that month. *)
Definition valid_date (y m d : Z) : Prop :=
  1 ≤ m ≤ 12 ∧ 1 ≤ d ≤ days_in_month y m.

(** The three numbers written in a text of the form YYYY-MM-DD. *)
Definition read_date (s : string) : option (Z * Z * Z) :=
  match read_digits s with
  | (ys, String "-" s1) =>
      match read_digits s1 with
      | (ms, String "-" s2) =>
          match read_digits s2 with
          | (ds, EmptyString) =>
              if bool_decide (length ys = 4%nat ∧ length ms = 2%nat ∧ length ds = 2%nat)
              then Some (digits_value ys, digits_value ms, digits_value ds)
              else None
          | _ => None
          end
      | _ => None
      end
  | _ => None
  end.

(** The midnight that starts the day [y]-[m]-[d]. *)
Definition midnight (y m d : Z) : Z := days_from_civil y m d * NS_PER_DAY.

(** ** Auxiliary definitions for the charts and reports *)

(** The world after a chart has been saved under [name]. *)
Definition saved (w : world) (name : string) (fig : Figure) : world :=
  {| disk := disk w;
     stdout := stdout w ++ [Line ("Saved interactive plot: " +:+ OUTPUT_DIR +:+ "/"
                                  +:+ name +:+ ".html")];
     written := written w ++ [(OUTPUT_DIR +:+ "/" +:+ name +:+ ".html", Html fig)] |}.

(** The cell of a row in a column. *)
Definition row_key (col : string) (r : Row) : value := default VNaN (r !! col).

(** The rows whose cell in [col] is [k]. *)
Definition rows_with (df : DataFrame) (col : string) (k : value) : list Row :=
  filter (λ r, key_eqb k (row_key col r) = true) (rows df).

(** The total viewership of a list of rows; a missing viewership counts
    for nothing. *)
Definition total_hours (rs : list Row) : Z :=
  foldr Z.add 0 ((λ r, default 0 (row_hours r)) <$> rs).

(** A series in decreasing order of its numbers. *)
Definition decreasing (s : list (value * value)) : Prop :=
  ∀ i j a b, (i < j)%nat → s !! i = Some a → s !! j = Some b →
    ∃ x y, num_of a.2 = Some x ∧ num_of b.2 = Some y ∧ y ≤ x.

(** What a chart of group totals shows for the column [col]: one entry for
    each distinct cell of the column that is not missing, holding the total
    viewership of its rows. *)
Definition group_totals (df : DataFrame) (col : string) (s : list (value * value))
  : Prop :=
  NoDup s.*1
  ∧ (∀ k, k ∈ s.*1 → k ∈ column df col ∧ notna k = true)
  ∧ (∀ k, k ∈ column df col → notna k = true → ∃ k', k' ∈ s.*1 ∧ key_eqb k' k = true)
  ∧ (∀ k v, (k, v) ∈ s → num_of v = Some (total_hours (rows_with df col k))).

(** The season the classifier gives a row, from its month. *)
Definition season_of (r : Row) : option value :=
  match get_season (row_key "Release Month" r) with
  | inr v => Some v
  | inl _ => None
  end.

(** The figure of the weekday step. *)
Definition weekday_figure (releases viewership : list (value * value)) : Figure :=
  {| fig_title := "Weekly Release Patterns and Viewership Hours";
     fig_xaxis := "Day of Week"; fig_yaxis := None;
     fig_traces := [bar releases (Some "Number of Releases");
                    scatter viewership (Some "Viewership Hours")] |}.

(** The figure of the monthly release step. *)
Definition monthly_releases_figure (releases viewership : list (value * value))
  : Figure :=
  {| fig_title := "Monthly Release Patterns and Viewership Hours";
     fig_xaxis := "Month"; fig_yaxis := None;
     fig_traces := [bar releases (Some "Number of Releases");
                    scatter viewership (Some "Viewership Hours")] |}.

(** The figure of the seasonal step. *)
Definition seasonal_figure (agg : list (value * value)) : Figure :=
  {| fig_title := "Total Viewership Hours by Release Season";
     fig_xaxis := "Season"; fig_yaxis := Some "Total Hours Viewed";
     fig_traces := [bar agg None] |}.

(** ** Auxiliary definitions for the holiday report *)

(** The rows the window matcher keeps. *)
Definition holiday_rows (ds : list Z) (window_days : Z) (df : DataFrame) : DataFrame :=
  {| columns := columns df;
     rows := filter (λ r, window_match ds window_days (release_date r) = true) (rows df) |}.

(** The world after the holiday table has been saved. *)
Definition csv_saved (w : world) (df : DataFrame) : world :=
  {| disk := disk w;
     stdout := stdout w ++ [Line ("Saved holiday releases table: " +:+ OUTPUT_DIR
                                  +:+ "/" +:+ "holiday_releases.csv")];
     written := written w ++ [(OUTPUT_DIR +:+ "/" +:+ "holiday_releases.csv", Csv df)] |}.

(** ** Auxiliary definitions for the files of a run *)

(** A run of [m] from [w] that returns [a], ends in [w'] and has written
    the files [files] on the way, oldest first. *)
Definition writes {A} (m : M A) (w : world) (a : A) (w' : world)
    (files : list (string * artifact)) : Prop :=
  m w = (inr a, w') ∧ written w' = (written w ++ files)%list.

Definition chart_path (name : string) : string :=
  OUTPUT_DIR +:+ "/" +:+ name +:+ ".html".

Definition holiday_path : string := OUTPUT_DIR +:+ "/" +:+ "holiday_releases.csv".

(** Files that are all charts. *)
Definition all_charts (files : list (string * artifact)) : Prop :=
  Forall (λ pa, ∃ fig, pa.2 = Html fig) files.

(** The charts a complete batch run writes for the enriched table [df],
    in the order it writes them. *)
Definition expected_charts (df : DataFrame) (lang_col : string) : list string :=
  ((if has_column df "Content Type"
    then [chart_path "viewership_by_content_type"] else [])
   ++ (if has_column df lang_col then [chart_path "viewership_by_language"] else [])
   ++ [chart_path "monthly_viewership"]
   ++ (if has_column df "Content Type"
       then [chart_path "monthly_viewership_by_type"] else [])
   ++ [chart_path "seasonal_viewership";
       chart_path "monthly_releases_and_viewership";
       chart_path "weekday_release_patterns"])%list.

(** The table the batch run works on after its two preprocessing steps,
    with the default column names. *)
Definition preprocessed (df : DataFrame) : DataFrame :=
  enriched (setitem df "Hours Viewed"
              (to_numeric (clean_cells (column df "Hours Viewed"))))
           "Release Date".

(** Whether some release of the table lies in the default holiday
    windows. *)
Definition holiday_match (df : DataFrame) : bool :=
  existsb (window_match default_timestamps 3) (column df "Release Date").

(** What the Top-N report prints. *)
Definition top_titles_columns (df : DataFrame) : list string :=
  filter (λ c, c ∈ columns df)
    ["Title"; "Hours Viewed"; "Language Indicator"; "Content Type"; "Release Date"].

(** * Properties *)

(** ** Columns and rows *)

Lemma length_column df col : length (column df col) = length (rows df).
Proof. unfold column. by rewrite length_fmap. Qed.

Lemma rows_setitem_lookup df col vals i :
  rows (setitem df col vals) !! i =
  r ← rows df !! i; v ← vals !! i; Some (<[col := v]> r).
Proof.
  unfold setitem; simpl. rewrite lookup_zip_with.
  destruct (rows df !! i); simpl; [|done]. by destruct (vals !! i).
Qed.

Lemma length_rows_setitem df col vals :
  length vals = length (rows df) → length (rows (setitem df col vals)) = length (rows df).
Proof. intros H. unfold setitem; simpl. rewrite length_zip_with. lia. Qed.

Lemma column_setitem df col vals :
  length vals = length (rows df) → column (setitem df col vals) col = vals.
Proof.
  intros Hlen. apply list_eq. intros i. unfold column.
  rewrite list_lookup_fmap, rows_setitem_lookup.
  destruct (rows df !! i) as [r|] eqn:Hr; simpl.
  - destruct (vals !! i) as [v|] eqn:Hv; simpl.
    + by rewrite lookup_insert_eq.
    + apply lookup_lt_Some in Hr. apply lookup_ge_None in Hv. lia.
  - symmetry. apply lookup_ge_None. apply lookup_ge_None in Hr. lia.
Qed.

Lemma column_setitem_ne df col col' vals :
  col ≠ col' → length vals = length (rows df) →
  column (setitem df col vals) col' = column df col'.
Proof.
  intros Hne Hlen. apply list_eq. intros i. unfold column.
  rewrite !list_lookup_fmap, rows_setitem_lookup.
  destruct (rows df !! i) as [r|] eqn:Hr; simpl; [|done].
  destruct (vals !! i) as [v|] eqn:Hv; simpl.
  - by rewrite lookup_insert_ne.
  - apply lookup_lt_Some in Hr. apply lookup_ge_None in Hv. lia.
Qed.


Lemma has_column_setitem df col vals c :
  has_column (setitem df col vals) c = has_column df c || bool_decide (c = col).
Proof.
  unfold has_column at 1, setitem; simpl.
  destruct (has_column df col) eqn:Hc; unfold has_column in *.
  - apply bool_decide_eq_true in Hc.
    destruct (decide (c = col)) as [->|Hne].
    + rewrite !bool_decide_eq_true_2; done.
    + rewrite (bool_decide_eq_false_2 (c = col)) by done. by rewrite orb_false_r.
  - destruct (decide (c = col)) as [->|Hne].
    + rewrite (bool_decide_eq_true_2 (col = col)) by done.
      rewrite orb_true_r. apply bool_decide_eq_true_2.
      apply elem_of_app. right. apply list_elem_of_singleton. done.
    + rewrite (bool_decide_eq_false_2 (c = col)) by done. rewrite orb_false_r.
      apply bool_decide_ext. rewrite elem_of_app, list_elem_of_singleton. tauto.
Qed.

Lemma setitem_setitem df col a b :
  length a = length (rows df) → length b = length (rows df) →
  setitem (setitem df col a) col b = setitem df col b.
Proof.
  intros Ha Hb. unfold setitem at 1 3. f_equal.
  - rewrite has_column_setitem, bool_decide_eq_true_2, orb_true_r by done.
    done.
  - apply list_eq. intros i. rewrite lookup_zip_with, rows_setitem_lookup.
    rewrite lookup_zip_with.
    destruct (rows df !! i) as [r|] eqn:Hr; simpl; [|done].
    destruct (a !! i) as [x|] eqn:Hx; simpl.
    + destruct (b !! i); simpl; [|done]. by rewrite insert_insert_eq.
    + apply lookup_lt_Some in Hr. apply lookup_ge_None in Hx. lia.
Qed.

(** Writing back the cells a column already has changes nothing, for a
    table whose rows all have the column. *)
Lemma setitem_column_id df col :
  has_column df col = true →
  Forall (λ r : Row, is_Some (r !! col)) (rows df) →
  setitem df col (column df col) = df.
Proof.
  intros Hc Hall. destruct df as [cs rs]. unfold setitem, column in *; simpl in *.
  rewrite Hc. f_equal. apply list_eq. intros i.
  rewrite lookup_zip_with, list_lookup_fmap.
  destruct (rs !! i) as [r|] eqn:Hr; simpl; [|done].
  destruct (Forall_lookup_1 _ _ _ _ Hall Hr) as [v Hv].
  rewrite Hv; simpl. by rewrite insert_id.
Qed.

Lemma rows_setitem_have df col vals :
  Forall (λ r : Row, is_Some (r !! col)) (rows (setitem df col vals)).
Proof.
  apply Forall_lookup. intros i r. rewrite rows_setitem_lookup.
  destruct (rows df !! i); simpl; [|done]. destruct (vals !! i); simpl; [|done].
  intros [= <-]. rewrite lookup_insert_eq. eauto.
Qed.

(** ** Numbers print and read back *)

Lemma string_app_assoc (s t u : string) : (s +:+ t) +:+ u = s +:+ (t +:+ u).
Proof.
  induction s as [|c s IH]; [done|].
  change (String c ((s +:+ t) +:+ u) = String c (s +:+ t +:+ u)). by rewrite IH.
Qed.

Lemma string_forallb_app P s t :
  string_forallb P (s +:+ t) = string_forallb P s && string_forallb P t.
Proof. induction s as [|c s IH]; simpl; [done|]. by rewrite IH, andb_assoc. Qed.

Lemma str_replace_plain s :
  string_forallb plain_char s = true → str_replace "," "" s = s.
Proof.
  induction s as [|c s IH]; simpl; [done|].
  intros [Hc Hs]%andb_prop. unfold plain_char in Hc.
  apply andb_prop in Hc as [Hc _]. apply negb_true_iff in Hc.
  rewrite Hc. by rewrite IH.
Qed.

Lemma lstrip_plain s : string_forallb plain_char s = true → lstrip s = s.
Proof.
  destruct s as [|c s]; simpl; [done|].
  intros [Hc _]%andb_prop. unfold plain_char in Hc.
  apply andb_prop in Hc as [_ Hc]. apply negb_true_iff in Hc. by rewrite Hc.
Qed.

Lemma rstrip_plain s : string_forallb plain_char s = true → rstrip s = s.
Proof.
  induction s as [|c s IH]; simpl; [done|].
  intros [Hc Hs]%andb_prop. rewrite (IH Hs).
  unfold plain_char in Hc. apply andb_prop in Hc as [_ Hc].
  apply negb_true_iff in Hc. rewrite Hc. by destruct s.
Qed.

Lemma str_strip_plain s : string_forallb plain_char s = true → str_strip s = s.
Proof. intros H. unfold str_strip. by rewrite lstrip_plain, rstrip_plain. Qed.

Lemma is_nat_pretty_N_char (d : N) :
  (d < 10)%N → Ascii.is_nat (pretty_N_char d) = Some (N.to_nat d).
Proof.
  intros Hd.
  assert (d = 0 ∨ d = 1 ∨ d = 2 ∨ d = 3 ∨ d = 4 ∨ d = 5 ∨ d = 6 ∨ d = 7
          ∨ d = 8 ∨ d = 9)%N as Hcases by lia.
  repeat (destruct Hcases as [->|Hcases]; [reflexivity|]). by subst.
Qed.

Lemma is_digit_plain c : is_digit c = true → plain_char c = true.
Proof.
  unfold is_digit, plain_char.
  destruct c as [[] [] [] [] [] [] [] []]; simpl; done.
Qed.

Lemma pretty_N_go_app x s : pretty_N_go x s = pretty_N_go x "" +:+ s.
Proof.
  revert s. induction (N.lt_wf_0 x) as [x _ IH]. intros s.
  destruct (decide (x = 0)%N) as [->|Hx]; [done|].
  assert (x `div` 10 < x)%N as Hlt by (apply N.div_lt; lia).
  rewrite !(pretty_N_go_step x) by lia.
  rewrite (IH _ Hlt (String _ s)), (IH _ Hlt (String _ "")).
  by rewrite string_app_assoc.
Qed.

Lemma read_digits_cons_digit c d s :
  Ascii.is_nat c = Some d →
  read_digits (String c s) = (d :: (read_digits s).1, (read_digits s).2).
Proof. intros H. simpl. rewrite H. by destruct (read_digits s). Qed.

(** The text of a number is a run of digits that reads back as the number,
    whatever follows it. *)
Lemma read_digits_pretty_N_go (x : N) (s : string) :
  ∃ ds, read_digits (pretty_N_go x s) = ((ds ++ (read_digits s).1)%list, (read_digits s).2)
        ∧ (∀ acc, digits_from acc ds = acc * 10 ^ Z.of_nat (length ds) + Z.of_N x)
        ∧ (x ≠ 0%N → ds ≠ []).
Proof.
  revert s. induction (N.lt_wf_0 x) as [x _ IH]. intros s.
  destruct (decide (x = 0)%N) as [->|Hx].
  { exists []. rewrite pretty_N_go_0. split_and!; [by destruct (read_digits s)| |done].
    intros acc. simpl. lia. }
  rewrite pretty_N_go_step by lia.
  assert (x `div` 10 < x)%N as Hlt by (apply N.div_lt; lia).
  destruct (IH _ Hlt (String (pretty_N_char (x `mod` 10)) s))
    as (ds & Hread & Hval & _).
  assert (x `mod` 10 < 10)%N as Hmod by (apply N.mod_lt; lia).
  rewrite (read_digits_cons_digit _ _ _ (is_nat_pretty_N_char _ Hmod)) in Hread.
  simpl in Hread.
  exists (ds ++ [N.to_nat (x `mod` 10)])%list. split_and!.
  - by rewrite <-app_assoc.
  - intros acc. unfold digits_from in *. rewrite fold_left_app; simpl.
    rewrite Hval, length_app; simpl.
    rewrite Nat2Z.inj_add, Z.pow_add_r by lia.
    rewrite N_nat_Z. pose proof (N.div_mod x 10 ltac:(lia)) as Hdm.
    generalize (10 ^ Z.of_nat (length ds)). intros p.
    change (10 ^ Z.of_nat 1) with 10. lia.
  - intros _. by destruct ds.
Qed.

Lemma string_forallb_pretty_N_go (P : ascii → bool) x s :
  (∀ c, is_digit c = true → P c = true) →
  string_forallb P s = true → string_forallb P (pretty_N_go x s) = true.
Proof.
  intros HP. revert s. induction (N.lt_wf_0 x) as [x _ IH]. intros s Hs.
  destruct (decide (x = 0)%N) as [->|Hx]; [done|].
  assert (x `div` 10 < x)%N as Hlt by (apply N.div_lt; lia).
  rewrite pretty_N_go_step by lia. apply (IH _ Hlt); simpl.
  rewrite Hs, andb_true_r. apply HP. unfold is_digit.
  rewrite is_nat_pretty_N_char; [done|]. apply N.mod_lt; lia.
Qed.

Lemma parse_number_digit c s :
  is_digit c = true → parse_number (String c s) = parse_unsigned 1 (String c s).
Proof. destruct c as [[] [] [] [] [] [] [] []]; simpl; done. Qed.

Lemma read_digits_head d ds s rest :
  read_digits s = (d :: ds, rest) → ∃ c s', s = String c s' ∧ is_digit c = true.
Proof.
  destruct s as [|c s']; simpl; [done|]. intros H. exists c, s'. split; [done|].
  unfold is_digit. by destruct (Ascii.is_nat c).
Qed.

(** The text of a positive number, followed by nothing or by [.0], reads
    back as that number. *)
Lemma parse_unsigned_pretty_N_go sgn (p : positive) :
  parse_unsigned sgn (pretty_N_go (Npos p) "") = Some (false, sgn * Zpos p)
  ∧ parse_unsigned sgn (pretty_N_go (Npos p) ".0") = Some (true, sgn * Zpos p)
  ∧ ∃ c s', pretty_N_go (Npos p) "" = String c s' ∧ is_digit c = true.
Proof.
  destruct (read_digits_pretty_N_go (Npos p) "") as (ds & Hr & Hv & Hne).
  destruct (read_digits_pretty_N_go (Npos p) ".0") as (ds' & Hr' & Hv' & Hne').
  simpl in Hr, Hr'. rewrite app_nil_r in Hr, Hr'.
  specialize (Hv 0). specialize (Hv' 0). simpl in Hv, Hv'.
  destruct ds as [|d ds]; [by destruct Hne|].
  destruct ds' as [|d' ds']; [by destruct Hne'|].
  split_and!.
  - unfold parse_unsigned. rewrite Hr. unfold digits_value.
    unfold digits_from in Hv. by rewrite Hv.
  - unfold parse_unsigned. rewrite Hr'. simpl. unfold digits_value.
    unfold digits_from in Hv'. by rewrite Hv'.
  - eapply read_digits_head, Hr.
Qed.

Lemma pretty_Zpos (p : positive) : pretty (Zpos p) = pretty_N_go (Npos p) "".
Proof. done. Qed.

Lemma pretty_Zneg (p : positive) :
  pretty (Zneg p) = String "-" (pretty_N_go (Npos p) "").
Proof. done. Qed.

Lemma parse_number_pretty (z : Z) : parse_number (pretty z) = Some (false, z).
Proof.
  destruct z as [|p|p].
  - reflexivity.
  - destruct (parse_unsigned_pretty_N_go 1 p) as (H1 & _ & c & s' & Hs & Hc).
    rewrite pretty_Zpos, Hs, parse_number_digit, <-Hs, H1 by done.
    f_equal.
  - rewrite pretty_Zneg. simpl.
    destruct (parse_unsigned_pretty_N_go (-1) p) as (H1 & _). rewrite H1. f_equal.
Qed.

Lemma parse_number_pretty_float (z : Z) :
  parse_number (pretty z +:+ ".0") = Some (true, z).
Proof.
  destruct z as [|p|p].
  - reflexivity.
  - destruct (parse_unsigned_pretty_N_go 1 p) as (_ & H2 & c & s' & Hs & Hc).
    rewrite pretty_Zpos, <-pretty_N_go_app.
    rewrite pretty_N_go_app, Hs. 
    change (String c s' +:+ ".0") with (String c (s' +:+ ".0")).
    rewrite parse_number_digit by done.
    change (String c (s' +:+ ".0")) with (String c s' +:+ ".0").
    rewrite <-Hs, <-pretty_N_go_app, H2. f_equal.
  - rewrite pretty_Zneg.
    change (String "-" (pretty_N_go (N.pos p) "") +:+ ".0")
      with (String "-" (pretty_N_go (N.pos p) "" +:+ ".0")).
    rewrite <-pretty_N_go_app. simpl.
    destruct (parse_unsigned_pretty_N_go (-1) p) as (_ & H2 & _). rewrite H2. f_equal.
Qed.

Lemma pretty_Z_plain (z : Z) : string_forallb plain_char (pretty z) = true.
Proof.
  destruct z as [|p|p]; [done| |].
  - rewrite pretty_Zpos. apply string_forallb_pretty_N_go; [|done].
    apply is_digit_plain.
  - rewrite pretty_Zneg. simpl. apply string_forallb_pretty_N_go; [|done].
    apply is_digit_plain.
Qed.

Lemma to_numeric_scalar_str_int z :
  to_numeric_scalar (VStr (clean_text (py_str (VInt z)))) = VInt z.
Proof.
  unfold clean_text; simpl.
  rewrite str_replace_plain, str_strip_plain by apply pretty_Z_plain.
  by rewrite parse_number_pretty.
Qed.

Lemma to_numeric_scalar_str_float z :
  to_numeric_scalar (VStr (clean_text (py_str (VFloat z)))) = VFloat z.
Proof.
  assert (string_forallb plain_char (pretty z +:+ ".0") = true) as Hp.
  { rewrite string_forallb_app, pretty_Z_plain. done. }
  unfold clean_text; simpl.
  rewrite str_replace_plain, str_strip_plain by done.
  by rewrite parse_number_pretty_float.
Qed.

Lemma to_numeric_scalar_str_nan :
  to_numeric_scalar (VStr (clean_text (py_str VNaN))) = VNaN.
Proof. reflexivity. Qed.

(** ** The column normalizer *)

Lemma forallb_Forall {A} (f : A → bool) (l : list A) :
  forallb f l = true ↔ Forall (λ x, f x = true) l.
Proof.
  induction l as [|x l IH]; simpl.
  - split; [constructor|done].
  - rewrite andb_true_iff, Forall_cons, IH. done.
Qed.

Lemma str_map_clean vs :
  str_map str_strip (str_map (str_replace "," "") (astype_str vs)) = clean_cells vs.
Proof.
  unfold str_map, astype_str, clean_cells. rewrite <-!list_fmap_compose.
  by apply list_fmap_ext.
Qed.

Lemma length_clean_cells vs : length (clean_cells vs) = length vs.
Proof. unfold clean_cells. by rewrite length_fmap. Qed.

Lemma length_unify_dtype vs : length (unify_dtype vs) = length vs.
Proof. unfold unify_dtype. destruct (forallb is_int vs); by rewrite ?length_fmap. Qed.

Lemma length_to_numeric vs : length (to_numeric vs) = length vs.
Proof.
  unfold to_numeric. destruct (forallb _ _); by rewrite ?length_fmap.
Qed.

Lemma to_numeric_scalar_kind v :
  (∃ z, to_numeric_scalar v = VInt z) ∨ to_numeric_scalar v = VNaN
  ∨ ∃ z, to_numeric_scalar v = VFloat z.
Proof.
  destruct v; simpl; eauto.
  destruct (parse_number s) as [[[] z]|]; eauto.
Qed.

Lemma to_numeric_numeric vs : numeric_column (to_numeric vs).
Proof.
  unfold to_numeric.
  destruct (forallb is_int (to_numeric_scalar <$> vs)) eqn:Hall.
  - left. apply forallb_Forall in Hall.
    eapply Forall_impl; [exact Hall|]. intros [] Hv; try done. eauto.
  - right. apply Forall_fmap, Forall_fmap, Forall_forall. intros v _; simpl.
    destruct (to_numeric_scalar_kind v) as [[z ->]|[->|[z ->]]]; simpl; eauto.
Qed.

Lemma as_float_float_column vs : float_column vs → as_float <$> vs = vs.
Proof.
  intros Hf. induction Hf as [|v vs [->|[z ->]] _ IH]; csimpl; [done|..];
    by rewrite IH.
Qed.

Lemma to_numeric_scalar_clean_numeric vs :
  numeric_column vs → to_numeric_scalar <$> clean_cells vs = vs.
Proof.
  unfold clean_cells. rewrite <-list_fmap_compose.
  intros [Hi|Hf].
  - induction Hi as [|v vs [z ->] _ IH]; csimpl; [done|].
    rewrite IH. f_equal. apply to_numeric_scalar_str_int.
  - induction Hf as [|v vs [->|[z ->]] _ IH]; csimpl; [done|..]; rewrite IH; f_equal.
    apply to_numeric_scalar_str_float.
Qed.

(** Cleaning a numeric column gives the column back: every number and
    every missing value is unchanged. *)
Lemma to_numeric_clean_numeric vs :
  numeric_column vs → to_numeric (clean_cells vs) = vs.
Proof.
  intros Hn. unfold to_numeric. rewrite to_numeric_scalar_clean_numeric by done.
  destruct (forallb is_int vs) eqn:Hall; [done|].
  destruct Hn as [Hi|Hf]; [|by apply as_float_float_column].
  assert (forallb is_int vs = true) as Hall'; [|congruence].
  apply forallb_Forall. eapply Forall_impl; [exact Hi|]. by intros v [z ->].
Qed.

Lemma clean_hours_run df col w :
  has_column df col = true →
  let df' := setitem df col (to_numeric (clean_cells (column df col))) in
  let n := isna_sum (column df' col) in
  clean_hours df col w =
    (inr df', if bool_decide (n ≠ 0%nat) then printed w (nan_warning n col) else w).
Proof.
  intros Hc. unfold clean_hours. rewrite Hc; simpl.
  rewrite str_map_clean.
  rewrite column_setitem by (by rewrite length_clean_cells, length_column).
  rewrite setitem_setitem;
    rewrite ?length_to_numeric, ?length_clean_cells, ?length_column; try done.
  unfold mbind, M_bind, mret, M_ret.
  destruct (bool_decide _); done.
Qed.

Lemma clean_hours_missing df col w :
  has_column df col = false → clean_hours df col w = (inl (KeyError col), w).
Proof. intros Hc. unfold clean_hours. by rewrite Hc. Qed.

Lemma clean_hours_inv df col w df1 w1 :
  clean_hours df col w = (inr df1, w1) →
  has_column df col = true
  ∧ df1 = setitem df col (to_numeric (clean_cells (column df col))).
Proof.
  intros Hrun. destruct (has_column df col) eqn:Hc.
  - rewrite clean_hours_run in Hrun by done. by injection Hrun as <- _.
  - by rewrite clean_hours_missing in Hrun.
Qed.



(** C7: cleaning the column "Hours Viewed" holding the texts "1,234",
    " 500 " and "abc" gives the numbers 1234.0 and 500.0 and a missing
    value, and the warning printed reports one missing value. *)
Theorem clean_hours_scenario df w :
  has_column df "Hours Viewed" = true →
  column df "Hours Viewed" = [VStr "1,234"; VStr " 500 "; VStr "abc"] →
  ∃ df', clean_hours df "Hours Viewed" w =
           (inr df', printed w "Warning: 1 rows have NaN for 'Hours Viewed' after cleaning.")
         ∧ column df' "Hours Viewed" = [VFloat 1234; VFloat 500; VNaN]
         ∧ isna_sum (column df' "Hours Viewed") = 1%nat.
Proof.
  intros Hc Hcol. eexists. rewrite clean_hours_run by done.
  assert (length (rows df) = 3%nat) as Hlen by (by rewrite <-(length_column df "Hours Viewed"), Hcol).
  rewrite Hcol.
  change (to_numeric (clean_cells [VStr "1,234"; VStr " 500 "; VStr "abc"]))
    with [VFloat 1234; VFloat 500; VNaN].
  rewrite column_setitem by done.
  split; [reflexivity|]. rewrite column_setitem by done. split; reflexivity.
Qed.

Lemma clean_hours_scenario_witness :
  ∃ df', clean_hours scenario_table "Hours Viewed" empty_world =
           (inr df', printed empty_world "Warning: 1 rows have NaN for 'Hours Viewed' after cleaning.")
         ∧ column df' "Hours Viewed" = [VFloat 1234; VFloat 500; VNaN]
         ∧ isna_sum (column df' "Hours Viewed") = 1%nat.
Proof. apply clean_hours_scenario; reflexivity. Defined.

(** ** The season classifier *)

Lemma get_season_number month m :
  num_of month = Some m →
  get_season month =
    inr (VStr (if bool_decide (m ∈ [12; 1; 2]) then "Winter"
               else if bool_decide (m ∈ [3; 4; 5]) then "Spring"
               else if bool_decide (m ∈ [6; 7; 8]) then "Summer"
               else "Fall")).
Proof.
  destruct month; simpl; try done; intros [= ->]; unfold get_season; simpl;
    repeat case_bool_decide; done.
Qed.

Lemma get_season_missing month : isna month = true → get_season month = inr VNone.
Proof. intros H. unfold get_season. by rewrite H. Qed.

(** C2: for a month number from 1 to 12 the season classifier returns the
    season the fixed table gives, one of Winter, Spring, Summer and Fall, and
    for a missing month it returns the missing season [None].  The classifier
    is a function of the month alone: it reads and writes no state. *)
Theorem get_season_mapping (month : value) (m : Z) :
  num_of month = Some m → 1 ≤ m ≤ 12 →
  (∃ s, spec_season m = Some s ∧ get_season month = inr (VStr s)
        ∧ s ∈ ["Winter"; "Spring"; "Summer"; "Fall"])
  ∧ (∀ missing, isna missing = true → get_season missing = inr VNone).
Proof.
  intros Hm Hrange. split; [|apply get_season_missing].
  rewrite (get_season_number _ _ Hm).
  assert (m = 1 ∨ m = 2 ∨ m = 3 ∨ m = 4 ∨ m = 5 ∨ m = 6 ∨ m = 7 ∨ m = 8
          ∨ m = 9 ∨ m = 10 ∨ m = 11 ∨ m = 12) as Hcases by lia.
  destruct_or!; subst m; eexists; (split; [reflexivity|]); (split; [reflexivity|]);
    rewrite !elem_of_cons; auto 6.
Qed.

Lemma get_season_mapping_witness :
  (∃ s, spec_season 7 = Some s ∧ get_season (VFloat 7) = inr (VStr s)
        ∧ s ∈ ["Winter"; "Spring"; "Summer"; "Fall"])
  ∧ (∀ missing, isna missing = true → get_season missing = inr VNone).
Proof. apply (get_season_mapping (VFloat 7) 7); [reflexivity|lia]. Defined.

(** C10: for a month number outside 1 to 12 the season classifier returns
    Fall, neither a missing season nor an error; the missing season is
    returned for a missing month only. *)
Theorem get_season_out_of_range (month : value) (m : Z) :
  num_of month = Some m → ¬ (1 ≤ m ≤ 12) →
  get_season month = inr (VStr "Fall")
  ∧ (∀ v, get_season v = inr VNone ↔ isna v = true).
Proof.
  intros Hm Hrange. split.
  - rewrite (get_season_number _ _ Hm).
    repeat case_bool_decide; try done; exfalso;
      repeat match goal with H : _ ∈ _ |- _ => rewrite !elem_of_cons, elem_of_nil in H end;
      lia.
  - intros v. split; [|apply get_season_missing].
    destruct (isna v) eqn:Hna; [done|]. unfold get_season. rewrite Hna.
    destruct (py_int v); [done|]. by repeat case_bool_decide.
Qed.

Lemma get_season_out_of_range_witness :
  get_season (VInt 13) = inr (VStr "Fall")
  ∧ (∀ v, get_season v = inr VNone ↔ isna v = true).
Proof. apply (get_season_out_of_range (VInt 13) 13); [reflexivity|lia]. Defined.

(** ** The date enricher *)

Lemma length_to_datetime_coerce vs : length (to_datetime_coerce vs) = length vs.
Proof. unfold to_datetime_coerce. by rewrite length_fmap. Qed.

Lemma length_dt_field f vs : length (dt_field f vs) = length vs.
Proof. unfold dt_field. destruct (forallb notna vs); by rewrite length_fmap. Qed.

Lemma length_dt_day_name vs : length (dt_day_name vs) = length vs.
Proof. unfold dt_day_name. by rewrite length_fmap. Qed.

Lemma prepare_dates_run df date_col w :
  has_column df date_col = true →
  let n := isna_sum (to_datetime_coerce (column df date_col)) in
  prepare_dates df date_col w =
    (inr (enriched df date_col),
     if bool_decide (n ≠ 0%nat) then printed w (date_warning n date_col) else w).
Proof.
  intros Hc. unfold prepare_dates, enriched. rewrite Hc; simpl.
  rewrite !(column_setitem df date_col)
    by (by rewrite length_to_datetime_coerce, length_column).
  unfold mbind, M_bind, mret, M_ret. by destruct (bool_decide _).
Qed.

Lemma prepare_dates_missing df date_col w :
  has_column df date_col = false →
  prepare_dates df date_col w = (inl (KeyError date_col), w).
Proof. intros Hc. unfold prepare_dates. by rewrite Hc. Qed.

(** ** Row order *)

Lemma same_rows_except_refl cols df : same_rows_except cols df df.
Proof. apply Forall_Forall2_diag, Forall_forall. done. Qed.

Lemma same_rows_except_trans cols1 cols2 df1 df2 df3 :
  same_rows_except cols1 df1 df2 → same_rows_except cols2 df2 df3 →
  same_rows_except (cols1 ++ cols2) df1 df3.
Proof.
  unfold same_rows_except. intros H12 H23.
  eapply Forall2_trans; [|exact H12|exact H23].
  intros r1 r2 r3 Ha Hb c Hc. rewrite not_elem_of_app in Hc.
  rewrite Hb, Ha; tauto.
Qed.

Lemma same_rows_except_setitem df col vals :
  length vals = length (rows df) → same_rows_except [col] df (setitem df col vals).
Proof.
  intros Hlen. apply Forall2_same_length_lookup. split.
  - by rewrite length_rows_setitem.
  - intros i r r' Hr. rewrite rows_setitem_lookup, Hr; simpl.
    destruct (vals !! i); simpl; [|done]. intros [= <-] c Hc.
    apply lookup_insert_ne. rewrite list_elem_of_singleton in Hc. done.
Qed.

Lemma same_rows_except_length cols df df' :
  same_rows_except cols df df' → length (rows df') = length (rows df).
Proof. intros H. symmetry. by eapply Forall2_length. Qed.

Lemma same_rows_except_enriched df date_col :
  same_rows_except [date_col; "Release Month"; "Release Day"; "Release Year"]
                   df (enriched df date_col).
Proof.
  unfold enriched.
  set (df1 := setitem df date_col _).
  set (df2 := setitem df1 "Release Month" _).
  set (df3 := setitem df2 "Release Day" _).
  assert (same_rows_except [date_col] df df1) as H1.
  { apply same_rows_except_setitem.
    by rewrite length_to_datetime_coerce, length_column. }
  assert (same_rows_except ["Release Month"] df1 df2) as H2.
  { apply same_rows_except_setitem. by rewrite length_dt_field, length_column. }
  assert (same_rows_except ["Release Day"] df2 df3) as H3.
  { apply same_rows_except_setitem. by rewrite length_dt_day_name, length_column. }
  assert (same_rows_except ["Release Year"] df3 (setitem df3 "Release Year"
            (dt_field ts_year (column df3 date_col)))) as H4.
  { apply same_rows_except_setitem. by rewrite length_dt_field, length_column. }
  pose proof (same_rows_except_trans _ _ _ _ _ H1
                (same_rows_except_trans _ _ _ _ _ H2
                   (same_rows_except_trans _ _ _ _ _ H3 H4))) as H.
  exact H.
Qed.

(** ** The holiday window matcher *)

Lemma to_datetime_index_default :
  to_datetime_index DEFAULT_DATES = inr default_timestamps.
Proof. reflexivity. Qed.

(** For two midnights the measure of the matcher is the distance in
    calendar days. *)
Lemma abs_days_midnight (a b : Z) :
  abs_days (a * NS_PER_DAY) (b * NS_PER_DAY) = Z.abs (a - b).
Proof.
  unfold abs_days, timedelta_days. rewrite <-Z.mul_sub_distr_r.
  by rewrite Z.div_mul.
Qed.

Lemma abs_days_same x : abs_days x x = 0.
Proof. unfold abs_days, timedelta_days. by rewrite Z.sub_diag. Qed.

Lemma select_fmap {A} (f : A → bool) (l : list A) :
  select (f <$> l) l = filter (λ x, f x = true) l.
Proof.
  induction l as [|x l IH]; csimpl; [done|].
  rewrite filter_cons, IH. destruct (f x); by case_decide.
Qed.

Lemma select_column (f : value → bool) df col :
  select (f <$> column df col) (rows df)
  = filter (λ r : Row, f (default VNaN (r !! col)) = true) (rows df).
Proof.
  unfold column. rewrite <-list_fmap_compose.
  apply (select_fmap (λ r : Row, f (default VNaN (r !! col)))).
Qed.

Lemma series_apply_in_window ds window_days vs :
  datetime_column vs →
  series_apply (in_window ds window_days) vs = inr (window_match ds window_days <$> vs).
Proof.
  intros Hd. induction Hd as [|v vs Hv _ IH]; csimpl; [done|].
  rewrite IH. destruct Hv as [Hna|[x ->]]; [|done].
  unfold in_window, notna. rewrite Hna; simpl. by destruct v.
Qed.

Lemma window_match_spec ds window_days v :
  window_match ds window_days v = true
  ↔ ∃ x, v = VTimestamp x ∧ ∃ d, d ∈ ds ∧ abs_days x d ≤ window_days.
Proof.
  destruct v; simpl; try (split; [done|by intros (? & ? & ?)]).
  rewrite existsb_exists. split.
  - intros (d & Hin & Hle). exists ns. split; [done|]. exists d.
    rewrite list_elem_of_In. split; [done|]. lia.
  - intros (x & [= <-] & d & Hin & Hle). exists d.
    rewrite <-list_elem_of_In. split; [done|]. lia.
Qed.

Lemma holiday_release_analysis_run df important_dates window_days ds w :
  to_datetime_index (default DEFAULT_DATES important_dates) = inr ds →
  has_column df "Release Date" = true →
  datetime_column (column df "Release Date") →
  ∃ w', holiday_release_analysis df important_dates window_days w =
          (inr {| columns := columns df;
                  rows := filter (λ r, window_match ds window_days (release_date r) = true)
                                 (rows df) |}, w').
Proof.
  intros Hds Hc Hd. unfold holiday_release_analysis.
  unfold mbind at 1, M_bind at 1, lift at 1. rewrite Hds, Hc; simpl.
  unfold mbind at 1, M_bind at 1, lift at 1.
  rewrite series_apply_in_window by done.
  unfold df_mask. rewrite select_column. fold release_date.
  unfold mbind, M_bind, mret, M_ret, print, write_file.
  destruct (df_empty _); eexists; reflexivity.
Qed.



(** The scenario of the specification: with a window of three days the
    release of 2023-12-24 is kept for Christmas, the one of 2023-12-20 is
    not, and neither is the release without a date. *)
Example holiday_scenario :
  ∃ w', holiday_release_analysis holiday_table None 3 empty_world =
          (inr {| columns := columns holiday_table;
                  rows := take 1 (rows holiday_table) |}, w').
Proof. eexists. vm_compute. reflexivity. Qed.

(** ** Running the monad *)

Lemma bind_inr {A B} (m : M A) (k : A → M B) w a w' :
  m w = (inr a, w') → (m ≫= k) w = k a w'.
Proof. intros H. unfold mbind, M_bind. by rewrite H. Qed.

Lemma bind_inl {A B} (m : M A) (k : A → M B) w e w' :
  m w = (inl e, w') → (m ≫= k) w = (inl e, w').
Proof. intros H. unfold mbind, M_bind. by rewrite H. Qed.

Lemma bind_inv {A B} (m : M A) (k : A → M B) w b w2 :
  (m ≫= k) w = (inr b, w2) → ∃ a w1, m w = (inr a, w1) ∧ k a w1 = (inr b, w2).
Proof.
  unfold mbind, M_bind. destruct (m w) as [[e|a] w1]; [done|]. eauto.
Qed.

Lemma lift_inv {A} (r : exn + A) w a w' :
  lift r w = (inr a, w') → r = inr a ∧ w' = w.
Proof. unfold lift. by intros [= -> ->]. Qed.

Lemma series_apply_length {A} (f : value → exn + A) vs l :
  series_apply f vs = inr l → length l = length vs.
Proof.
  revert l. induction vs as [|v vs IH]; simpl; intros l.
  - by intros [= <-].
  - destruct (f v); [done|]. destruct (series_apply f vs); [done|].
    intros [= <-]. simpl. f_equal. by apply IH.
Qed.

Lemma plot_seasonal_viewership_rows df w df' w' :
  plot_seasonal_viewership df w = (inr df', w') →
  same_rows_except ["Release Season"] df df'.
Proof.
  unfold plot_seasonal_viewership.
  destruct (has_column df "Release Month"); simpl.
  - intros (seasons & w1 & [Hs ->]%lift_inv & Hrest)%bind_inv.
    apply bind_inv in Hrest as (agg & w2 & _ & Hrest).
    apply bind_inv in Hrest as (? & w3 & _ & Hret).
    injection Hret as <- _.
    apply same_rows_except_setitem.
    by rewrite (series_apply_length _ _ _ Hs), length_column.
  - intros (? & w1 & _ & Hret)%bind_inv. injection Hret as <- _.
    apply same_rows_except_refl.
Qed.



(** ** Aggregation *)

Lemma key_eqb_refl k : key_eqb k k = true.
Proof.
  unfold key_eqb. destruct (num_of k); [apply Z.eqb_refl|].
  by apply bool_decide_eq_true_2.
Qed.

Lemma key_eqb_sym a b : key_eqb a b = key_eqb b a.
Proof.
  unfold key_eqb. destruct (num_of a), (num_of b); try done.
  - apply Z.eqb_sym.
  - apply bool_decide_ext. split; congruence.
Qed.

Lemma key_eqb_trans a b c :
  key_eqb a b = true → key_eqb b c = true → key_eqb a c = true.
Proof.
  unfold key_eqb.
  destruct (num_of a) eqn:Ha, (num_of b) eqn:Hb, (num_of c) eqn:Hc; try done.
  - rewrite !Z.eqb_eq. congruence.
  - rewrite !bool_decide_eq_true. congruence.
Qed.

Lemma key_eqb_congr a b k :
  key_eqb a b = true → key_eqb a k = key_eqb b k.
Proof.
  intros Hab. destruct (key_eqb b k) eqn:Hbk.
  - by eapply key_eqb_trans.
  - destruct (key_eqb a k) eqn:Hak; [|done].
    rewrite key_eqb_sym in Hab. by rewrite (key_eqb_trans _ _ _ Hab Hak) in Hbk.
Qed.

Lemma key_eqb_VInt m k : key_eqb (VInt m) k = true ↔ num_of k = Some m.
Proof.
  unfold key_eqb; simpl. destruct (num_of k) as [y|]; [|done].
  rewrite Z.eqb_eq. split; congruence.
Qed.

Lemma elem_of_insert_by {A} (before : A → A → bool) x y l :
  y ∈ insert_by before x l ↔ y = x ∨ y ∈ l.
Proof.
  induction l as [|z l IH]; simpl.
  - rewrite list_elem_of_singleton, elem_of_nil. tauto.
  - destruct (before x z); rewrite !elem_of_cons; [tauto|]. rewrite IH. tauto.
Qed.

Lemma elem_of_sort_by {A} (before : A → A → bool) y l :
  y ∈ sort_by before l ↔ y ∈ l.
Proof.
  unfold sort_by. induction l as [|x l IH]; simpl; [done|].
  by rewrite elem_of_insert_by, IH, elem_of_cons.
Qed.

Lemma distinct_keys_complete k ks :
  k ∈ ks → ∃ k', k' ∈ distinct_keys ks ∧ key_eqb k' k = true.
Proof.
  induction ks as [|k0 ks IH]; simpl; [by intros ?%elem_of_nil|].
  intros [->|Hin]%elem_of_cons.
  - exists k0. split; [apply list_elem_of_here|apply key_eqb_refl].
  - destruct (IH Hin) as (k' & Hk' & Heq).
    destruct (key_eqb k0 k') eqn:H0.
    + exists k0. split; [apply list_elem_of_here|]. by eapply key_eqb_trans.
    + exists k'. split; [|done]. apply list_elem_of_further, list_elem_of_filter. done.
Qed.

Lemma group_keys_complete k keys :
  k ∈ keys → notna k = true → ∃ k', k' ∈ group_keys keys ∧ key_eqb k' k = true.
Proof.
  intros Hin Hna. unfold group_keys.
  destruct (distinct_keys_complete k (filter (λ k, notna k = true) keys))
    as (k' & Hk' & Heq).
  { by apply list_elem_of_filter. }
  exists k'. split; [|done]. by apply elem_of_sort_by.
Qed.

Lemma group_sum_congr a b keys nums :
  key_eqb a b = true → group_sum a keys nums = group_sum b keys nums.
Proof.
  intros Hab. unfold group_sum. f_equal.
  revert nums. induction keys as [|k keys IH]; intros [|n nums]; simpl; try done.
  by rewrite IH, (key_eqb_congr a b).
Qed.

Lemma group_sum_absent k keys nums :
  (∀ k', k' ∈ keys → key_eqb k k' = false) → group_sum k keys nums = 0.
Proof.
  unfold group_sum. revert nums.
  induction keys as [|k0 keys IH]; intros [|n nums] Habs; simpl; try done.
  rewrite (Habs k0) by apply list_elem_of_here.
  rewrite IH; [done|]. intros k' Hk'. apply Habs. by apply list_elem_of_further.
Qed.

Lemma lookup_key_fmap k (g : value → value) ks :
  lookup_key k ((λ k', (k', g k')) <$> ks) = g <$> List.find (key_eqb k) ks.
Proof.
  unfold lookup_key. induction ks as [|k0 ks IH]; csimpl; [done|].
  destruct (key_eqb k k0); [done|]. apply IH.
Qed.

Lemma num_of_wrap_like vs z : num_of (wrap_like vs z) = Some z.
Proof. unfold wrap_like. by destruct (forallb is_int vs). Qed.

Lemma num_of_as_float v : num_of (as_float v) = num_of v.
Proof. by destruct v. Qed.

Lemma unify_dtype_lookup vs i :
  num_of <$> (unify_dtype vs !! i) = num_of <$> (vs !! i).
Proof.
  unfold unify_dtype. destruct (forallb is_int vs); [done|].
  rewrite list_lookup_fmap. destruct (vs !! i); simpl; [|done].
  by rewrite num_of_as_float.
Qed.

Lemma numeric_cells_summable vs :
  summable vs → numeric_cells vs = inr (num_of <$> vs).
Proof.
  intros Hs. induction Hs as [|v vs Hv _ IH]; csimpl; [done|].
  rewrite IH. by destruct v.
Qed.

Lemma numeric_column_summable vs : numeric_column vs → summable vs.
Proof.
  intros [Hi|Hf]; (eapply Forall_impl; [eassumption|]); simpl.
  - by intros v [z ->].
  - by intros v [->|[z ->]].
Qed.

(** The entry of month [m] in a group sum reindexed with zero fill is
    the sum over the rows of that month, whether the month occurs or not. *)
Lemma reindexed_entry keys vals nums m :
  num_of (default (VInt 0)
            (lookup_key (VInt m)
               ((λ k, (k, wrap_like vals (group_sum k keys nums))) <$> group_keys keys)))
  = Some (group_sum (VInt m) keys nums).
Proof.
  rewrite lookup_key_fmap.
  destruct (List.find (key_eqb (VInt m)) (group_keys keys)) as [k|] eqn:Hfind; simpl.
  - apply find_some in Hfind as [_ Heq].
    rewrite num_of_wrap_like. f_equal. symmetry. by apply group_sum_congr.
  - f_equal. symmetry. apply group_sum_absent. intros k' Hk'.
    destruct (key_eqb (VInt m) k') eqn:Heq; [|done].
    assert (notna k' = true) as Hna.
    { apply key_eqb_VInt in Heq. by destruct k'. }
    destruct (group_keys_complete k' keys Hk' Hna) as (k'' & Hk'' & Heq'').
    apply list_elem_of_In in Hk''.
    pose proof (find_none _ _ Hfind _ Hk'') as Hnone. simpl in Hnone.
    rewrite key_eqb_sym in Heq''.
    by rewrite (key_eqb_trans _ _ _ Heq Heq'') in Hnone.
Qed.

Lemma group_sum_month_total df m :
  group_sum (VInt m) (column df "Release Month") (num_of <$> column df "Hours Viewed")
  = month_total df m.
Proof.
  unfold group_sum, month_total, column. rewrite <-list_fmap_compose.
  induction (rows df) as [|r rs IH]; csimpl; [done|].
  rewrite IH, filter_cons. unfold row_month at 2.
  destruct (key_eqb (VInt m) (default VNaN (r !! "Release Month"))) eqn:Heq.
  - apply key_eqb_VInt in Heq. rewrite decide_True by done. done.
  - rewrite decide_False; [done|]. intros Hm%key_eqb_VInt. congruence.
Qed.

Lemma getitem_run df col w :
  has_column df col = true → getitem df col w = (inr (column df col), w).
Proof. intros H. unfold getitem. by rewrite H. Qed.

Lemma getitem_missing df col w :
  has_column df col = false → getitem df col w = (inl (KeyError col), w).
Proof. intros H. unfold getitem. by rewrite H. Qed.

Lemma groupby_col_sum_run df key val w :
  has_column df key = true → has_column df val = true →
  summable (column df val) →
  groupby_col_sum df key val w =
    (inr ((λ k, (k, wrap_like (column df val)
                     (group_sum k (column df key) (num_of <$> column df val))))
            <$> group_keys (column df key)), w).
Proof.
  intros Hk Hv Hs. unfold groupby_col_sum.
  rewrite (bind_inr _ _ _ _ _ (getitem_run df key w Hk)).
  rewrite (bind_inr _ _ _ _ _ (getitem_run df val w Hv)).
  unfold lift, groupby_sum. by rewrite numeric_cells_summable.
Qed.

Lemma months_lookup m :
  1 ≤ m ≤ 12 → months !! Z.to_nat (m - 1) = Some (VInt m).
Proof.
  intros Hm.
  assert (m = 1 ∨ m = 2 ∨ m = 3 ∨ m = 4 ∨ m = 5 ∨ m = 6 ∨ m = 7 ∨ m = 8
          ∨ m = 9 ∨ m = 10 ∨ m = 11 ∨ m = 12) as Hcases by lia.
  destruct_or!; subst m; reflexivity.
Qed.

Lemma month_total_absent df m :
  (∀ r, r ∈ rows df → row_month r ≠ Some m) → month_total df m = 0.
Proof.
  intros Habs. unfold month_total.
  induction (rows df) as [|r rs IH]; [done|].
  rewrite filter_cons, decide_False by (apply Habs, list_elem_of_here).
  apply IH. intros r' Hr'. apply Habs. by apply list_elem_of_further.
Qed.



(** The reindexed months of [monthly_table]: March holds 10, July 5, and
    the ten months without a release hold 0. *)
Example monthly_sum_example :
  monthly_sum monthly_table empty_world =
    (inr [(VInt 1, VFloat 0); (VInt 2, VFloat 0); (VInt 3, VFloat 10);
          (VInt 4, VFloat 0); (VInt 5, VFloat 0); (VInt 6, VFloat 0);
          (VInt 7, VFloat 5); (VInt 8, VFloat 0); (VInt 9, VFloat 0);
          (VInt 10, VFloat 0); (VInt 11, VFloat 0); (VInt 12, VFloat 0)],
     empty_world).
Proof. reflexivity. Qed.

(** ** The stable descending sort *)

Lemma desc_before_total a b : desc_before a b = false → desc_before b a = true.
Proof. destruct a, b; simpl; try done. rewrite Z.leb_gt. lia. Qed.

Lemma desc_before_trans a b c :
  desc_before a b = true → desc_before b c = true → desc_before a c = true.
Proof. destruct a, b, c; simpl; try done. lia. Qed.

Lemma insert_by_Permutation {A} (before : A → A → bool) x l :
  insert_by before x l ≡ₚ x :: l.
Proof.
  induction l as [|y l IH]; simpl; [done|].
  destruct (before x y); [done|]. rewrite IH. apply Permutation_swap.
Qed.

Lemma sort_by_Permutation {A} (before : A → A → bool) l : sort_by before l ≡ₚ l.
Proof.
  unfold sort_by. induction l as [|x l IH]; simpl; [done|].
  by rewrite insert_by_Permutation, IH.
Qed.

Lemma insert_by_ranked x S :
  StronglySorted ranks_before S →
  Forall (λ y, (x.1 < y.1)%nat) S →
  StronglySorted ranks_before (insert_by (λ a b : nat * option Z, desc_before a.2 b.2) x S).
Proof.
  intros Hs. induction Hs as [|y S Hs IH Hy]; simpl; intros Hlt.
  - repeat constructor.
  - apply Forall_cons in Hlt as [Hxy Hlt].
    destruct (desc_before x.2 y.2) eqn:Hb.
    + constructor; [by constructor|]. constructor.
      * split; [done|]. intros _. done.
      * apply Forall_forall. intros z Hz.
        pose proof (proj1 (Forall_forall _ _) Hy z Hz) as [Hyz _].
        pose proof (proj1 (Forall_forall _ _) Hlt z Hz) as Hxz.
        split; [by eapply desc_before_trans|done].
    + constructor; [by apply IH|].
      apply Forall_forall. intros z [->|Hz]%elem_of_insert_by.
      * split; [by apply desc_before_total|]. rewrite Hb. done.
      * by apply (proj1 (Forall_forall _ _) Hy).
Qed.

Lemma sort_by_ranked l :
  StronglySorted (λ a b : nat * option Z, (a.1 < b.1)%nat) l →
  StronglySorted ranks_before (sort_by (λ a b : nat * option Z, desc_before a.2 b.2) l).
Proof.
  intros Hl. induction Hl as [|x l Hl IH Hx]; simpl; [constructor|].
  apply insert_by_ranked; [done|].
  by rewrite sort_by_Permutation.
Qed.

(** ** The top-N selector *)

Lemma indexed_lookup nums i p :
  indexed nums !! i = Some p ↔ p.1 = i ∧ nums !! i = Some p.2.
Proof.
  unfold indexed. rewrite lookup_zip_with. destruct p as [j v]; simpl. split.
  - intros H. destruct (seq 0 (length nums) !! i) as [j'|] eqn:Hs; [|done].
    simpl in H. destruct (nums !! i) as [v'|]; [|done]. injection H as -> ->.
    apply lookup_seq in Hs as [-> _]. done.
  - intros [-> Hv]. rewrite lookup_seq_lt by (by eapply lookup_lt_Some).
    simpl. by rewrite Hv.
Qed.

Lemma elem_of_indexed nums i v : (i, v) ∈ indexed nums ↔ nums !! i = Some v.
Proof.
  rewrite list_elem_of_lookup. split.
  - intros [k [Hk Hv]%indexed_lookup]. simpl in *. by subst.
  - intros Hv. exists i. by apply indexed_lookup.
Qed.

Lemma indexed_fst nums : (indexed nums).*1 = seq 0 (length nums).
Proof. unfold indexed. apply fst_zip. by rewrite length_seq. Qed.

Lemma indexed_sorted nums :
  StronglySorted (λ a b : nat * option Z, (a.1 < b.1)%nat) (indexed nums).
Proof.
  unfold indexed. generalize 0%nat.
  induction nums as [|v nums IH]; intros k; simpl; [constructor|].
  constructor; [apply IH|].
  apply Forall_forall. intros [j v'] Hin. simpl.
  apply elem_of_zip_l in Hin. apply elem_of_seq in Hin. lia.
Qed.

(** The selection is the head of the whole table in ranking order. *)
Lemma nlargest_positions_split n nums :
  ∃ top rest : list (nat * option Z),
    nlargest_positions n nums = top.*1
    ∧ length top = (if n <=? 0 then 0%nat else (Z.to_nat n `min` length nums)%nat)
    ∧ top ++ rest ≡ₚ indexed nums
    ∧ StronglySorted ranks_before (top ++ rest).
Proof.
  set (sorted := sort_by (λ a b : nat * option Z, desc_before a.2 b.2) (indexed nums)).
  assert (length sorted = length nums) as Hlen.
  { unfold sorted. rewrite sort_by_Permutation. unfold indexed.
    rewrite length_zip_with, length_seq. lia. }
  assert (sorted ≡ₚ indexed nums) as Hperm by apply sort_by_Permutation.
  assert (StronglySorted ranks_before sorted) as Hsorted
    by apply sort_by_ranked, indexed_sorted.
  unfold nlargest_positions. fold (indexed nums). fold sorted.
  destruct (n <=? 0) eqn:Hn.
  - exists [], sorted. done.
  - exists (take (Z.to_nat n) sorted), (drop (Z.to_nat n) sorted).
    rewrite take_drop, fmap_take, length_take, Hlen. done.
Qed.

Lemma StronglySorted_lookup {A} (R : relation A) l a b x y :
  StronglySorted R l → (a < b)%nat → l !! a = Some x → l !! b = Some y → R x y.
Proof.
  intros Hs Hab Ha Hb.
  rewrite <-(take_drop b l) in Hs.
  eapply StronglySorted_app_1_elem_of; [exact Hs|..].
  - apply elem_of_take. eauto.
  - apply list_elem_of_lookup. exists 0%nat. rewrite lookup_drop.
    by rewrite Nat.add_0_r.
Qed.

(** What the selection satisfies, in terms of row positions. *)
Lemma nlargest_positions_ranked n nums :
  let res := nlargest_positions n nums in
  length res = (if n <=? 0 then 0%nat else (Z.to_nat n `min` length nums)%nat)
  ∧ NoDup res
  ∧ (∀ i, i ∈ res → (i < length nums)%nat)
  ∧ (∀ i j vi vj, i ∈ res → j ∉ res → nums !! i = Some vi → nums !! j = Some vj →
       ranks_before (i, vi) (j, vj))
  ∧ (∀ a b i j vi vj, (a < b)%nat → res !! a = Some i → res !! b = Some j →
       nums !! i = Some vi → nums !! j = Some vj → ranks_before (i, vi) (j, vj)).
Proof.
  destruct (nlargest_positions_split n nums) as (top & rest & -> & Hlen & Hperm & Hs).
  simpl.
  assert (NoDup ((top ++ rest)%list).*1) as Hnd.
  { rewrite Hperm, indexed_fst. apply NoDup_seq. }
  rewrite fmap_app in Hnd. apply NoDup_app in Hnd as (Hnd1 & Hdisj & Hnd2).
  assert (∀ i v, (i, v) ∈ top → nums !! i = Some v) as Htop.
  { intros i v Hin. apply elem_of_indexed. rewrite <-Hperm.
    apply elem_of_app. by left. }
  split_and!.
  - by rewrite length_fmap.
  - done.
  - intros i [[i' v] [-> Hin]]%list_elem_of_fmap. simpl.
    eapply lookup_lt_Some, Htop, Hin.
  - intros i j vi vj [[i' vi'] [-> Hin]]%list_elem_of_fmap Hj Hvi Hvj. simpl in *.
    rewrite (Htop _ _ Hin) in Hvi. injection Hvi as ->.
    assert ((j, vj) ∈ (top ++ rest)%list) as Hjin
      by (rewrite Hperm; by apply elem_of_indexed).
    apply elem_of_app in Hjin as [Hjin|Hjin].
    + destruct Hj. apply list_elem_of_fmap. by exists (j, vj).
    + by eapply StronglySorted_app_1_elem_of.
  - intros a b i j vi vj Hab Ha Hb Hvi Hvj.
    rewrite list_lookup_fmap in Ha, Hb.
    destruct (top !! a) as [[i' vi']|] eqn:Hta; [|done].
    destruct (top !! b) as [[j' vj']|] eqn:Htb; [|done].
    simpl in Ha, Hb. injection Ha as ->. injection Hb as ->.
    rewrite (Htop i vi') in Hvi by (by eapply list_elem_of_lookup_2).
    rewrite (Htop j vj') in Hvj by (by eapply list_elem_of_lookup_2).
    injection Hvi as ->. injection Hvj as ->.
    apply StronglySorted_app_1_l in Hs.
    by eapply StronglySorted_lookup.
Qed.

Lemma hours_lookup df i :
  hours df !! i = row_hours <$> rows df !! i.
Proof.
  unfold hours, column. rewrite !list_lookup_fmap.
  by destruct (rows df !! i).
Qed.

Lemma length_hours df : length (hours df) = length (rows df).
Proof. unfold hours. by rewrite length_fmap, length_column. Qed.

Lemma omap_lookup_valid {A} (l : list A) (pos : list nat) :
  (∀ i, i ∈ pos → (i < length l)%nat) →
  Forall2 (λ i x, l !! i = Some x) pos (omap (λ i, l !! i) pos).
Proof.
  induction pos as [|i pos IH]; intros Hvalid; simpl; [constructor|].
  destruct (lookup_lt_is_Some_2 l i) as [x Hx].
  { apply Hvalid, list_elem_of_here. }
  rewrite Hx. constructor; [done|].
  apply IH. intros j Hj. by apply Hvalid, list_elem_of_further.
Qed.

Lemma nlargest_run df n w :
  has_column df "Hours Viewed" = true →
  summable (column df "Hours Viewed") →
  nlargest df n "Hours Viewed" w
  = (inr (df_take df (nlargest_positions n (hours df))), w).
Proof.
  intros Hc Hs. unfold nlargest.
  rewrite (bind_inr _ _ _ _ _ (getitem_run df _ w Hc)).
  unfold lift, mbind, M_bind. by rewrite numeric_cells_summable.
Qed.

(** Top-N on a table: the rows returned are the rows at the selected
    positions, and the selection is ranked. *)
Lemma nlargest_selection df n w :
  has_column df "Hours Viewed" = true →
  summable (column df "Hours Viewed") →
  ∃ pos top,
    nlargest df n "Hours Viewed" w = (inr top, w)
    ∧ Forall2 (λ i r, rows df !! i = Some r) pos (rows top)
    ∧ NoDup pos
    ∧ length pos = (if n <=? 0 then 0%nat else (Z.to_nat n `min` length (rows df))%nat)
    ∧ (∀ i j ri rj, i ∈ pos → j ∉ pos →
         rows df !! i = Some ri → rows df !! j = Some rj →
         ranks_before (i, row_hours ri) (j, row_hours rj))
    ∧ (∀ a b i j ri rj, (a < b)%nat → pos !! a = Some i → pos !! b = Some j →
         rows df !! i = Some ri → rows df !! j = Some rj →
         ranks_before (i, row_hours ri) (j, row_hours rj)).
Proof.
  intros Hc Hs.
  destruct (nlargest_positions_ranked n (hours df)) as (Hlen & Hnd & Hlt & Hout & Hin).
  exists (nlargest_positions n (hours df)), (df_take df (nlargest_positions n (hours df))).
  split_and!.
  - by apply nlargest_run.
  - simpl. apply omap_lookup_valid. intros i Hi. rewrite <-length_hours. by apply Hlt.
  - done.
  - by rewrite Hlen, length_hours.
  - intros i j ri rj Hi Hj Hri Hrj.
    apply Hout; [done|done|..]; rewrite hours_lookup; by rewrite ?Hri, ?Hrj.
  - intros a b i j ri rj Hab Ha Hb Hri Hrj.
    apply (Hin a b); [done|done|done|..]; rewrite hours_lookup; by rewrite ?Hri, ?Hrj.
Qed.

(** The ranking the sort computes is the ranking by viewership: the one
    rests on the comparator of the sort, the other is stated on the numbers
    themselves. *)
Lemma ranks_before_outranks a b : ranks_before a b ↔ outranks a b.
Proof.
  unfold ranks_before, outranks, desc_before.
  destruct a as [i [x|]], b as [j [y|]]; simpl.
  - rewrite !Z.leb_le. split.
    + intros [Hle Htie]. destruct (decide (y < x)) as [|Hge]; [by left|].
      right. assert (x = y) as -> by lia. split; [done|]. apply Htie. lia.
    + intros [Hlt|[-> Hij]]; split; lia.
  - split; [done|]. intros _. split; [done|]. intros [=].
  - split; [by intros [[=] _]|done].
  - split; [intros [_ H]; by apply H|]. intros Hij. split; done.
Qed.

(** C5, as amended: for a number N of zero or more, Top-N returns N rows,
    or all rows when the table has fewer; for a negative N it returns no
    row.  The rows are those at the positions [pos], best first: every row
    returned outranks every row left out, and the rows returned are in
    ranking order, where a row outranks another when its viewership is the
    larger number, or when it has a viewership and the other has none, or
    when the two tie and it is the earlier row.  In particular the
    viewership of a row returned is at least that of any row left out. *)
Theorem top_n_selection df n w :
  has_column df "Hours Viewed" = true →
  summable (column df "Hours Viewed") →
  ∃ pos top,
    nlargest df n "Hours Viewed" w = (inr top, w)
    ∧ Forall2 (λ i r, rows df !! i = Some r) pos (rows top)
    ∧ NoDup pos
    ∧ (n < 0 → rows top = [])
    ∧ (0 ≤ n → length (rows top) = (Z.to_nat n `min` length (rows df))%nat)
    ∧ (∀ i j ri rj, i ∈ pos → j ∉ pos →
         rows df !! i = Some ri → rows df !! j = Some rj →
         outranks (i, row_hours ri) (j, row_hours rj))
    ∧ (∀ a b i j ri rj, (a < b)%nat → pos !! a = Some i → pos !! b = Some j →
         rows df !! i = Some ri → rows df !! j = Some rj →
         outranks (i, row_hours ri) (j, row_hours rj))
    ∧ (∀ i j ri rj x y, i ∈ pos → j ∉ pos →
         rows df !! i = Some ri → rows df !! j = Some rj →
         row_hours ri = Some x → row_hours rj = Some y → y ≤ x).
Proof.
  intros Hc Hs.
  destruct (nlargest_selection df n w Hc Hs)
    as (pos & top & Hrun & Hrows & Hnd & Hlen & Hout & Hin).
  exists pos, top. split_and!; try done.
  - intros Hn. apply length_zero_iff_nil. rewrite <-(Forall2_length _ _ _ Hrows), Hlen.
    by rewrite (proj2 (Z.leb_le n 0)) by lia.
  - intros Hn. rewrite <-(Forall2_length _ _ _ Hrows), Hlen.
    destruct (n <=? 0) eqn:Hle; [|done].
    apply Z.leb_le in Hle. assert (n = 0) as -> by lia. done.
  - intros i j ri rj Hi Hj Hri Hrj. apply ranks_before_outranks. by apply Hout.
  - intros a b i j ri rj Hab Ha Hb Hri Hrj. apply ranks_before_outranks.
    by apply (Hin a b).
  - intros i j ri rj x y Hi Hj Hri Hrj Hx Hy.
    pose proof (proj1 (ranks_before_outranks _ _) (Hout i j ri rj Hi Hj Hri Hrj)) as Ho.
    unfold outranks in Ho. simpl in Ho. rewrite Hx, Hy in Ho. lia.
Qed.

Lemma top_n_selection_witness :
  ∃ pos top,
    nlargest monthly_table 2 "Hours Viewed" empty_world = (inr top, empty_world)
    ∧ Forall2 (λ i r, rows monthly_table !! i = Some r) pos (rows top)
    ∧ NoDup pos
    ∧ (2 < 0 → rows top = [])
    ∧ (0 ≤ 2 → length (rows top) = (Z.to_nat 2 `min` length (rows monthly_table))%nat)
    ∧ (∀ i j ri rj, i ∈ pos → j ∉ pos →
         rows monthly_table !! i = Some ri → rows monthly_table !! j = Some rj →
         outranks (i, row_hours ri) (j, row_hours rj))
    ∧ (∀ a b i j ri rj, (a < b)%nat → pos !! a = Some i → pos !! b = Some j →
         rows monthly_table !! i = Some ri → rows monthly_table !! j = Some rj →
         outranks (i, row_hours ri) (j, row_hours rj))
    ∧ (∀ i j ri rj x y, i ∈ pos → j ∉ pos →
         rows monthly_table !! i = Some ri → rows monthly_table !! j = Some rj →
         row_hours ri = Some x → row_hours rj = Some y → y ≤ x).
Proof.
  apply (top_n_selection monthly_table 2 empty_world); [reflexivity|].
  change (summable [VFloat 10; VNaN; VFloat 5]).
  unfold summable. repeat constructor.
Defined.

(** C5 as stated fails for a negative N: asked for the top -1 rows, Top-N
    returns no row, and 0 rows are not at most -1 rows. *)
Lemma top_n_negative_counterexample :
  ∃ top w', nlargest monthly_table (-1) "Hours Viewed" empty_world = (inr top, w')
            ∧ ¬ (Z.of_nat (length (rows top)) ≤ -1).
Proof. eexists _, _. split; [reflexivity|]. simpl. lia. Qed.

(** C9, as amended: Top-N ranks a row with a missing viewership after
    every row with a number.  Such a row is returned only when every row
    with a number is returned as well, it comes after all of them in the
    result, and the result still has N rows whenever the table has N rows
    or more. *)
Theorem top_n_missing_last df n w :
  has_column df "Hours Viewed" = true →
  summable (column df "Hours Viewed") →
  ∃ pos top,
    nlargest df n "Hours Viewed" w = (inr top, w)
    ∧ Forall2 (λ i r, rows df !! i = Some r) pos (rows top)
    ∧ (∀ i ri, i ∈ pos → rows df !! i = Some ri → row_hours ri = None →
         ∀ j rj, rows df !! j = Some rj → is_Some (row_hours rj) → j ∈ pos)
    ∧ (∀ a b i j ri rj, (a < b)%nat → pos !! a = Some i → pos !! b = Some j →
         rows df !! i = Some ri → rows df !! j = Some rj →
         row_hours ri = None → row_hours rj = None)
    ∧ (0 ≤ n ≤ Z.of_nat (length (rows df)) → Z.of_nat (length (rows top)) = n).
Proof.
  intros Hc Hs.
  destruct (nlargest_selection df n w Hc Hs)
    as (pos & top & Hrun & Hrows & Hnd & Hlen & Hout & Hin).
  exists pos, top. split_and!; try done.
  - intros i ri Hi Hri Hmiss j rj Hrj [z Hz].
    destruct (decide (j ∈ pos)) as [|Hj]; [done|].
    destruct (Hout i j ri rj Hi Hj Hri Hrj) as [Hb _]. simpl in Hb.
    by rewrite Hmiss, Hz in Hb.
  - intros a b i j ri rj Hab Ha Hb Hri Hrj Hmiss.
    destruct (Hin a b i j ri rj Hab Ha Hb Hri Hrj) as [Hr _]. simpl in Hr.
    rewrite Hmiss in Hr. by destruct (row_hours rj).
  - intros Hn. rewrite <-(Forall2_length _ _ _ Hrows), Hlen.
    destruct (n <=? 0) eqn:Hle.
    + apply Z.leb_le in Hle. lia.
    + lia.
Qed.

Lemma top_n_missing_last_witness :
  ∃ pos top,
    nlargest monthly_table 3 "Hours Viewed" empty_world = (inr top, empty_world)
    ∧ Forall2 (λ i r, rows monthly_table !! i = Some r) pos (rows top)
    ∧ (∀ i ri, i ∈ pos → rows monthly_table !! i = Some ri → row_hours ri = None →
         ∀ j rj, rows monthly_table !! j = Some rj → is_Some (row_hours rj) → j ∈ pos)
    ∧ (∀ a b i j ri rj, (a < b)%nat → pos !! a = Some i → pos !! b = Some j →
         rows monthly_table !! i = Some ri → rows monthly_table !! j = Some rj →
         row_hours ri = None → row_hours rj = None)
    ∧ (0 ≤ 3 ≤ Z.of_nat (length (rows monthly_table)) →
       Z.of_nat (length (rows top)) = 3).
Proof.
  apply (top_n_missing_last monthly_table 3 empty_world); [reflexivity|].
  change (summable [VFloat 10; VNaN; VFloat 5]).
  unfold summable. repeat constructor.
Defined.

(** C9 as stated fails: of three rows, one without a viewership, the top
    three are all three rows, the one without a viewership included. *)
Lemma top_n_missing_counterexample :
  ∃ top w' r, nlargest monthly_table 3 "Hours Viewed" empty_world = (inr top, w')
              ∧ r ∈ rows top ∧ r !! "Hours Viewed" = Some VNaN
              ∧ length (rows top) = 3%nat.
Proof.
  eexists _, _, _. split; [reflexivity|]. split_and!.
  - apply list_elem_of_lookup. exists 2%nat. reflexivity.
  - reflexivity.
  - reflexivity.
Qed.

(** ** Runs that succeed, and what they print *)

Lemma emits_ret {A} (a : A) w : emits (mret a) w a w [].
Proof. unfold emits. by rewrite app_nil_r. Qed.

Lemma emits_bind {A B} (m : M A) (k : A → M B) w a w1 o1 b w2 o2 :
  emits m w a w1 o1 → emits (k a) w1 b w2 o2 → emits (m ≫= k) w b w2 (o1 ++ o2).
Proof.
  intros (Hm & Ho1 & Hd1) (Hk & Ho2 & Hd2). unfold emits.
  rewrite (bind_inr _ _ _ _ _ Hm). split; [done|].
  rewrite Ho2, Ho1, Hd2, Hd1. by rewrite app_assoc.
Qed.

Lemma emits_print s w : emits (print s) w () (printed w s) [Line s].
Proof. done. Qed.

Lemma emits_lift {A} (a : A) w : emits (lift (inr a)) w a w [].
Proof. unfold emits, lift. by rewrite app_nil_r. Qed.

Lemma emits_save_fig fig name w :
  ∃ w', emits (save_fig fig name) w () w'
          [Line ("Saved interactive plot: " +:+ OUTPUT_DIR +:+ "/" +:+ name +:+ ".html")].
Proof. eexists. unfold emits, save_fig. split; [reflexivity|]. done. Qed.

Lemma emits_getitem df col w :
  has_column df col = true → emits (getitem df col) w (column df col) w [].
Proof. intros H. unfold emits. rewrite getitem_run by done. by rewrite app_nil_r. Qed.

Lemma emits_groupby_col_sum df key val w :
  has_column df key = true → has_column df val = true → summable (column df val) →
  ∃ agg, emits (groupby_col_sum df key val) w agg w [].
Proof.
  intros Hk Hv Hs. eexists. unfold emits.
  rewrite groupby_col_sum_run by done. by rewrite app_nil_r.
Qed.

Lemma emits_plot_viewership_by_content_type df w :
  ready df →
  ∃ w' out, emits (plot_viewership_by_content_type df) w () w' out
    ∧ (has_column df "Content Type" = false →
       out = [Line "Skipping content type plot: 'Content Type' column missing."]).
Proof.
  intros [Hh Hs _ _ _ _ _]. unfold plot_viewership_by_content_type.
  destruct (has_column df "Content Type") eqn:Hc; simpl.
  - destruct (emits_groupby_col_sum df "Content Type" "Hours Viewed" w Hc Hh Hs)
      as [agg Hagg].
    destruct (emits_save_fig
                {| fig_title := "Total Viewership Hours by Content Type";
                   fig_xaxis := "Content Type"; fig_yaxis := Some "Total Hours Viewed";
                   fig_traces := [bar (sort_values_desc agg) None] |}
                "viewership_by_content_type" w) as [w' Hsave].
    eexists w', _. split; [exact (emits_bind _ _ _ _ _ _ _ _ _ Hagg Hsave)|intros [=]].
  - eexists _, _. split; [apply emits_print|done].
Qed.

Lemma emits_plot_viewership_by_language df lang_col w :
  ready df →
  ∃ w' out, emits (plot_viewership_by_language df lang_col) w () w' out
    ∧ (has_column df lang_col = false →
       out = [Line ("Skipping language plot: '" +:+ lang_col +:+ "' column missing.")]).
Proof.
  intros [Hh Hs _ _ _ _ _]. unfold plot_viewership_by_language.
  destruct (has_column df lang_col) eqn:Hc; simpl.
  - destruct (emits_groupby_col_sum df lang_col "Hours Viewed" w Hc Hh Hs)
      as [agg Hagg].
    destruct (emits_save_fig
                {| fig_title := "Total Viewership Hours by Language";
                   fig_xaxis := "Language"; fig_yaxis := Some "Total Hours Viewed";
                   fig_traces := [bar (sort_values_desc agg) None] |}
                "viewership_by_language" w) as [w' Hsave].
    eexists w', _. split; [exact (emits_bind _ _ _ _ _ _ _ _ _ Hagg Hsave)|intros [=]].
  - eexists _, _. split; [apply emits_print|done].
Qed.

Lemma emits_monthly_sum df w :
  ready df → ∃ s, emits (monthly_sum df) w s w [].
Proof.
  intros [Hh Hs _ _ Hm _ _]. unfold monthly_sum.
  destruct (emits_groupby_col_sum df "Release Month" "Hours Viewed" w Hm Hh Hs)
    as [agg Hagg].
  eexists.
  exact (emits_bind _ (λ agg, mret (reindex agg months (VInt 0))) _ _ _ _ _ _ _
           Hagg (emits_ret _ _)).
Qed.

Lemma emits_plot_monthly_viewership df w :
  ready df → ∃ w' out, emits (plot_monthly_viewership df) w () w' out.
Proof.
  intros Hr. unfold plot_monthly_viewership. rewrite (ready_month _ Hr); simpl.
  destruct (emits_monthly_sum df w Hr) as [s Hs].
  destruct (emits_save_fig
              {| fig_title := "Total Viewership Hours by Release Month";
                 fig_xaxis := "Month"; fig_yaxis := Some "Total Hours Viewed";
                 fig_traces := [scatter s None] |}
              "monthly_viewership" w) as [w' Hsave].
  eexists w', _. exact (emits_bind _ _ _ _ _ _ _ _ _ Hs Hsave).
Qed.

Lemma pivot_months_summable idx cols vals :
  summable vals → ∃ pivot, pivot_months idx cols vals = inr pivot.
Proof.
  intros Hs. unfold pivot_months. rewrite numeric_cells_summable by done. eauto.
Qed.

Lemma emits_plot_viewership_by_type_and_month df w :
  ready df →
  ∃ w' out, emits (plot_viewership_by_type_and_month df) w () w' out
    ∧ (has_column df "Content Type" = false →
       out = [Line "Skipping monthly by type: 'Content Type' missing."]).
Proof.
  intros [Hh Hs _ _ Hm _ _]. unfold plot_viewership_by_type_and_month.
  destruct (has_column df "Content Type") eqn:Hc; simpl.
  - destruct (pivot_months_summable (column df "Release Month")
                (column df "Content Type") (column df "Hours Viewed") Hs) as [pivot Hp].
    destruct (emits_save_fig
                {| fig_title := "Viewership Trends by Content Type and Release Month";
                   fig_xaxis := "Month"; fig_yaxis := Some "Total Hours Viewed";
                   fig_traces := (λ cs, scatter cs.2 (Some (py_str cs.1))) <$> pivot |}
                "monthly_viewership_by_type" w) as [w' Hsave].
    eexists w', _. split; [|intros [=]].
    refine (emits_bind _ _ _ _ _ _ _ _ _ (emits_getitem _ _ _ Hm) _).
    refine (emits_bind _ _ _ _ _ _ _ _ _ (emits_getitem _ _ _ Hc) _).
    refine (emits_bind _ _ _ _ _ _ _ _ _ (emits_getitem _ _ _ Hh) _).
    rewrite Hp.
    exact (emits_bind _ _ _ _ _ _ _ _ _ (emits_lift _ _) Hsave).
  - eexists _, _. split; [apply emits_print|done].
Qed.

Lemma get_season_month_cell v : month_cell v → ∃ s, get_season v = inr s.
Proof.
  intros [Hv|[m [Hv|Hv]]]; subst v; [by eexists|..];
    (erewrite get_season_number by reflexivity; by eexists).
Qed.

Lemma series_apply_total {A} (f : value → exn + A) (P : value → Prop) vs :
  (∀ v, P v → ∃ a, f v = inr a) → Forall P vs → ∃ l, series_apply f vs = inr l.
Proof.
  intros Hf Hall. induction Hall as [|v vs Hv _ [l IH]]; simpl; [by eexists|].
  destruct (Hf v Hv) as [a ->]. rewrite IH. by eexists.
Qed.

Lemma ready_setitem df col vals :
  col ∉ ["Hours Viewed"; "Release Date"; "Release Month"; "Release Day"] →
  length vals = length (rows df) →
  ready df → ready (setitem df col vals).
Proof.
  intros Hcol Hlen [H1 H2 H3 H4 H5 H6 H7].
  rewrite !not_elem_of_cons in Hcol. destruct Hcol as (N1 & N2 & N3 & N4 & _).
  split; rewrite ?has_column_setitem, ?column_setitem_ne by done;
    rewrite ?H1, ?H3, ?H5, ?H7; done.
Qed.

Lemma emits_plot_seasonal_viewership df w :
  ready df →
  ∃ df' w' out, emits (plot_seasonal_viewership df) w df' w' out ∧ ready df'.
Proof.
  intros Hr. unfold plot_seasonal_viewership. rewrite (ready_month _ Hr); simpl.
  destruct (series_apply_total get_season month_cell _ get_season_month_cell
              (ready_month_cells _ Hr)) as [seasons Hseasons].
  rewrite Hseasons.
  assert (ready (setitem df "Release Season" seasons)) as Hr'.
  { apply ready_setitem; [|by rewrite (series_apply_length _ _ _ Hseasons), length_column|done].
    rewrite !not_elem_of_cons. repeat split; try (by intros [=]).
    apply not_elem_of_nil. }
  destruct (emits_groupby_col_sum (setitem df "Release Season" seasons)
              "Release Season" "Hours Viewed" w) as [agg Hagg].
  { rewrite has_column_setitem. apply orb_true_r. }
  { apply Hr'. }
  { apply Hr'. }
  destruct (emits_save_fig
              {| fig_title := "Total Viewership Hours by Release Season";
                 fig_xaxis := "Season"; fig_yaxis := Some "Total Hours Viewed";
                 fig_traces := [bar (fillna0 (reindex agg seasons_order VNaN)) None] |}
              "seasonal_viewership" w) as [w' Hsave].
  eexists _, w', _. split; [|exact Hr'].
  refine (emits_bind _ _ _ _ _ _ _ _ _ (emits_lift _ _) _).
  refine (emits_bind _ _ _ _ _ _ _ _ _ Hagg _).
  exact (emits_bind _ (λ _, mret _) _ _ _ _ _ _ _ Hsave (emits_ret _ _)).
Qed.

Lemma emits_monthly_releases_and_viewership df w :
  ready df → ∃ w' out, emits (monthly_releases_and_viewership df) w () w' out.
Proof.
  intros Hr. unfold monthly_releases_and_viewership.
  destruct (emits_monthly_sum df w Hr) as [s Hs].
  destruct (emits_save_fig
              {| fig_title := "Monthly Release Patterns and Viewership Hours";
                 fig_xaxis := "Month"; fig_yaxis := None;
                 fig_traces :=
                   [bar (reindex (sort_index (value_counts (column df "Release Month")))
                                 months (VInt 0)) (Some "Number of Releases");
                    scatter s (Some "Viewership Hours")] |}
              "monthly_releases_and_viewership" w) as [w' Hsave].
  eexists w', _.
  refine (emits_bind _ _ _ _ _ _ _ _ _ (emits_getitem _ _ _ (ready_month _ Hr)) _).
  exact (emits_bind _ _ _ _ _ _ _ _ _ Hs Hsave).
Qed.

Lemma emits_weekday_release_patterns df w :
  ready df → ∃ w' out, emits (weekday_release_patterns df) w () w' out.
Proof.
  intros Hr. unfold weekday_release_patterns. rewrite (ready_day _ Hr); simpl.
  destruct (emits_groupby_col_sum df "Release Day" "Hours Viewed" w
              (ready_day _ Hr) (ready_hours _ Hr) (ready_hours_numeric _ Hr))
    as [agg Hagg].
  destruct (emits_save_fig
              {| fig_title := "Weekly Release Patterns and Viewership Hours";
                 fig_xaxis := "Day of Week"; fig_yaxis := None;
                 fig_traces :=
                   [bar (fillna0 (reindex (value_counts (column df "Release Day"))
                                          weekday_order VNaN))
                        (Some "Number of Releases");
                    scatter (fillna0 (reindex agg weekday_order VNaN))
                            (Some "Viewership Hours")] |}
              "weekday_release_patterns" w) as [w' Hsave].
  eexists w', _. exact (emits_bind _ _ _ _ _ _ _ _ _ Hagg Hsave).
Qed.

Lemma emits_holiday_release_analysis df w :
  ready df → ∃ res w' out, emits (holiday_release_analysis df None 3) w res w' out.
Proof.
  intros Hr. unfold emits, holiday_release_analysis.
  change (default DEFAULT_DATES None) with DEFAULT_DATES.
  rewrite to_datetime_index_default.
  unfold mbind at 1, M_bind at 1, lift at 1. rewrite (ready_date _ Hr); simpl.
  unfold mbind at 1, M_bind at 1, lift at 1.
  rewrite series_apply_in_window by apply Hr.
  unfold mbind, M_bind, mret, M_ret, print, write_file.
  destruct (df_empty _); eexists _, _, _; (split; [reflexivity|]); simpl; done.
Qed.

Lemma emits_print_top_titles df n w :
  ready df → ∃ w' out, emits (print_top_titles df n) w () w' out.
Proof.
  intros Hr. unfold emits, print_top_titles. rewrite (ready_hours _ Hr); simpl.
  rewrite (bind_inr _ _ _ _ _ (nlargest_run df n w (ready_hours _ Hr)
                                  (ready_hours_numeric _ Hr))).
  unfold mbind, M_bind, print, print_table.
  eexists _, _. split; [reflexivity|]. simpl. split; [|done].
  by rewrite <-app_assoc.
Qed.

Lemma emits_clean_hours df col w :
  has_column df col = true →
  ∃ w' out, emits (clean_hours df col) w
              (setitem df col (to_numeric (clean_cells (column df col)))) w' out.
Proof.
  intros Hc. unfold emits. rewrite clean_hours_run by done.
  destruct (bool_decide _); eexists _, _; (split; [reflexivity|]); simpl.
  - done.
  - by rewrite app_nil_r.
Qed.

Lemma emits_prepare_dates df date_col w :
  has_column df date_col = true →
  ∃ w' out, emits (prepare_dates df date_col) w (enriched df date_col) w' out.
Proof.
  intros Hc. unfold emits. rewrite prepare_dates_run by done.
  destruct (bool_decide _); eexists _, _; (split; [reflexivity|]); simpl.
  - done.
  - by rewrite app_nil_r.
Qed.

Lemma to_datetime_coerce_datetime vs : datetime_column (to_datetime_coerce vs).
Proof.
  unfold datetime_column, to_datetime_coerce. apply Forall_fmap, Forall_forall.
  intros v _; simpl. destruct v; simpl; eauto.
  destruct (parse_date s); simpl; eauto.
Qed.

Lemma dt_field_month_cell f vs : Forall month_cell (dt_field f vs).
Proof.
  unfold dt_field, month_cell.
  destruct (forallb notna vs); apply Forall_fmap, Forall_forall; intros v _; simpl;
    destruct v; eauto.
Qed.

Lemma same_rows_except_column cols df df' c :
  same_rows_except cols df df' → c ∉ cols → column df' c = column df c.
Proof.
  unfold same_rows_except, column. intros H Hc.
  induction H as [|r r' rs rs' Hr _ IH]; csimpl; [done|].
  by rewrite IH, (Hr c Hc).
Qed.

(** After the two preprocessing steps with the default column names the
    table is what the charts and reports need. *)
Lemma ready_pipeline df :
  has_column df "Hours Viewed" = true →
  has_column df "Release Date" = true →
  ready (enriched (setitem df "Hours Viewed"
                     (to_numeric (clean_cells (column df "Hours Viewed"))))
                  "Release Date").
Proof.
  intros Hh Hd.
  set (nums := to_numeric (clean_cells (column df "Hours Viewed"))).
  set (df1 := setitem df "Hours Viewed" nums).
  assert (length nums = length (rows df)) as Hlen.
  { unfold nums. by rewrite length_to_numeric, length_clean_cells, length_column. }
  assert (column (enriched df1 "Release Date") "Hours Viewed" = nums) as Hcol.
  { rewrite (same_rows_except_column _ _ _ _ (same_rows_except_enriched df1 _)).
    - by apply column_setitem.
    - rewrite !not_elem_of_cons. repeat split; try (by intros [=]).
      apply not_elem_of_nil. }
  unfold enriched.
  set (dates := to_datetime_coerce (column df1 "Release Date")).
  set (df2 := setitem df1 "Release Date" dates).
  assert (length (rows df2) = length (rows df1)) as Hl2.
  { apply length_rows_setitem. unfold dates.
    by rewrite length_to_datetime_coerce, length_column. }
  assert (column df2 "Release Date" = dates) as Hdates.
  { apply column_setitem. unfold dates.
    by rewrite length_to_datetime_coerce, length_column. }
  rewrite Hdates.
  set (df3 := setitem df2 "Release Month" (dt_field ts_month dates)).
  assert (length (dt_field ts_month dates) = length (rows df2)) as Hl3'.
  { rewrite length_dt_field. rewrite <-Hdates. apply length_column. }
  assert (length (rows df3) = length (rows df2)) as Hl3
    by (by apply length_rows_setitem).
  assert (column df3 "Release Date" = dates) as Hdates3.
  { unfold df3. rewrite column_setitem_ne; done. }
  rewrite Hdates3.
  set (df4 := setitem df3 "Release Day" (dt_day_name dates)).
  assert (length (dt_day_name dates) = length (rows df3)) as Hl4'.
  { rewrite length_dt_day_name, Hl3. rewrite <-Hdates. apply length_column. }
  assert (length (rows df4) = length (rows df3)) as Hl4
    by (by apply length_rows_setitem).
  assert (column df4 "Release Date" = dates) as Hdates4.
  { unfold df4. rewrite column_setitem_ne; done. }
  rewrite Hdates4.
  assert (length (dt_field ts_year dates) = length (rows df4)) as Hl5'.
  { rewrite length_dt_field, Hl4, Hl3. rewrite <-Hdates. apply length_column. }
  fold (enriched df1 "Release Date") in Hcol.
  split.
  - unfold df4, df3, df2, df1. rewrite !has_column_setitem, Hh. done.
  - unfold enriched in Hcol. fold dates df2 in Hcol. rewrite Hdates in Hcol.
    fold df3 in Hcol. rewrite Hdates3 in Hcol. fold df4 in Hcol.
    rewrite Hdates4 in Hcol. rewrite Hcol.
    apply numeric_column_summable, to_numeric_numeric.
  - unfold df4, df3, df2, df1. rewrite !has_column_setitem, Hd. done.
  - rewrite column_setitem_ne by done. rewrite Hdates4.
    apply to_datetime_coerce_datetime.
  - unfold df4, df3, df2, df1. rewrite !has_column_setitem.
    repeat case_bool_decide; try done. by rewrite ?orb_true_r.
  - rewrite column_setitem_ne by done. unfold df4.
    rewrite column_setitem_ne by done. unfold df3. rewrite column_setitem by done.
    apply dt_field_month_cell.
  - unfold df4, df3, df2, df1. rewrite !has_column_setitem.
    repeat case_bool_decide; try done. by rewrite ?orb_true_r.
Qed.

(** ** The batch run *)

Lemma load_data_world path w r w' : load_data path w = (r, w') → w' = w.
Proof.
  unfold load_data. destruct (disk w !! path) as [[df|]|]; by intros [= _ <-].
Qed.

Lemma main_load_failed args w e w' :
  load_data (file args) w = (inl e, w') →
  main args w = (inl (SystemExit 1),
                 printed w ("Error loading data: " +:+ exn_message e)).
Proof.
  intros Hload. unfold main. apply bind_inl. unfold try_except.
  unfold load_data in *.
  destruct (disk w !! file args) as [[df|]|]; [done|..];
    injection Hload as Hl1 Hl2; subst e w'; done.
Qed.

Lemma main_loaded args w df w' :
  load_data (file args) w = (inr df, w') →
  main args w =
    (clean_hours df (hours_col args) ≫= λ df,
     prepare_dates df (date_col args) ≫= λ df,
     print_list (String "010" "Columns available:") (columns df);;
     plot_viewership_by_content_type df;;
     plot_viewership_by_language df (language_col args);;
     plot_monthly_viewership df;;
     plot_viewership_by_type_and_month df;;
     plot_seasonal_viewership df ≫= λ df,
     monthly_releases_and_viewership df;;
     weekday_release_patterns df;;
     holiday_release_analysis df None 3 ≫= λ holiday_releases,
     print_top_titles df (top_n args);;
     print (String "010" "All interactive plots and tables have been saved to the "
            +:+ String "034" OUTPUT_DIR +:+ String "034" " folder."))
      (printed w ("Loaded data: " +:+ pretty (length (rows df)) +:+ " rows, "
                  +:+ pretty (length (columns df)) +:+ " columns")).
Proof.
  intros Hload. pose proof (load_data_world _ _ _ _ Hload) as ->.
  unfold main.
  assert (try_except (load_data (file args))
            (λ e, print ("Error loading data: " +:+ exn_message e);; sys_exit 1) w
          = (inr df, w)) as Htry.
  { unfold try_except. by rewrite Hload. }
  rewrite (bind_inr _ _ _ _ _ Htry).
  by rewrite (bind_inr _ _ _ _ _ (proj1 (emits_print _ w))).
Qed.

Lemma has_column_pipeline_false df nums c :
  has_column df c = false →
  c ∉ ["Hours Viewed"; "Release Date"; "Release Month"; "Release Day"; "Release Year"] →
  has_column (enriched (setitem df "Hours Viewed" nums) "Release Date") c = false.
Proof.
  intros Hc Hnot. rewrite !not_elem_of_cons in Hnot.
  destruct Hnot as (N1 & N2 & N3 & N4 & N5 & _).
  unfold enriched. rewrite !has_column_setitem, Hc.
  by rewrite !bool_decide_eq_false_2 by done.
Qed.

Lemma emits_print_list s l w :
  emits (print_list s l) w () (printed w (s +:+ " " +:+ repr_list l))
        [Line (s +:+ " " +:+ repr_list l)].
Proof. done. Qed.

Lemma emits_after_print {A} (m k : M A) w s a wf out :
  m w = k (printed w s) → emits k (printed w s) a wf out →
  emits m w a wf (Line s :: out).
Proof.
  intros Hm (Hk & Hout & Hdisk). unfold emits. rewrite Hm, Hk.
  split; [done|]. rewrite Hout. simpl. by rewrite <-app_assoc.
Qed.

Lemma main_ready args w df w' :
  load_data (file args) w = (inr df, w') →
  hours_col args = "Hours Viewed" → date_col args = "Release Date" →
  has_column df "Hours Viewed" = true →
  has_column df "Release Date" = true →
  let df2 := enriched (setitem df "Hours Viewed"
                         (to_numeric (clean_cells (column df "Hours Viewed"))))
                      "Release Date" in
  ∃ wf out,
    emits (main args) w () wf out
    ∧ (has_column df2 "Content Type" = false →
       Line "Skipping content type plot: 'Content Type' column missing." ∈ out
       ∧ Line "Skipping monthly by type: 'Content Type' missing." ∈ out)
    ∧ (has_column df2 (language_col args) = false →
       Line ("Skipping language plot: '" +:+ language_col args +:+ "' column missing.")
         ∈ out).
Proof.
  intros Hload Hhc Hdc Hh Hd df2.
  pose proof (ready_pipeline df Hh Hd) as Hr. fold df2 in Hr.
  set (w1 := printed w ("Loaded data: " +:+ pretty (length (rows df)) +:+ " rows, "
                        +:+ pretty (length (columns df)) +:+ " columns")).
  destruct (emits_clean_hours df "Hours Viewed" w1 Hh) as (w2 & o2 & E2).
  assert (has_column (setitem df "Hours Viewed"
            (to_numeric (clean_cells (column df "Hours Viewed")))) "Release Date" = true)
    as Hd1 by (by rewrite has_column_setitem, Hd).
  destruct (emits_prepare_dates _ "Release Date" w2 Hd1) as (w3 & o3 & E3).
  fold df2 in E3.
  pose proof (emits_print_list (String "010" "Columns available:") (columns df2) w3) as E4.
  set (w4 := printed w3 _) in E4.
  destruct (emits_plot_viewership_by_content_type df2 w4 Hr) as (w5 & o5 & E5 & S5).
  destruct (emits_plot_viewership_by_language df2 (language_col args) w5 Hr)
    as (w6 & o6 & E6 & S6).
  destruct (emits_plot_monthly_viewership df2 w6 Hr) as (w7 & o7 & E7).
  destruct (emits_plot_viewership_by_type_and_month df2 w7 Hr) as (w8 & o8 & E8 & S8).
  destruct (emits_plot_seasonal_viewership df2 w8 Hr) as (df3 & w9 & o9 & E9 & Hr3).
  destruct (emits_monthly_releases_and_viewership df3 w9 Hr3) as (w10 & o10 & E10).
  destruct (emits_weekday_release_patterns df3 w10 Hr3) as (w11 & o11 & E11).
  destruct (emits_holiday_release_analysis df3 w11 Hr3) as (res & w12 & o12 & E12).
  destruct (emits_print_top_titles df3 (top_n args) w12 Hr3) as (w13 & o13 & E13).
  eexists _, _. split.
  { eapply emits_after_print; [apply (main_loaded _ _ _ _ Hload)|].
    rewrite Hhc, Hdc. fold w1.
    eapply emits_bind; [exact E2|].
    eapply emits_bind; [exact E3|].
    eapply emits_bind; [exact E4|].
    eapply emits_bind; [exact E5|].
    eapply emits_bind; [exact E6|].
    eapply emits_bind; [exact E7|].
    eapply emits_bind; [exact E8|].
    eapply emits_bind; [exact E9|].
    eapply emits_bind; [exact E10|].
    eapply emits_bind; [exact E11|].
    eapply emits_bind; [exact E12|].
    eapply emits_bind; [exact E13|].
    apply emits_print. }
  split.
  - intros Hc. rewrite (S5 Hc), (S8 Hc).
    rewrite !elem_of_cons, !elem_of_app, !elem_of_cons. split; auto 20.
  - intros Hc. rewrite (S6 Hc).
    rewrite !elem_of_cons, !elem_of_app, !elem_of_cons. auto 20.
Qed.




(** ** The calendar and the text helpers on known values *)

Example civil_from_days_christmas : civil_from_days 19716 = (2023, 12, 25).
Proof. reflexivity. Qed.

Example civil_from_days_epoch : civil_from_days 0 = (1970, 1, 1).
Proof. reflexivity. Qed.

Example civil_from_days_leap_day : civil_from_days 19782 = (2024, 2, 29).
Proof. reflexivity. Qed.

Example days_from_civil_round_trip :
  days_from_civil 2023 12 25 = 19716 ∧ days_from_civil 1969 12 31 = -1
  ∧ days_from_civil 2024 2 29 = 19782.
Proof. repeat split; reflexivity. Qed.

Example day_name_christmas : ts_day_name (19716 * NS_PER_DAY) = "Monday".
Proof. reflexivity. Qed.

Example day_name_epoch : ts_day_name 0 = "Thursday".
Proof. reflexivity. Qed.

Example parse_date_examples :
  parse_date "2023-12-25" = Some (19716 * NS_PER_DAY)
  ∧ parse_date "2023-02-29" = None
  ∧ parse_date "25/12/2023" = None.
Proof. repeat split; reflexivity. Qed.

Example parse_number_examples :
  parse_number "1234" = Some (false, 1234)
  ∧ parse_number "-12.00" = Some (true, -12)
  ∧ parse_number "+7" = Some (false, 7)
  ∧ parse_number "" = None
  ∧ parse_number "-" = None
  ∧ parse_number "12a" = None
  ∧ parse_number "nan" = None.
Proof. repeat split; reflexivity. Qed.

Example py_str_examples :
  py_str (VInt (-12)) = "-12"
  ∧ py_str (VFloat 1234) = "1234.0"
  ∧ py_str (VTimestamp (19716 * NS_PER_DAY + 3661 * NS_PER_SECOND))
    = "2023-12-25 01:01:01".
Proof. repeat split; reflexivity. Qed.

Example str_strip_example : str_strip " 500 " = "500".
Proof. reflexivity. Qed.

Example str_replace_example : str_replace "," "" "1,234,567" = "1234567".
Proof. reflexivity. Qed.

(** Grouping three rows of content types A, A, B with 10, 20 and 5 hours
    gives A 30 and B 5, A first when sorted by decreasing sum. *)
Example groupby_sum_example :
  groupby_sum [VStr "B"; VStr "A"; VStr "A"] [VInt 5; VInt 10; VInt 20]
    = inr [(VStr "A", VInt 30); (VStr "B", VInt 5)]
  ∧ sort_values_desc [(VStr "B", VInt 5); (VStr "A", VInt 30)]
    = [(VStr "A", VInt 30); (VStr "B", VInt 5)].
Proof. split; reflexivity. Qed.

(** ** The calendar *)

(** The year of the era is found again from a day of that year, counted
    from the first of March. *)
Lemma year_of_era yoe doy :
  0 ≤ yoe ≤ 399 → 0 ≤ doy ≤ 365 →
  (doy = 365 → (yoe + 1) mod 4 = 0 ∧ ((yoe + 1) mod 100 ≠ 0 ∨ (yoe + 1) mod 400 = 0)) →
  let doe := yoe * 365 + yoe / 4 - yoe / 100 + doy in
  0 ≤ doe ≤ 146096
  ∧ (doe - doe / 1460 + doe / 36524 - doe / 146096) / 365 = yoe.
Proof. intros Hy Hd Hleap doe. subst doe. Z.div_mod_to_equations. lia. Qed.

Lemma month_of_doy mp d :
  0 ≤ mp ≤ 11 → 1 ≤ d ≤ 31 →
  (mp = 1 ∨ mp = 3 ∨ mp = 6 ∨ mp = 8 → d ≤ 30) →
  (mp = 11 → d ≤ 29) →
  (5 * ((153 * mp + 2) / 5 + d - 1) + 2) / 153 = mp.
Proof. intros. Z.div_mod_to_equations. lia. Qed.

(** A day of the era has a year of the era and a day of that year. *)
Lemma doy_of_doe doe :
  0 ≤ doe ≤ 146096 →
  let yoe := (doe - doe / 1460 + doe / 36524 - doe / 146096) / 365 in
  let doy := doe - (365 * yoe + yoe / 4 - yoe / 100) in
  0 ≤ yoe ≤ 399 ∧ 0 ≤ doy ≤ 365
  ∧ (doy = 365 → (yoe + 1) mod 4 = 0 ∧ ((yoe + 1) mod 100 ≠ 0 ∨ (yoe + 1) mod 400 = 0)).
Proof. intros Hd yoe doy. subst yoe doy. Z.div_mod_to_equations. lia. Qed.

(** A day of the year, counted from the first of March, has a month and a
    day of that month. *)
Lemma day_of_doy doy :
  0 ≤ doy ≤ 365 →
  let mp := (5 * doy + 2) / 153 in
  let d := doy - (153 * mp + 2) / 5 + 1 in
  0 ≤ mp ≤ 11 ∧ 1 ≤ d ≤ 31
  ∧ (mp = 1 ∨ mp = 3 ∨ mp = 6 ∨ mp = 8 → d ≤ 30)
  ∧ (mp = 11 → d ≤ 29 ∧ (d = 29 → doy = 365)).
Proof. intros Hd mp d. subst mp d. Z.div_mod_to_equations. lia. Qed.

Lemma is_leap_spec y :
  is_leap y = true ↔ y mod 4 = 0 ∧ (y mod 100 ≠ 0 ∨ y mod 400 = 0).
Proof.
  unfold is_leap.
  destruct (Z.eqb_spec (y mod 4) 0), (Z.eqb_spec (y mod 100) 0),
    (Z.eqb_spec (y mod 400) 0); simpl; split; try done; try tauto;
    intros; exfalso; Z.div_mod_to_equations; lia.
Qed.

Lemma days_in_month_spec y m d :
  1 ≤ m ≤ 12 →
  d ≤ days_in_month y m
  ↔ d ≤ 31 ∧ (m = 4 ∨ m = 6 ∨ m = 9 ∨ m = 11 → d ≤ 30)
    ∧ (m = 2 → d ≤ 29 ∧ (d = 29 → y mod 4 = 0 ∧ (y mod 100 ≠ 0 ∨ y mod 400 = 0))).
Proof.
  intros Hm. unfold days_in_month.
  destruct (Z.eqb_spec m 2) as [->|H2].
  - destruct (is_leap y) eqn:Hl.
    + apply is_leap_spec in Hl. split; [lia|]. intros (_ & _ & H). lia.
    + split.
      * intros Hd. split; [lia|]. split; [lia|]. intros _. split; [lia|]. lia.
      * intros (_ & _ & H). destruct (H eq_refl) as [H29 Hleap].
        destruct (decide (d = 29)) as [->|]; [|lia].
        apply (proj2 (is_leap_spec y)) in Hleap; [congruence|done].
  - destruct (Z.eqb_spec m 4), (Z.eqb_spec m 6), (Z.eqb_spec m 9), (Z.eqb_spec m 11);
      simpl; lia.
Qed.

(** The date of a day given by its era, its year of the era, its month
    counted from March and its day of the month. *)
Lemma civil_from_days_era era yoe mp d :
  0 ≤ yoe ≤ 399 → 0 ≤ mp ≤ 11 → 1 ≤ d ≤ 31 →
  (mp = 1 ∨ mp = 3 ∨ mp = 6 ∨ mp = 8 → d ≤ 30) →
  (mp = 11 → d ≤ 29 ∧ (d = 29 → (yoe + 1) mod 4 = 0
                                 ∧ ((yoe + 1) mod 100 ≠ 0 ∨ (yoe + 1) mod 400 = 0))) →
  civil_from_days (era * 146097
                   + (yoe * 365 + yoe / 4 - yoe / 100 + ((153 * mp + 2) / 5 + d - 1))
                   - 719468)
  = (yoe + era * 400 + (if (if mp <? 10 then mp + 3 else mp - 9) <=? 2 then 1 else 0),
     if mp <? 10 then mp + 3 else mp - 9, d).
Proof.
  intros Hy Hmp Hd H30 Hfeb.
  pose proof (month_of_doy mp d Hmp Hd H30 (λ H, proj1 (Hfeb H))) as Hmonth.
  set (doy := (153 * mp + 2) / 5 + d - 1) in *.
  assert (0 ≤ doy ≤ 365
          ∧ (doy = 365 → (yoe + 1) mod 4 = 0
                         ∧ ((yoe + 1) mod 100 ≠ 0 ∨ (yoe + 1) mod 400 = 0))) as [Hdoy Hleap].
  { assert (mp = 11 → d ≤ 29) as H29 by (intros H; by apply Hfeb).
    assert (0 ≤ doy ≤ 365 ∧ (doy = 365 → mp = 11 ∧ d = 29)) as [Hr H365].
    { unfold doy. clear Hfeb Hmonth. Z.div_mod_to_equations. lia. }
    split; [done|]. intros [H11 Hd29]%H365. by apply Hfeb. }
  destruct (year_of_era yoe doy Hy Hdoy Hleap) as [Hdoe HF].
  set (doe := yoe * 365 + yoe / 4 - yoe / 100 + doy) in *.
  unfold civil_from_days. cbv zeta.
  replace (era * 146097 + doe - 719468 + 719468) with (era * 146097 + doe) by lia.
  replace ((era * 146097 + doe) / 146097) with era
    by (clear -Hdoe; Z.div_mod_to_equations; lia).
  replace (era * 146097 + doe - era * 146097) with doe by lia.
  rewrite HF.
  replace (doe - (365 * yoe + yoe / 4 - yoe / 100)) with doy by (unfold doe; lia).
  rewrite Hmonth.
  replace (doy - (153 * mp + 2) / 5 + 1) with d by (unfold doy; lia).
  done.
Qed.

Lemma civil_from_days_from_civil y m d :
  valid_date y m d → civil_from_days (days_from_civil y m d) = (y, m, d).
Proof.
  intros [Hm [H1 Hd]]. apply days_in_month_spec in Hd as (Hd31 & Hd30 & Hfeb); [|done].
  unfold days_from_civil.
  set (y' := if m <=? 2 then y - 1 else y).
  set (era := y' / 400). set (yoe := y' - era * 400).
  set (mp := (m + 9) mod 12).
  assert (y' = y - (if m <=? 2 then 1 else 0)) as Hy'
    by (unfold y'; destruct (m <=? 2); lia).
  assert (0 ≤ yoe ≤ 399) as Hyoe by (unfold yoe, era; Z.div_mod_to_equations; lia).
  assert (mp = if m <=? 2 then m + 9 else m - 3) as Hmp.
  { unfold mp. destruct (Z.leb_spec m 2); Z.div_mod_to_equations; lia. }
  assert (0 ≤ mp ≤ 11) as Hmpr by (destruct (Z.leb_spec m 2); lia).
  rewrite civil_from_days_era; try done.
  - assert ((if mp <? 10 then mp + 3 else mp - 9) = m) as ->.
    { destruct (Z.leb_spec m 2), (Z.ltb_spec mp 10); lia. }
    f_equal. f_equal. unfold yoe. destruct (m <=? 2); lia.
  - destruct (Z.leb_spec m 2); lia.
  - intros H11. assert (m = 2) as H2 by (destruct (Z.leb_spec m 2); lia).
    destruct (Hfeb H2) as [H29 Hleap]. split; [done|]. intros Hd29.
    specialize (Hleap Hd29).
    assert (yoe + 1 = y - era * 400) as ->.
    { unfold yoe. rewrite Hy'. subst m. simpl. lia. }
    clear -Hleap. Z.div_mod_to_equations. lia.
Qed.

Lemma civil_from_days_valid z :
  let '(y, m, d) := civil_from_days z in
  valid_date y m d ∧ days_from_civil y m d = z.
Proof.
  unfold civil_from_days. cbv zeta.
  set (z' := z + 719468). set (era := z' / 146097).
  set (doe := z' - era * 146097).
  assert (0 ≤ doe ≤ 146096) as Hdoe
    by (unfold doe, era; Z.div_mod_to_equations; lia).
  destruct (doy_of_doe doe Hdoe) as (Hyoe & Hdoy & Hleap).
  set (yoe := (doe - doe / 1460 + doe / 36524 - doe / 146096) / 365) in *.
  set (doy := doe - (365 * yoe + yoe / 4 - yoe / 100)) in *.
  destruct (day_of_doy doy Hdoy) as (Hmp & Hd & H30 & Hfeb).
  set (mp := (5 * doy + 2) / 153) in *.
  set (d := doy - (153 * mp + 2) / 5 + 1) in *.
  set (m := if mp <? 10 then mp + 3 else mp - 9).
  assert (m = if mp <? 10 then mp + 3 else mp - 9) as Hmdef by done.
  assert (1 ≤ m ≤ 12) as Hm by (destruct (Z.ltb_spec mp 10); lia).
  set (y := yoe + era * 400 + (if m <=? 2 then 1 else 0)).
  split.
  - split; [done|]. split; [lia|]. apply days_in_month_spec; [done|].
    split; [lia|]. split.
    + intros Hcase. apply H30. destruct (Z.ltb_spec mp 10); lia.
    + intros H2. assert (mp = 11) as H11 by (destruct (Z.ltb_spec mp 10); lia).
      destruct (Hfeb H11) as [H29 H365]. split; [done|]. intros Hd29.
      destruct (Hleap (H365 Hd29)) as [H4 H100].
      assert ((m <=? 2) = true) as Hle by (apply Z.leb_le; lia).
      assert (y = yoe + 1 + era * 400) as -> by (unfold y; rewrite Hle; lia).
      clear -H4 H100. Z.div_mod_to_equations. lia.
  - unfold days_from_civil.
    assert ((if m <=? 2 then y - 1 else y) = yoe + era * 400) as ->
      by (unfold y; destruct (m <=? 2); lia).
    assert ((yoe + era * 400) / 400 = era) as ->
      by (clear -Hyoe; Z.div_mod_to_equations; lia).
    assert ((m + 9) mod 12 = mp) as ->.
    { rewrite Hmdef. clear -Hmp.
      destruct (Z.ltb_spec mp 10); cbv iota; Z.div_mod_to_equations; lia. }
    replace (yoe + era * 400 - era * 400) with yoe by lia.
    unfold d, doy, doe, z'. lia.
Qed.

Lemma timedelta_days_midnight y m d :
  timedelta_days (midnight y m d) = days_from_civil y m d.
Proof. unfold timedelta_days, midnight. by rewrite Z.div_mul. Qed.

Lemma ts_fields_midnight y m d :
  valid_date y m d →
  ts_year (midnight y m d) = y ∧ ts_month (midnight y m d) = m
  ∧ ts_day (midnight y m d) = d.
Proof.
  intros Hv. unfold ts_year, ts_month, ts_day.
  by rewrite timedelta_days_midnight, civil_from_days_from_civil.
Qed.

Lemma ts_month_range ns : 1 ≤ ts_month ns ≤ 12.
Proof.
  unfold ts_month. pose proof (civil_from_days_valid (timedelta_days ns)) as H.
  destruct (civil_from_days (timedelta_days ns)) as [[y m] d].
  destruct H as [[Hm _] _]. done.
Qed.

Lemma match_dash {A} (s : string) (k : string → A) (a : A) :
  (match s with
   | String "-" s' => k s'
   | _ => a
   end) = a ∨ ∃ s', s = String "-" s'.
Proof.
  destruct s as [|c s']; [by left|].
  destruct c as [[] [] [] [] [] [] [] []]; try (by left). right. by eexists.
Qed.

(** The date parser reads three numbers and accepts them when they name a
    day of the calendar. *)
Lemma parse_date_read_date s :
  parse_date s =
  match read_date s with
  | Some (y, m, d) =>
      if bool_decide (1 ≤ m ≤ 12 ∧ 1 ≤ d ≤ days_in_month y m)
      then Some (midnight y m d) else None
  | None => None
  end.
Proof.
  unfold parse_date, read_date.
  destruct (read_digits s) as [ys r1].
  destruct r1 as [|c1 s1]; [done|].
  destruct c1 as [[] [] [] [] [] [] [] []]; try done.
  destruct (read_digits s1) as [ms r2].
  destruct r2 as [|c2 s2]; [done|].
  destruct c2 as [[] [] [] [] [] [] [] []]; try done.
  destruct (read_digits s2) as [ds r3].
  destruct r3; [|done].
  destruct (decide (length ys = 4%nat ∧ length ms = 2%nat ∧ length ds = 2%nat))
    as [Hlen|Hlen].
  - rewrite (bool_decide_eq_true_2 _ Hlen).
    apply option_eq. intros ts.
    destruct (decide (1 ≤ digits_value ms ≤ 12
                      ∧ 1 ≤ digits_value ds ≤ days_in_month (digits_value ys) (digits_value ms)))
      as [Hv|Hv].
    + rewrite (bool_decide_eq_true_2 _ Hv), bool_decide_eq_true_2; [done|].
      tauto.
    + rewrite (bool_decide_eq_false_2 _ Hv), bool_decide_eq_false_2; [done|].
      tauto.
  - rewrite (bool_decide_eq_false_2 _ Hlen), bool_decide_eq_false_2; [done|].
    tauto.
Qed.

(** ** What the date enricher derives *)

Lemma enriched_columns df date_col :
  date_col ∉ ["Release Month"; "Release Day"; "Release Year"] →
  let dates := to_datetime_coerce (column df date_col) in
  column (enriched df date_col) date_col = dates
  ∧ column (enriched df date_col) "Release Month" = dt_field ts_month dates
  ∧ column (enriched df date_col) "Release Day" = dt_day_name dates
  ∧ column (enriched df date_col) "Release Year" = dt_field ts_year dates.
Proof.
  rewrite !not_elem_of_cons. intros (N1 & N2 & N3 & _) dates.
  unfold enriched. fold dates.
  set (df1 := setitem df date_col dates).
  assert (length dates = length (rows df)) as Hl0.
  { unfold dates. by rewrite length_to_datetime_coerce, length_column. }
  assert (length (rows df1) = length (rows df)) as Hl1
    by (by apply length_rows_setitem).
  assert (column df1 date_col = dates) as Hd1 by (by apply column_setitem).
  rewrite Hd1.
  set (df2 := setitem df1 "Release Month" (dt_field ts_month dates)).
  assert (length (dt_field ts_month dates) = length (rows df1)) as Hl2'
    by (rewrite length_dt_field; lia).
  assert (length (rows df2) = length (rows df1)) as Hl2
    by (by apply length_rows_setitem).
  assert (column df2 date_col = dates) as Hd2.
  { unfold df2. rewrite column_setitem_ne; done. }
  rewrite Hd2.
  set (df3 := setitem df2 "Release Day" (dt_day_name dates)).
  assert (length (dt_day_name dates) = length (rows df2)) as Hl3'
    by (rewrite length_dt_day_name; lia).
  assert (length (rows df3) = length (rows df2)) as Hl3
    by (by apply length_rows_setitem).
  assert (column df3 date_col = dates) as Hd3.
  { unfold df3. rewrite column_setitem_ne; done. }
  rewrite Hd3.
  assert (length (dt_field ts_year dates) = length (rows df3)) as Hl4'
    by (rewrite length_dt_field; lia).
  split_and!.
  - rewrite column_setitem_ne; done.
  - rewrite column_setitem_ne by done. unfold df3.
    rewrite column_setitem_ne by done. unfold df2. by rewrite column_setitem.
  - rewrite column_setitem_ne by done. unfold df3. by rewrite column_setitem.
  - by rewrite column_setitem.
Qed.

Lemma prepare_dates_inv df date_col w df1 w1 :
  prepare_dates df date_col w = (inr df1, w1) →
  has_column df date_col = true ∧ df1 = enriched df date_col.
Proof.
  intros Hrun. destruct (has_column df date_col) eqn:Hc.
  - rewrite prepare_dates_run in Hrun by done. by injection Hrun as <- _.
  - by rewrite prepare_dates_missing in Hrun.
Qed.

Lemma dt_field_lookup_timestamp f vs i ns :
  vs !! i = Some (VTimestamp ns) →
  num_of <$> dt_field f vs !! i = Some (Some (f ns)).
Proof.
  intros Hi. unfold dt_field.
  destruct (forallb notna vs); rewrite list_lookup_fmap, Hi; done.
Qed.

Lemma dt_field_lookup_isna f vs i :
  datetime_column vs →
  isna <$> dt_field f vs !! i = isna <$> vs !! i.
Proof.
  intros Hdt. unfold dt_field.
  destruct (forallb notna vs) eqn:Hall; rewrite list_lookup_fmap;
    destruct (vs !! i) as [v|] eqn:Hi; simpl; try done;
    f_equal; destruct (Forall_lookup_1 _ _ _ _ Hdt Hi) as [Hna|[x ->]]; try done;
    by destruct v.
Qed.



(** X2: in the table the date enricher returns, every row either has no
    date, and then its month, day name and year are missing too, or has a
    timestamp, and then its month is a number from 1 to 12, its year and
    day name are those of the timestamp. *)
Theorem prepare_dates_cells df date_col w df' w' i :
  date_col ∉ ["Release Month"; "Release Day"; "Release Year"] →
  prepare_dates df date_col w = (inr df', w') →
  (i < length (rows df))%nat →
  ∃ dv mv nv yv,
    column df' date_col !! i = Some dv
    ∧ column df' "Release Month" !! i = Some mv
    ∧ column df' "Release Day" !! i = Some nv
    ∧ column df' "Release Year" !! i = Some yv
    ∧ ((dv = VNaT ∧ mv = VNaN ∧ nv = VNaN ∧ yv = VNaN)
       ∨ ∃ ns, dv = VTimestamp ns
               ∧ num_of mv = Some (ts_month ns) ∧ 1 ≤ ts_month ns ≤ 12
               ∧ nv = VStr (ts_day_name ns)
               ∧ num_of yv = Some (ts_year ns)).
Proof.
  intros Hcol [_ ->]%prepare_dates_inv Hi.
  destruct (enriched_columns df date_col Hcol) as (Hd & Hm & Hday & Hy).
  rewrite Hd, Hm, Hday, Hy.
  set (dates := to_datetime_coerce (column df date_col)).
  destruct (lookup_lt_is_Some_2 dates i) as [dv Hdv].
  { unfold dates. by rewrite length_to_datetime_coerce, length_column. }
  assert (dv = VNaT ∨ ∃ ns, dv = VTimestamp ns) as Hkind.
  { unfold dates, to_datetime_coerce in Hdv. rewrite list_lookup_fmap in Hdv.
    destruct (column df date_col !! i) as [v|]; simpl in Hdv; [|done].
    injection Hdv as <-. destruct v; simpl; eauto.
    destruct (parse_date s); simpl; eauto. }
  unfold dt_field, dt_day_name. rewrite !list_lookup_fmap.
  destruct (forallb notna dates); rewrite !list_lookup_fmap, Hdv; simpl;
    (eexists _, _, _, _; split_and!; [reflexivity..|]);
    (destruct Hkind as [->|[ns ->]]; [by left|right]);
    exists ns; split_and!; try done; apply ts_month_range.
Qed.

Lemma prepare_dates_cells_witness :
  let df' := enriched minimal_table "Release Date" in
  ∃ dv mv nv yv,
    column df' "Release Date" !! 1%nat = Some dv
    ∧ column df' "Release Month" !! 1%nat = Some mv
    ∧ column df' "Release Day" !! 1%nat = Some nv
    ∧ column df' "Release Year" !! 1%nat = Some yv
    ∧ ((dv = VNaT ∧ mv = VNaN ∧ nv = VNaN ∧ yv = VNaN)
       ∨ ∃ ns, dv = VTimestamp ns
               ∧ num_of mv = Some (ts_month ns) ∧ 1 ≤ ts_month ns ≤ 12
               ∧ nv = VStr (ts_day_name ns)
               ∧ num_of yv = Some (ts_year ns)).
Proof.
  apply (prepare_dates_cells minimal_table "Release Date" empty_world
           (enriched minimal_table "Release Date")
           (printed empty_world (date_warning 1 "Release Date")) 1%nat).
  - rewrite !not_elem_of_cons. repeat split; try (by intros [=]).
    apply not_elem_of_nil.
  - reflexivity.
  - simpl. lia.
Defined.

(** ** Sorting and grouping *)

Lemma insert_by_sorted {A} (before : A → A → bool) x l :
  (∀ a b, before a b = false → before b a = true) →
  (∀ a b c, before a b = true → before b c = true → before a c = true) →
  StronglySorted (λ a b, before a b = true) l →
  StronglySorted (λ a b, before a b = true) (insert_by before x l).
Proof.
  intros Htot Htrans Hs. induction Hs as [|y l Hs IH Hy]; simpl.
  - repeat constructor.
  - destruct (before x y) eqn:Hb.
    + constructor; [by constructor|]. constructor; [done|].
      eapply Forall_impl; [exact Hy|]. simpl. intros z Hz. by eapply Htrans.
    + constructor; [done|].
      apply Forall_forall. intros z [->|Hz]%elem_of_insert_by.
      * by apply Htot.
      * by apply (proj1 (Forall_forall _ _) Hy).
Qed.

Lemma sort_by_sorted {A} (before : A → A → bool) l :
  (∀ a b, before a b = false → before b a = true) →
  (∀ a b c, before a b = true → before b c = true → before a c = true) →
  StronglySorted (λ a b, before a b = true) (sort_by before l).
Proof.
  intros Htot Htrans. unfold sort_by.
  induction l as [|x l IH]; simpl; [constructor|]. by apply insert_by_sorted.
Qed.

Lemma sort_values_desc_Permutation s : sort_values_desc s ≡ₚ s.
Proof. apply sort_by_Permutation. Qed.

Lemma sort_values_desc_decreasing s :
  Forall (λ kv, is_Some (num_of kv.2)) s → decreasing (sort_values_desc s).
Proof.
  intros Hnum i j a b Hij Ha Hb.
  assert (desc_before (num_of a.2) (num_of b.2) = true) as Hab.
  { eapply (StronglySorted_lookup (λ a b : value * value,
               desc_before (num_of a.2) (num_of b.2) = true)); [|exact Hij|exact Ha|exact Hb].
    apply (sort_by_sorted (λ a b : value * value, desc_before (num_of a.2) (num_of b.2))).
    - intros x y. apply desc_before_total.
    - intros x y z. apply desc_before_trans. }
  assert (∀ kv, kv ∈ sort_values_desc s → is_Some (num_of kv.2)) as Hall.
  { intros kv Hin. rewrite sort_values_desc_Permutation in Hin.
    by apply (proj1 (Forall_forall _ _) Hnum). }
  destruct (Hall a) as [x Hx]; [by eapply list_elem_of_lookup_2|].
  destruct (Hall b) as [y Hy]; [by eapply list_elem_of_lookup_2|].
  exists x, y. rewrite Hx, Hy in *. simpl in Hab. split_and!; [done..|lia].
Qed.

Lemma elem_of_distinct_keys k ks : k ∈ distinct_keys ks → k ∈ ks.
Proof.
  induction ks as [|k0 ks IH]; simpl; [done|].
  intros [->|Hin]%elem_of_cons; [apply list_elem_of_here|].
  apply list_elem_of_further, IH. by apply list_elem_of_filter in Hin as [_ ?].
Qed.

Lemma NoDup_distinct_keys ks : NoDup (distinct_keys ks).
Proof.
  induction ks as [|k ks IH]; simpl; [constructor|].
  constructor; [|by apply NoDup_filter].
  intros [Hne _]%list_elem_of_filter. by rewrite key_eqb_refl in Hne.
Qed.

Lemma group_keys_Permutation keys :
  group_keys keys ≡ₚ distinct_keys (filter (λ k, notna k = true) keys).
Proof. apply sort_by_Permutation. Qed.

Lemma elem_of_group_keys k keys : k ∈ group_keys keys → k ∈ keys ∧ notna k = true.
Proof.
  rewrite group_keys_Permutation. intros Hin%elem_of_distinct_keys.
  by apply list_elem_of_filter in Hin as [? ?].
Qed.

Lemma group_sum_total_hours df col k :
  group_sum k (column df col) (num_of <$> column df "Hours Viewed")
  = total_hours (rows_with df col k).
Proof.
  unfold group_sum, total_hours, rows_with, column, row_key.
  rewrite <-list_fmap_compose.
  induction (rows df) as [|r rs IH]; csimpl; [done|].
  rewrite IH, filter_cons.
  destruct (key_eqb k (default VNaN (r !! col))) eqn:Heq.
  - rewrite decide_True by done. done.
  - rewrite decide_False; [done|]. congruence.
Qed.

(** The group totals of a column, whatever order they are put in. *)
Lemma group_totals_Permutation df col s :
  s ≡ₚ (λ k, (k, wrap_like (column df "Hours Viewed")
                  (group_sum k (column df col) (num_of <$> column df "Hours Viewed"))))
       <$> group_keys (column df col) →
  group_totals df col s.
Proof.
  intros Hperm.
  assert (s.*1 ≡ₚ group_keys (column df col)) as Hkeys.
  { rewrite Hperm, <-list_fmap_compose. by rewrite list_fmap_id. }
  split_and!.
  - rewrite Hkeys, group_keys_Permutation. apply NoDup_distinct_keys.
  - intros k. rewrite Hkeys. apply elem_of_group_keys.
  - intros k Hin Hna. setoid_rewrite Hkeys. by apply group_keys_complete.
  - intros k v. rewrite Hperm. intros (k' & [= -> ->] & _)%list_elem_of_fmap.
    by rewrite num_of_wrap_like, group_sum_total_hours.
Qed.

Lemma save_fig_run fig name w : save_fig fig name w = (inr (), saved w name fig).
Proof. reflexivity. Qed.

Lemma groupby_col_sum_no_value df key val w :
  has_column df key = true → has_column df val = false →
  groupby_col_sum df key val w = (inl (KeyError val), w).
Proof.
  intros Hk Hv. unfold groupby_col_sum.
  rewrite (bind_inr _ _ _ _ _ (getitem_run df key w Hk)).
  by rewrite (bind_inl _ _ _ _ _ (getitem_missing df val w Hv)).
Qed.

Lemma sorted_group_totals df col :
  let agg := sort_values_desc
    ((λ k, (k, wrap_like (column df "Hours Viewed")
                 (group_sum k (column df col) (num_of <$> column df "Hours Viewed"))))
       <$> group_keys (column df col)) in
  group_totals df col agg ∧ decreasing agg.
Proof.
  split.
  - apply group_totals_Permutation, sort_values_desc_Permutation.
  - apply sort_values_desc_decreasing, Forall_fmap, Forall_forall.
    intros k _. simpl. rewrite num_of_wrap_like. eauto.
Qed.

(** ** The charts of group totals *)





(** ** Reindexed series *)

Lemma lookup_key_Some k s v :
  lookup_key k s = Some v → ∃ k', (k', v) ∈ s ∧ key_eqb k k' = true.
Proof.
  unfold lookup_key. destruct (List.find _ s) as [[k' v']|] eqn:Hf; [|done].
  intros [= <-]. apply find_some in Hf as [Hin Heq].
  exists k'. split; [by apply list_elem_of_In|done].
Qed.

Lemma lookup_key_None k s k' v :
  lookup_key k s = None → (k', v) ∈ s → key_eqb k k' = false.
Proof.
  unfold lookup_key. destruct (List.find _ s) as [kv|] eqn:Hf; [done|].
  intros _ Hin%list_elem_of_In. exact (find_none _ _ Hf _ Hin).
Qed.

Lemma isna_as_float v : isna (as_float v) = isna v.
Proof. by destruct v. Qed.

Lemma unify_dtype_lookup_isna vs i :
  isna <$> (unify_dtype vs !! i) = isna <$> (vs !! i).
Proof.
  unfold unify_dtype. destruct (forallb is_int vs); [done|].
  rewrite list_lookup_fmap. destruct (vs !! i); simpl; [|done].
  by rewrite isna_as_float.
Qed.

Lemma reindex_fst s idx fill : (reindex s idx fill).*1 = idx.
Proof.
  unfold reindex. apply fst_zip. by rewrite length_unify_dtype, length_fmap.
Qed.

Lemma fillna0_fst s : (fillna0 s).*1 = s.*1.
Proof. unfold fillna0. rewrite <-list_fmap_compose. done. Qed.

(** An entry of a reindexed series holds the number found under its key,
    or the fill value. *)
Lemma reindex_entry s idx fill i k :
  idx !! i = Some k →
  ∃ v, reindex s idx fill !! i = Some (k, v)
       ∧ num_of v = num_of (default fill (lookup_key k s))
       ∧ isna v = isna (default fill (lookup_key k s)).
Proof.
  intros Hk. unfold reindex.
  set (cells := (λ k, default fill (lookup_key k s)) <$> idx).
  assert (cells !! i = Some (default fill (lookup_key k s))) as Hcell.
  { unfold cells. by rewrite list_lookup_fmap, Hk. }
  pose proof (unify_dtype_lookup cells i) as Hn.
  pose proof (unify_dtype_lookup_isna cells i) as Hna.
  rewrite Hcell in Hn, Hna. simpl in Hn, Hna.
  destruct (unify_dtype cells !! i) as [v|] eqn:Hv; [|done].
  injection Hn as Hn. injection Hna as Hna.
  exists v. rewrite lookup_zip_with, Hk, Hv. done.
Qed.

(** An entry of a series reindexed without a fill value, its gaps then
    filled with zero: the number found under its key, or zero. *)
Lemma fillna0_reindex_entry s idx i k z :
  idx !! i = Some k →
  (∃ v, lookup_key k s = Some v ∧ num_of v = Some z) ∨ (lookup_key k s = None ∧ z = 0) →
  ∃ v, fillna0 (reindex s idx VNaN) !! i = Some (k, v) ∧ num_of v = Some z.
Proof.
  intros Hk Hz.
  destruct (reindex_entry s idx VNaN i k Hk) as (v & Hv & Hn & Hna).
  unfold fillna0. rewrite list_lookup_fmap, Hv. simpl.
  eexists. split; [reflexivity|].
  destruct Hz as [(v' & Hl & Hz)|[Hl ->]]; rewrite Hl in Hn, Hna; simpl in Hn, Hna.
  - assert (isna v = false) as -> by (rewrite Hna; by destruct v').
    congruence.
  - by rewrite Hna.
Qed.

(** ** Counting rows *)

Lemma key_eqb_notna k k' : key_eqb k k' = true → notna k = true → notna k' = true.
Proof.
  unfold key_eqb. destruct (num_of k) eqn:Hk, (num_of k') eqn:Hk'; try done.
  - by destruct k'.
  - by intros ->%bool_decide_eq_true.
Qed.

Lemma count_congr a b (keys : list value) :
  key_eqb a b = true →
  filter (λ k', key_eqb a k' = true) keys = filter (λ k', key_eqb b k' = true) keys.
Proof.
  intros Hab. apply list_filter_iff. intros k. by rewrite (key_eqb_congr a b).
Qed.

Lemma length_filter_column (df : DataFrame) col k :
  length (filter (λ k', key_eqb k k' = true) (column df col))
  = length (rows_with df col k).
Proof.
  unfold column, rows_with, row_key.
  induction (rows df) as [|r rs IH]; csimpl; [done|].
  rewrite !filter_cons. simpl.
  destruct (decide (key_eqb k (default VNaN (r !! col)) = true)); simpl; by rewrite IH.
Qed.

(** Looking a key up in the counts of a column gives the number of rows
    that hold it, or nothing when no row does. *)
Lemma lookup_key_counts df col k s :
  s ≡ₚ value_counts (column df col) →
  notna k = true →
  (∃ v, lookup_key k s = Some v
        ∧ num_of v = Some (Z.of_nat (length (rows_with df col k))))
  ∨ (lookup_key k s = None ∧ Z.of_nat (length (rows_with df col k)) = 0).
Proof.
  intros Hperm Hna. unfold value_counts in Hperm.
  rewrite sort_values_desc_Permutation in Hperm.
  destruct (lookup_key k s) as [v|] eqn:Hl; [left|right].
  - exists v. split; [done|].
    apply lookup_key_Some in Hl as (k' & Hin & Heq).
    rewrite Hperm in Hin. apply list_elem_of_fmap in Hin as (k'' & [= -> ->] & _).
    simpl. rewrite <-length_filter_column. by rewrite (count_congr k k'').
  - split; [done|]. rewrite <-length_filter_column.
    destruct (filter (λ k', key_eqb k k' = true) (column df col))
      as [|k' l] eqn:Hf; [done|].
    assert (k' ∈ filter (λ k', key_eqb k k' = true) (column df col)) as Hin
      by (rewrite Hf; apply list_elem_of_here).
    apply list_elem_of_filter in Hin as [Heq Hin].
    destruct (distinct_keys_complete k' (filter (λ k, notna k = true) (column df col)))
      as (k'' & Hk'' & Heq'').
    { apply list_elem_of_filter. split; [by eapply key_eqb_notna|done]. }
    assert (key_eqb k k'' = false) as Hno.
    { eapply (lookup_key_None k s k''); [done|]. rewrite Hperm.
      apply list_elem_of_fmap. eexists. split; [reflexivity|done]. }
    rewrite key_eqb_sym in Heq''.
    by rewrite (key_eqb_trans _ _ _ Heq Heq'') in Hno.
Qed.

(** Looking a key up in the group totals of a column gives the total of
    the rows that hold it, or nothing when no row does. *)
Lemma lookup_key_totals df col k :
  notna k = true →
  let s := (λ k, (k, wrap_like (column df "Hours Viewed")
                       (group_sum k (column df col) (num_of <$> column df "Hours Viewed"))))
             <$> group_keys (column df col) in
  (∃ v, lookup_key k s = Some v ∧ num_of v = Some (total_hours (rows_with df col k)))
  ∨ (lookup_key k s = None ∧ total_hours (rows_with df col k) = 0).
Proof.
  intros Hna s. unfold s. rewrite lookup_key_fmap.
  destruct (List.find (key_eqb k) (group_keys (column df col))) as [k'|] eqn:Hfind;
    simpl; [left|right].
  - apply find_some in Hfind as [_ Heq]. eexists. split; [done|].
    rewrite num_of_wrap_like, <-group_sum_total_hours. f_equal. symmetry.
    by apply group_sum_congr.
  - split; [done|]. rewrite <-group_sum_total_hours.
    apply group_sum_absent. intros k' Hk'.
    destruct (key_eqb k k') eqn:Heq; [|done].
    destruct (group_keys_complete k' (column df col) Hk') as (k'' & Hk'' & Heq'').
    { by eapply key_eqb_notna. }
    apply list_elem_of_In in Hk''.
    pose proof (find_none _ _ Hfind _ Hk'') as Hnone. simpl in Hnone.
    rewrite key_eqb_sym in Heq''.
    by rewrite (key_eqb_trans _ _ _ Heq Heq'') in Hnone.
Qed.

(** ** The weekday, month and season charts *)

Lemma weekday_order_notna i d : weekday_order !! i = Some d → notna d = true.
Proof.
  unfold weekday_order. rewrite list_lookup_fmap.
  destruct (_ !! i); simpl; [|done]. by intros [= <-].
Qed.



Lemma monthly_sum_run df w :
  has_column df "Release Month" = true → has_column df "Hours Viewed" = true →
  summable (column df "Hours Viewed") →
  ∃ s, monthly_sum df w = (inr s, w).
Proof.
  intros Hm Hh Hs. unfold monthly_sum.
  rewrite (bind_inr _ _ _ _ _ (groupby_col_sum_run df _ _ w Hm Hh Hs)). by eexists.
Qed.



Lemma series_apply_Forall2 {A} (f : value → exn + A) vs l :
  series_apply f vs = inr l → Forall2 (λ v a, f v = inr a) vs l.
Proof.
  revert l. induction vs as [|v vs IH]; simpl; intros l.
  - intros [= <-]. constructor.
  - destruct (f v) as [|a] eqn:Hv; [done|].
    destruct (series_apply f vs) as [|l']; [done|].
    intros [= <-]. constructor; [done|]. by apply IH.
Qed.

Lemma key_eqb_VStr s v : key_eqb (VStr s) v = true ↔ v = VStr s.
Proof.
  unfold key_eqb. simpl. destruct (num_of v) eqn:Hv.
  - split; [done|]. intros ->. done.
  - rewrite bool_decide_eq_true. split; congruence.
Qed.

Lemma seasons_order_text i k : seasons_order !! i = Some k → ∃ s, k = VStr s.
Proof.
  destruct i as [|[|[|[|i]]]]; simpl; try done; intros [= <-]; eauto.
Qed.

Lemma total_hours_seasons (rs : list Row) seasons s :
  Forall2 (λ r v, season_of r = Some v) rs seasons →
  total_hours (filter (λ r, key_eqb (VStr s) (row_key "Release Season" r) = true)
                 (zip_with (λ (r : Row) v, <["Release Season" := v]> r) rs seasons))
  = total_hours (filter (λ r, season_of r = Some (VStr s)) rs).
Proof.
  intros H. induction H as [|r v rs seasons Hr _ IH]; simpl; [done|].
  assert (row_key "Release Season" (<["Release Season" := v]> r) = v) as Hk.
  { unfold row_key. by rewrite lookup_insert_eq. }
  assert (row_hours (<["Release Season" := v]> r) = row_hours r) as Hh.
  { unfold row_hours. by rewrite lookup_insert_ne. }
  rewrite !filter_cons.
  destruct (decide (key_eqb (VStr s) (row_key "Release Season"
                                        (<["Release Season" := v]> r)) = true))
    as [Heq|Hne]; rewrite Hk in *.
  - apply key_eqb_VStr in Heq as ->. rewrite decide_True by done.
    unfold total_hours in *. csimpl. by rewrite IH, Hh.
  - rewrite decide_False; [done|]. rewrite Hr. intros [= ->].
    apply Hne. by apply key_eqb_VStr.
Qed.

Lemma plot_seasonal_viewership_run df w :
  has_column df "Release Month" = true →
  Forall month_cell (column df "Release Month") →
  has_column df "Hours Viewed" = true →
  summable (column df "Hours Viewed") →
  ∃ seasons agg,
    plot_seasonal_viewership df w
    = (inr (setitem df "Release Season" seasons),
       saved w "seasonal_viewership" (seasonal_figure agg))
    ∧ Forall2 (λ r s, season_of r = Some s) (rows df) seasons
    ∧ agg.*1 = seasons_order
    ∧ ∀ i k, seasons_order !! i = Some k →
        ∃ v, agg !! i = Some (k, v)
             ∧ num_of v
               = Some (total_hours (filter (λ r, season_of r = Some k) (rows df))).
Proof.
  intros Hm Hcells Hh Hs. unfold plot_seasonal_viewership. rewrite Hm; simpl.
  destruct (series_apply_total get_season month_cell _ get_season_month_cell Hcells)
    as [seasons Hseasons].
  rewrite Hseasons.
  assert (length seasons = length (rows df)) as Hlen
    by (by rewrite (series_apply_length _ _ _ Hseasons), length_column).
  set (df' := setitem df "Release Season" seasons).
  assert (column df' "Hours Viewed" = column df "Hours Viewed") as Hcol
    by (by apply column_setitem_ne).
  assert (has_column df' "Release Season" = true) as Hc'.
  { unfold df'. rewrite has_column_setitem. apply orb_true_r. }
  assert (has_column df' "Hours Viewed" = true) as Hh'.
  { unfold df'. by rewrite has_column_setitem, Hh. }
  assert (summable (column df' "Hours Viewed")) as Hs' by (by rewrite Hcol).
  assert (Forall2 (λ r s, season_of r = Some s) (rows df) seasons) as Hall.
  { apply series_apply_Forall2 in Hseasons. unfold column in Hseasons.
    apply Forall2_fmap_l in Hseasons.
    eapply Forall2_impl; [exact Hseasons|]. simpl. intros r s Hr.
    unfold season_of, row_key. by rewrite Hr. }
  unfold lift at 1. unfold mbind at 1, M_bind at 1.
  rewrite (bind_inr _ _ _ _ _ (groupby_col_sum_run df' _ _ w Hc' Hh' Hs')).
  eexists seasons, _. split; [reflexivity|].
  split_and!; [done|by rewrite fillna0_fst, reindex_fst|].
  intros i k Hk. destruct (seasons_order_text i k Hk) as [s ->].
  destruct (fillna0_reindex_entry _ seasons_order i (VStr s) _ Hk
              (lookup_key_totals df' "Release Season" (VStr s) eq_refl))
    as (v & Hv1 & Hv2).
  exists v. split; [done|]. rewrite Hv2. f_equal.
  unfold rows_with. by apply total_hours_seasons.
Qed.



Lemma get_season_in_range month m :
  num_of month = Some m → 1 ≤ m ≤ 12 →
  ∃ s, spec_season m = Some s ∧ get_season month = inr (VStr s).
Proof.
  intros Hm Hrange. rewrite (get_season_number _ _ Hm).
  assert (m = 1 ∨ m = 2 ∨ m = 3 ∨ m = 4 ∨ m = 5 ∨ m = 6 ∨ m = 7 ∨ m = 8
          ∨ m = 9 ∨ m = 10 ∨ m = 11 ∨ m = 12) as Hcases by lia.
  destruct_or!; subst m; eexists; (split; reflexivity).
Qed.

Lemma column_lookup df col i :
  column df col !! i = row_key col <$> rows df !! i.
Proof. unfold column. by rewrite list_lookup_fmap. Qed.

(** X8: the season step after the date enricher.  In the table the two
    steps give, a row without a date has the missing season, and a row with
    a date has the season the fixed table gives the month of that date: the
    fallback of the classifier for a number outside 1 to 12 is never what
    decides. *)
Theorem seasons_follow_dates df date_col w0 df1 w1 w :
  date_col ∉ ["Release Month"; "Release Day"; "Release Year"] →
  prepare_dates df date_col w0 = (inr df1, w1) →
  has_column df1 "Hours Viewed" = true →
  summable (column df1 "Hours Viewed") →
  ∃ df2 w2,
    plot_seasonal_viewership df1 w = (inr df2, w2)
    ∧ ∀ i dv, column df1 date_col !! i = Some dv →
        ∃ sv, column df2 "Release Season" !! i = Some sv
              ∧ ((dv = VNaT ∧ sv = VNone)
                 ∨ ∃ ns s, dv = VTimestamp ns
                           ∧ spec_season (ts_month ns) = Some s ∧ sv = VStr s).
Proof.
  intros Hcol [Hc ->]%prepare_dates_inv Hh Hs.
  destruct (enriched_columns df date_col Hcol) as (Hd & Hm & _ & _).
  set (df1 := enriched df date_col) in *.
  set (dates := to_datetime_coerce (column df date_col)) in *.
  assert (has_column df1 "Release Month" = true) as Hmc.
  { unfold df1, enriched. rewrite !has_column_setitem.
    rewrite (bool_decide_eq_true_2 ("Release Month" = "Release Month")) by done.
    by rewrite orb_true_r. }
  assert (Forall month_cell (column df1 "Release Month")) as Hcells
    by (rewrite Hm; apply dt_field_month_cell).
  destruct (plot_seasonal_viewership_run df1 w Hmc Hcells Hh Hs)
    as (seasons & agg & Hrun & Hall & _).
  eexists _, _. split; [exact Hrun|].
  intros i dv Hdv.
  rewrite column_setitem by (symmetry; by eapply Forall2_length).
  assert (is_Some (rows df1 !! i)) as [r Hr].
  { apply lookup_lt_is_Some. rewrite <-(length_column df1 date_col).
    by eapply lookup_lt_Some. }
  destruct (Forall2_lookup_l _ _ _ _ _ Hall Hr) as (sv & Hsv & Hseason).
  exists sv. split; [done|].
  assert (column df1 "Release Month" !! i = Some (row_key "Release Month" r)) as Hmi
    by (by rewrite column_lookup, Hr).
  rewrite Hm in Hmi. rewrite Hd in Hdv.
  assert (dv = VNaT ∨ ∃ ns, dv = VTimestamp ns) as [->|[ns ->]].
  { pose proof (to_datetime_coerce_datetime (column df date_col)) as Hdt.
    fold dates in Hdt.
    unfold dates, to_datetime_coerce in Hdv. rewrite list_lookup_fmap in Hdv.
    destruct (column df date_col !! i) as [v|]; simpl in Hdv; [|done].
    injection Hdv as <-. destruct v; simpl; eauto.
    destruct (parse_date s); simpl; eauto. }
  - left. split; [done|].
    assert (row_key "Release Month" r = VNaN) as Hk.
    { unfold dt_field in Hmi.
      destruct (forallb notna dates); rewrite list_lookup_fmap, Hdv in Hmi;
        simpl in Hmi; congruence. }
    unfold season_of in Hseason. rewrite Hk in Hseason. simpl in Hseason. congruence.
  - right.
    pose proof (dt_field_lookup_timestamp ts_month dates i ns Hdv) as Hnum.
    rewrite Hmi in Hnum. simpl in Hnum. injection Hnum as Hnum.
    destruct (get_season_in_range _ _ Hnum (ts_month_range ns)) as (s & Hspec & Hget).
    exists ns, s. split_and!; [done..|].
    unfold season_of in Hseason. rewrite Hget in Hseason. congruence.
Qed.

Lemma seasons_follow_dates_witness :
  let df1 := enriched (setitem minimal_table "Hours Viewed" [VFloat 1234; VNaN])
                      "Release Date" in
  ∃ df2 w2,
    plot_seasonal_viewership df1 empty_world = (inr df2, w2)
    ∧ ∀ i dv, column df1 "Release Date" !! i = Some dv →
        ∃ sv, column df2 "Release Season" !! i = Some sv
              ∧ ((dv = VNaT ∧ sv = VNone)
                 ∨ ∃ ns s, dv = VTimestamp ns
                           ∧ spec_season (ts_month ns) = Some s ∧ sv = VStr s).
Proof.
  intros df1.
  apply (seasons_follow_dates
           (setitem minimal_table "Hours Viewed" [VFloat 1234; VNaN])
           "Release Date" empty_world df1
           (printed empty_world (date_warning 1 "Release Date")) empty_world).
  - rewrite !not_elem_of_cons. repeat split; try (by intros [=]).
    apply not_elem_of_nil.
  - reflexivity.
  - reflexivity.
  - change (summable [VFloat 1234; VNaN]). unfold summable. repeat constructor.
Defined.

(** ** What the holiday report does *)

Lemma holiday_release_analysis_world df important_dates window_days ds w :
  to_datetime_index (default DEFAULT_DATES important_dates) = inr ds →
  has_column df "Release Date" = true →
  datetime_column (column df "Release Date") →
  let res := holiday_rows ds window_days df in
  holiday_release_analysis df important_dates window_days w
  = (inr res,
     if df_empty res
     then printed w "No releases found within the specified windows around important dates."
     else csv_saved w res).
Proof.
  intros Hds Hc Hd res. unfold holiday_release_analysis.
  unfold mbind at 1, M_bind at 1, lift at 1. rewrite Hds, Hc; simpl.
  unfold mbind at 1, M_bind at 1, lift at 1.
  rewrite series_apply_in_window by done.
  assert (df_mask df (window_match ds window_days <$> column df "Release Date") = res)
    as -> by (unfold df_mask, res, holiday_rows; by rewrite select_column).
  destruct (df_empty res); reflexivity.
Qed.

Lemma df_empty_rows df :
  columns df ≠ [] → df_empty df = true ↔ rows df = [].
Proof.
  unfold df_empty. intros Hc.
  destruct (columns df) as [|c cs]; [done|]. by destruct (rows df).
Qed.

Lemma has_column_nonempty df col : has_column df col = true → columns df ≠ [].
Proof.
  unfold has_column. intros Hc%bool_decide_eq_true Heq. rewrite Heq in Hc.
  by apply elem_of_nil in Hc.
Qed.



Lemma filter_sublist_impl {A} (P Q : A → Prop)
    `{!∀ x, Decision (P x)} `{!∀ x, Decision (Q x)} (l : list A) :
  (∀ x, P x → Q x) → filter P l `sublist_of` filter Q l.
Proof.
  intros HPQ. induction l as [|x l IH]; [done|].
  rewrite !filter_cons. destruct (decide (P x)) as [HP|HP].
  - rewrite decide_True by auto. by apply sublist_skip.
  - destruct (decide (Q x)); [by apply sublist_cons|done].
Qed.

Lemma abs_days_nonneg x d : 0 ≤ abs_days x d.
Proof. unfold abs_days. lia. Qed.

Lemma window_match_mono ds w1 w2 v :
  w1 ≤ w2 → window_match ds w1 v = true → window_match ds w2 v = true.
Proof.
  intros Hw. rewrite !window_match_spec.
  intros (x & Hx & d & Hd & Hle). exists x. split; [done|]. exists d. split; [done|]. lia.
Qed.

Lemma window_match_negative ds w v : w < 0 → window_match ds w v = false.
Proof.
  intros Hw. destruct (window_match ds w v) eqn:Hm; [|done].
  apply window_match_spec in Hm as (x & _ & d & _ & Hle).
  pose proof (abs_days_nonneg x d). lia.
Qed.



Lemma in_window_outcome ds window_days v :
  (∃ b, in_window ds window_days v = inr b)
  ∨ in_window ds window_days v = inl (TypeError "unsupported operand type(s) for -").
Proof.
  unfold in_window. destruct (notna v); [|by left; eexists].
  destruct v; try (destruct ds; [by left; eexists|by right]).
  left. by eexists.
Qed.

Lemma series_apply_in_window_error ds window_days vs v :
  ds ≠ [] → v ∈ vs → notna v = true → (∀ ns, v ≠ VTimestamp ns) →
  series_apply (in_window ds window_days) vs
  = inl (TypeError "unsupported operand type(s) for -").
Proof.
  intros Hds Hin Hna Hts. induction vs as [|v0 vs IH]; [by apply elem_of_nil in Hin|].
  simpl. destruct (in_window_outcome ds window_days v0) as [[b Hb]|He].
  - rewrite Hb. apply elem_of_cons in Hin as [->|Hin].
    + unfold in_window in Hb. rewrite Hna in Hb.
      destruct v0; try (by destruct ds); try done. by destruct (Hts ns).
    + by rewrite IH.
  - by rewrite He.
Qed.

(** X11: the holiday report on dates that were not parsed.  It reads the
    column named Release Date whatever date column was asked for: when that
    column holds a cell that is neither missing nor a timestamp, such as
    text or a number, and there is a reference date, the report raises
    [TypeError], prints nothing and writes no file. *)
Theorem holiday_unparsed_dates df important_dates window_days ds w v :
  to_datetime_index (default DEFAULT_DATES important_dates) = inr ds →
  ds ≠ [] →
  has_column df "Release Date" = true →
  v ∈ column df "Release Date" → notna v = true → (∀ ns, v ≠ VTimestamp ns) →
  holiday_release_analysis df important_dates window_days w
  = (inl (TypeError "unsupported operand type(s) for -"), w).
Proof.
  intros Hds Hne Hc Hin Hna Hts. unfold holiday_release_analysis.
  unfold mbind at 1, M_bind at 1, lift at 1. rewrite Hds, Hc; simpl.
  unfold mbind at 1, M_bind at 1, lift at 1.
  by rewrite (series_apply_in_window_error ds window_days _ v).
Qed.

Lemma holiday_unparsed_dates_witness :
  holiday_release_analysis minimal_table None 3 empty_world
  = (inl (TypeError "unsupported operand type(s) for -"), empty_world).
Proof.
  apply (holiday_unparsed_dates minimal_table None 3 default_timestamps empty_world
           (VStr "soon")).
  - reflexivity.
  - done.
  - reflexivity.
  - apply list_elem_of_lookup. exists 1%nat. reflexivity.
  - reflexivity.
  - done.
Defined.

(** ** Top-N on the whole table and on its prefixes *)

Lemma omap_lookup_seq {A} (l1 l2 : list A) :
  omap (λ i, (l1 ++ l2)%list !! i) (seq (length l1) (length l2)) = l2.
Proof.
  revert l1. induction l2 as [|x l2 IH]; intros l1; simpl; [done|].
  rewrite lookup_app_r, Nat.sub_diag by lia. simpl. f_equal.
  specialize (IH (l1 ++ [x])%list). rewrite length_app, <-app_assoc in IH. simpl in IH.
  by rewrite Nat.add_1_r in IH.
Qed.

Lemma omap_take_total {A B} (f : A → option B) (l : list A) n :
  Forall (λ x, is_Some (f x)) l → omap f (take n l) = take n (omap f l).
Proof.
  intros Hall. revert n. induction Hall as [|x l [y Hy] _ IH]; intros [|n]; simpl;
    try done.
  rewrite Hy. simpl. by rewrite IH.
Qed.

Lemma eq_Permutation {A} (l k : list A) : l = k → l ≡ₚ k.
Proof. by intros ->. Qed.

Lemma sorted_positions_Permutation nums :
  (sort_by (λ a b : nat * option Z, desc_before a.2 b.2) (indexed nums)).*1
  ≡ₚ seq 0 (length nums).
Proof. by rewrite sort_by_Permutation, indexed_fst. Qed.

Lemma sorted_positions_valid df :
  Forall (λ i, is_Some (rows df !! i))
    (sort_by (λ a b : nat * option Z, desc_before a.2 b.2) (indexed (hours df))).*1.
Proof.
  apply Forall_forall. intros i Hi.
  rewrite sorted_positions_Permutation, length_hours in Hi.
  apply elem_of_seq in Hi. apply lookup_lt_is_Some. lia.
Qed.

(** X12: Top-N with a number of at least the number of rows returns the
    whole table: every row once, reordered, under the same header. *)
Theorem top_n_whole_table df n w :
  has_column df "Hours Viewed" = true →
  summable (column df "Hours Viewed") →
  0 < n → Z.of_nat (length (rows df)) ≤ n →
  ∃ top,
    nlargest df n "Hours Viewed" w = (inr top, w)
    ∧ columns top = columns df
    ∧ rows top ≡ₚ rows df.
Proof.
  intros Hc Hs Hpos Hn. eexists. split; [by apply nlargest_run|].
  split; [done|]. simpl. unfold nlargest_positions.
  rewrite (proj2 (Z.leb_gt n 0)) by lia. fold (indexed (hours df)).
  rewrite take_ge.
  - rewrite sorted_positions_Permutation, length_hours.
    exact (eq_Permutation _ _ (omap_lookup_seq [] (rows df))).
  - rewrite length_fmap, sort_by_Permutation. unfold indexed.
    rewrite length_zip_with, length_seq, length_hours. lia.
Qed.

Lemma top_n_whole_table_witness :
  ∃ top,
    nlargest monthly_table 5 "Hours Viewed" empty_world = (inr top, empty_world)
    ∧ columns top = columns monthly_table
    ∧ rows top ≡ₚ rows monthly_table.
Proof.
  apply (top_n_whole_table monthly_table 5 empty_world).
  - reflexivity.
  - change (summable [VFloat 10; VNaN; VFloat 5]). unfold summable.
    repeat constructor.
  - lia.
  - simpl. lia.
Defined.

(** X13: the selections of Top-N are nested.  For two numbers n and m with
    n at most m, the rows Top-n returns are the first n rows of what Top-m
    returns, in the same order. *)
Theorem top_n_nested df n m w :
  has_column df "Hours Viewed" = true →
  summable (column df "Hours Viewed") →
  0 < n → n ≤ m →
  ∃ top_n top_m,
    nlargest df n "Hours Viewed" w = (inr top_n, w)
    ∧ nlargest df m "Hours Viewed" w = (inr top_m, w)
    ∧ rows top_n = take (Z.to_nat n) (rows top_m).
Proof.
  intros Hc Hs Hpos Hnm. eexists _, _.
  split; [by apply nlargest_run|]. split; [by apply nlargest_run|].
  simpl. unfold nlargest_positions.
  rewrite !(proj2 (Z.leb_gt _ 0)) by lia. fold (indexed (hours df)).
  pose proof (sorted_positions_valid df) as Hvalid.
  rewrite !omap_take_total by done.
  rewrite take_take. f_equal. lia.
Qed.

Lemma top_n_nested_witness :
  ∃ top_n top_m,
    nlargest monthly_table 1 "Hours Viewed" empty_world = (inr top_n, empty_world)
    ∧ nlargest monthly_table 2 "Hours Viewed" empty_world = (inr top_m, empty_world)
    ∧ rows top_n = take (Z.to_nat 1) (rows top_m).
Proof.
  apply (top_n_nested monthly_table 1 2 empty_world).
  - reflexivity.
  - change (summable [VFloat 10; VNaN; VFloat 5]). unfold summable.
    repeat constructor.
  - lia.
  - lia.
Defined.

(** ** The files a run writes *)

Lemma writes_ret {A} (a : A) w : writes (mret a) w a w [].
Proof. unfold writes. by rewrite app_nil_r. Qed.

Lemma writes_bind {A B} (m : M A) (k : A → M B) w a w1 f1 b w2 f2 :
  writes m w a w1 f1 → writes (k a) w1 b w2 f2 → writes (m ≫= k) w b w2 (f1 ++ f2).
Proof.
  intros [Hm H1] [Hk H2]. unfold writes.
  rewrite (bind_inr _ _ _ _ _ Hm). split; [done|].
  by rewrite H2, H1, app_assoc.
Qed.

Lemma writes_print s w : writes (print s) w () (printed w s) [].
Proof. unfold writes. simpl. by rewrite app_nil_r. Qed.

Lemma writes_save_fig fig name w :
  writes (save_fig fig name) w () (saved w name fig) [(chart_path name, Html fig)].
Proof. done. Qed.

Lemma writes_clean_hours df col w :
  has_column df col = true →
  ∃ w', writes (clean_hours df col) w
          (setitem df col (to_numeric (clean_cells (column df col)))) w' [].
Proof.
  intros Hc. unfold writes. rewrite clean_hours_run by done.
  destruct (bool_decide _); eexists; (split; [reflexivity|]); simpl;
    by rewrite app_nil_r.
Qed.

Lemma writes_prepare_dates df date_col w :
  has_column df date_col = true →
  ∃ w', writes (prepare_dates df date_col) w (enriched df date_col) w' [].
Proof.
  intros Hc. unfold writes. rewrite prepare_dates_run by done.
  destruct (bool_decide _); eexists; (split; [reflexivity|]); simpl;
    by rewrite app_nil_r.
Qed.

Lemma all_charts_one path fig : all_charts [(path, Html fig)].
Proof. constructor; [by eexists|constructor]. Qed.

Lemma writes_plot_viewership_by_content_type df w :
  ready df →
  ∃ w' files,
    writes (plot_viewership_by_content_type df) w () w' files
    ∧ all_charts files
    ∧ files.*1 = if has_column df "Content Type"
                 then [chart_path "viewership_by_content_type"] else [].
Proof.
  intros [Hh Hs _ _ _ _ _]. unfold plot_viewership_by_content_type.
  destruct (has_column df "Content Type") eqn:Hc; simpl.
  - eexists _, _. split_and!.
    + eapply writes_bind; [|apply writes_save_fig].
      split; [by apply groupby_col_sum_run|]. by rewrite app_nil_r.
    + apply all_charts_one.
    + done.
  - eexists _, _. split_and!; [apply writes_print|constructor|done].
Qed.

Lemma writes_plot_viewership_by_language df lang_col w :
  ready df →
  ∃ w' files,
    writes (plot_viewership_by_language df lang_col) w () w' files
    ∧ all_charts files
    ∧ files.*1 = if has_column df lang_col
                 then [chart_path "viewership_by_language"] else [].
Proof.
  intros [Hh Hs _ _ _ _ _]. unfold plot_viewership_by_language.
  destruct (has_column df lang_col) eqn:Hc; simpl.
  - eexists _, _. split_and!.
    + eapply writes_bind; [|apply writes_save_fig].
      split; [by apply groupby_col_sum_run|]. by rewrite app_nil_r.
    + apply all_charts_one.
    + done.
  - eexists _, _. split_and!; [apply writes_print|constructor|done].
Qed.

Lemma writes_monthly_sum df w :
  ready df → ∃ s, writes (monthly_sum df) w s w [].
Proof.
  intros [Hh Hs _ _ Hm _ _].
  destruct (monthly_sum_run df w Hm Hh Hs) as [s Hrun].
  exists s. split; [done|]. by rewrite app_nil_r.
Qed.

Lemma writes_plot_monthly_viewership df w :
  ready df →
  ∃ w' files,
    writes (plot_monthly_viewership df) w () w' files
    ∧ all_charts files ∧ files.*1 = [chart_path "monthly_viewership"].
Proof.
  intros Hr. unfold plot_monthly_viewership. rewrite (ready_month _ Hr); simpl.
  destruct (writes_monthly_sum df w Hr) as [s Hs].
  eexists _, _. split_and!.
  - eapply writes_bind; [exact Hs|apply writes_save_fig].
  - apply all_charts_one.
  - done.
Qed.

Lemma writes_getitem df col w :
  has_column df col = true → writes (getitem df col) w (column df col) w [].
Proof. intros H. split; [by apply getitem_run|]. by rewrite app_nil_r. Qed.

Lemma writes_lift {A} (a : A) w : writes (lift (inr a)) w a w [].
Proof. unfold writes, lift. by rewrite app_nil_r. Qed.

Lemma writes_plot_viewership_by_type_and_month df w :
  ready df →
  ∃ w' files,
    writes (plot_viewership_by_type_and_month df) w () w' files
    ∧ all_charts files
    ∧ files.*1 = if has_column df "Content Type"
                 then [chart_path "monthly_viewership_by_type"] else [].
Proof.
  intros [Hh Hs _ _ Hm _ _]. unfold plot_viewership_by_type_and_month.
  destruct (has_column df "Content Type") eqn:Hc; simpl.
  - destruct (pivot_months_summable (column df "Release Month")
                (column df "Content Type") (column df "Hours Viewed") Hs) as [pivot Hp].
    eexists _, _. split_and!.
    + eapply writes_bind; [by apply writes_getitem|].
      eapply writes_bind; [by apply writes_getitem|].
      eapply writes_bind; [by apply writes_getitem|].
      rewrite Hp.
      eapply writes_bind; [apply writes_lift|apply writes_save_fig].
    + apply all_charts_one.
    + done.
  - eexists _, _. split_and!; [apply writes_print|constructor|done].
Qed.

Lemma writes_plot_seasonal_viewership df w :
  ready df →
  ∃ seasons w' files,
    writes (plot_seasonal_viewership df) w (setitem df "Release Season" seasons) w' files
    ∧ Forall2 (λ r s, season_of r = Some s) (rows df) seasons
    ∧ all_charts files ∧ files.*1 = [chart_path "seasonal_viewership"].
Proof.
  intros Hr.
  destruct (plot_seasonal_viewership_run df w (ready_month _ Hr)
              (ready_month_cells _ Hr) (ready_hours _ Hr) (ready_hours_numeric _ Hr))
    as (seasons & agg & Hrun & Hall & _).
  eexists seasons, _, _. split_and!.
  - split; [exact Hrun|reflexivity].
  - done.
  - apply all_charts_one.
  - done.
Qed.

Lemma writes_monthly_releases_and_viewership df w :
  ready df →
  ∃ w' files,
    writes (monthly_releases_and_viewership df) w () w' files
    ∧ all_charts files ∧ files.*1 = [chart_path "monthly_releases_and_viewership"].
Proof.
  intros Hr. unfold monthly_releases_and_viewership.
  destruct (writes_monthly_sum df w Hr) as [s Hs].
  eexists _, _. split_and!.
  - eapply writes_bind; [apply writes_getitem, Hr|].
    eapply writes_bind; [exact Hs|apply writes_save_fig].
  - apply all_charts_one.
  - done.
Qed.

Lemma writes_weekday_release_patterns df w :
  ready df →
  ∃ w' files,
    writes (weekday_release_patterns df) w () w' files
    ∧ all_charts files ∧ files.*1 = [chart_path "weekday_release_patterns"].
Proof.
  intros Hr. unfold weekday_release_patterns. rewrite (ready_day _ Hr); simpl.
  eexists _, _. split_and!.
  - eapply writes_bind; [|apply writes_save_fig].
    split; [apply groupby_col_sum_run; apply Hr|]. by rewrite app_nil_r.
  - apply all_charts_one.
  - done.
Qed.

Lemma holiday_rows_empty ds window_days df :
  rows (holiday_rows ds window_days df) = []
  ↔ existsb (window_match ds window_days) (column df "Release Date") = false.
Proof.
  unfold holiday_rows, column, release_date. simpl.
  induction (rows df) as [|r rs IH]; csimpl; [done|].
  rewrite filter_cons.
  destruct (decide (window_match ds window_days (default VNaN (r !! "Release Date"))
                    = true)) as [Hm|Hm].
  - rewrite Hm. done.
  - apply not_true_is_false in Hm. rewrite Hm. exact IH.
Qed.

Lemma writes_holiday_release_analysis df w :
  ready df →
  let res := holiday_rows default_timestamps 3 df in
  ∃ w', writes (holiday_release_analysis df None 3) w res w'
          (if holiday_match df then [(holiday_path, Csv res)] else []).
Proof.
  intros Hr res. unfold writes.
  rewrite (holiday_release_analysis_world df None 3 default_timestamps w
             eq_refl (ready_date _ Hr) (ready_date_datetime _ Hr)).
  fold res.
  pose proof (df_empty_rows res (has_column_nonempty df _ (ready_date _ Hr))) as Hiff.
  pose proof (holiday_rows_empty default_timestamps 3 df) as Hrows. fold res in Hrows.
  unfold holiday_match.
  destruct (df_empty res) eqn:He.
  - rewrite (proj1 Hrows (proj1 Hiff eq_refl)). eexists. split; [done|].
    simpl. by rewrite app_nil_r.
  - destruct (existsb _ _) eqn:Hex.
    + eexists. split; [done|]. done.
    + discriminate (proj2 Hiff (proj2 Hrows eq_refl)).
Qed.

Lemma print_top_titles_run df n w :
  has_column df "Hours Viewed" = true →
  summable (column df "Hours Viewed") →
  let top := df_take df (nlargest_positions n (hours df)) in
  print_top_titles df n w
  = (inr (),
     {| disk := disk w;
        stdout := stdout w ++ [Line (String "010" "Top titles:");
                               Table (df_cols top (top_titles_columns df))];
        written := written w |}).
Proof.
  intros Hc Hs top. unfold print_top_titles. rewrite Hc; simpl.
  rewrite (bind_inr _ _ _ _ _ (nlargest_run df n w Hc Hs)).
  unfold mbind, M_bind, print, print_table. simpl. by rewrite <-app_assoc.
Qed.

Lemma writes_print_top_titles df n w :
  ready df → ∃ w', writes (print_top_titles df n) w () w' [].
Proof.
  intros Hr. unfold writes.
  rewrite (print_top_titles_run df n w (ready_hours _ Hr) (ready_hours_numeric _ Hr)).
  eexists. split; [done|]. simpl. by rewrite app_nil_r.
Qed.

Lemma writes_after_print {A} (m k : M A) w s a wf files :
  m w = k (printed w s) → writes k (printed w s) a wf files → writes m w a wf files.
Proof. intros Hm [Hk Hf]. unfold writes. by rewrite Hm, Hk. Qed.

Lemma all_charts_app f1 f2 : all_charts f1 → all_charts f2 → all_charts (f1 ++ f2).
Proof. apply Forall_app_2. Qed.

Lemma holiday_match_setitem df col vals :
  col ≠ "Release Date" → length vals = length (rows df) →
  holiday_match (setitem df col vals) = holiday_match df.
Proof. intros Hne Hlen. unfold holiday_match. by rewrite column_setitem_ne. Qed.





(** X16: a batch run on a path where there is no file.  It prints one
    line, the error of the loader with the path in it, ends with status 1
    through [sys.exit], and neither prints anything else nor writes a
    file. *)
Theorem main_missing_file args w :
  disk w !! file args = None →
  main args w
  = (inl (SystemExit 1),
     printed w ("Error loading data: CSV file not found: " +:+ file args)).
Proof.
  intros Hnone.
  apply (main_load_failed args w (FileNotFoundError (file args)) w).
  unfold load_data. by rewrite Hnone.
Qed.

Lemma main_missing_file_witness :
  main default_args empty_world
  = (inl (SystemExit 1),
     printed empty_world "Error loading data: CSV file not found: netflix_content.csv").
Proof. apply (main_missing_file default_args empty_world). reflexivity. Defined.

Lemma df_cols_rows_lookup df cols i :
  rows (df_cols df cols) !! i
  = (λ r : Row, filter (λ kv, kv.1 ∈ cols) r) <$> rows df !! i.
Proof. unfold df_cols. simpl. by rewrite list_lookup_fmap. Qed.

(** X17: the Top-N report.  Without a column named Hours Viewed it prints
    that it cannot compute the top titles.  Otherwise it prints a heading
    and one table and writes no file: the table has the rows Top-N
    selects, in that order, cut down to those of the columns Title, Hours
    Viewed, Language Indicator, Content Type and Release Date that the
    table has, in this order. *)
Theorem print_top_titles_report df n w :
  (has_column df "Hours Viewed" = false →
   print_top_titles df n w
   = (inr (), printed w "'Hours Viewed' column missing. Cannot compute top titles."))
  ∧ (has_column df "Hours Viewed" = true →
     summable (column df "Hours Viewed") →
     ∃ top shown wf,
       nlargest df n "Hours Viewed" w = (inr top, w)
       ∧ print_top_titles df n w = (inr (), wf)
       ∧ stdout wf = (stdout w ++ [Line (String "010" "Top titles:"); Table shown])%list
       ∧ written wf = written w
       ∧ columns shown = top_titles_columns df
       ∧ length (rows shown) = length (rows top)
       ∧ ∀ i r, rows top !! i = Some r →
           rows shown !! i = Some (filter (λ kv, kv.1 ∈ top_titles_columns df) r)).
Proof.
  split.
  - intros Hc. unfold print_top_titles. by rewrite Hc.
  - intros Hc Hs. eexists _, _, _. split; [by apply nlargest_run|].
    split; [by apply print_top_titles_run|]. split_and!; try done.
    + simpl. by rewrite length_fmap.
    + intros i r Hr. rewrite df_cols_rows_lookup. by rewrite Hr.
Qed.

Lemma print_top_titles_report_witness :
  print_top_titles titles_only 5 empty_world
  = (inr (), printed empty_world
               "'Hours Viewed' column missing. Cannot compute top titles.")
  ∧ ∃ top shown wf,
      nlargest monthly_table 2 "Hours Viewed" empty_world = (inr top, empty_world)
      ∧ print_top_titles monthly_table 2 empty_world = (inr (), wf)
      ∧ stdout wf = (stdout empty_world
                     ++ [Line (String "010" "Top titles:"); Table shown])%list
      ∧ written wf = written empty_world
      ∧ columns shown = top_titles_columns monthly_table
      ∧ length (rows shown) = length (rows top)
      ∧ ∀ i r, rows top !! i = Some r →
          rows shown !! i
          = Some (filter (λ kv, kv.1 ∈ top_titles_columns monthly_table) r).
Proof.
  split.
  - apply (proj1 (print_top_titles_report titles_only 5 empty_world)). reflexivity.
  - apply (proj2 (print_top_titles_report monthly_table 2 empty_world)).
    + reflexivity.
    + change (summable [VFloat 10; VNaN; VFloat 5]). unfold summable.
      repeat constructor.
Defined.

(** ** What the two preprocessing steps report *)

Lemma to_numeric_lookup vs i :
  num_of <$> to_numeric vs !! i = num_of <$> (to_numeric_scalar <$> vs) !! i.
Proof. apply (unify_dtype_lookup (to_numeric_scalar <$> vs) i). Qed.



Lemma columns_setitem_present df col vals :
  has_column df col = true → columns (setitem df col vals) = columns df.
Proof. intros Hc. unfold setitem. simpl. by rewrite Hc. Qed.

(** X19: what the column normalizer reports.  On a table that has the
    column it never fails; it leaves the header as it is, writes no file,
    and prints one warning exactly when some cell of the column is missing
    after cleaning, with the number of such cells in it. *)
Theorem clean_hours_report df col w :
  has_column df col = true →
  ∃ df' wf,
    clean_hours df col w = (inr df', wf)
    ∧ columns df' = columns df
    ∧ written wf = written w
    ∧ stdout wf
      = (stdout w ++ match isna_sum (column df' col) with
                     | O => []
                     | n => [Line (nan_warning n col)]
                     end)%list.
Proof.
  intros Hc. eexists _, _. split; [by apply clean_hours_run|]. simpl.
  split; [by rewrite Hc|].
  destruct (isna_sum _) as [|n] eqn:Hn.
  - rewrite bool_decide_eq_false_2 by (intros H; by apply H).
    by rewrite app_nil_r.
  - by rewrite bool_decide_eq_true_2 by done.
Qed.

Lemma clean_hours_report_witness :
  ∃ df' wf,
    clean_hours scenario_table "Hours Viewed" empty_world = (inr df', wf)
    ∧ columns df' = columns scenario_table
    ∧ written wf = written empty_world
    ∧ stdout wf
      = (stdout empty_world ++ match isna_sum (column df' "Hours Viewed") with
                               | O => []
                               | n => [Line (nan_warning n "Hours Viewed")]
                               end)%list.
Proof. apply (clean_hours_report scenario_table "Hours Viewed" empty_world). reflexivity. Defined.

Lemma columns_setitem df col vals :
  columns (setitem df col vals)
  = if has_column df col then columns df else (columns df ++ [col])%list.
Proof. done. Qed.

Lemma decide_absent df c (l : list string) :
  (if decide (c ∉ columns df) then c :: l else l)
  = if has_column df c then l else c :: l.
Proof.
  unfold has_column. destruct (decide (c ∉ columns df)) as [H|H].
  - by rewrite bool_decide_eq_false_2.
  - rewrite bool_decide_eq_true_2; [done|]. by apply dec_stable.
Qed.

Lemma has_column_or_same df c dc :
  has_column df dc = true → has_column df c || bool_decide (c = dc) = has_column df c.
Proof.
  intros Hdc. case_bool_decide as Heq; [|apply orb_false_r].
  subst c. by rewrite Hdc.
Qed.


